(** * Section processor: a shallow embedding of [section_processor.py]

    The development follows the phases of [SectionProcessor]: annotation
    loading and validation, section cropping with identity assignment,
    catalog construction and pattern aggregation.  Python values are
    modelled as the JSON documents [json.load] produces, exceptions as an
    explicit [result] type, the attributes of [self] as a record that is
    threaded through a small state-and-exception monad, and binary64
    arithmetic by correctly rounded operations on rationals.

    Of [performance_analyzer.py] the development embeds
    [_optimal_height_factor], which works on the integers of a cataloged
    module; the rest of that file and [generate_sample_performance_data.py]
    compute on pandas tables and random draws and are left out.

    Boundaries of the model:
    - JSON numbers are integers (a Python [int]); JSON floats are left out;
      a [bool] met where a number is expected counts as 0 or 1 and is
      recorded as that integer;
    - [str] is a byte string and [str_lower] lowers the letters A to Z,
      which is [str.lower] on ASCII strings only: where a theorem spells
      out the lowered type tag it assumes an ASCII tag ([is_ascii]);
    - the file system and the imaging library are an oracle ([World]);
      every theorem holds for all oracles;
    - [base_dir] is the default [.], so every directory of the processor
      is a relative path; joining a directory with a name that starts at
      the root gives that name, and [relative_to] raises on it, as
      [pathlib] has it; the other normalisations of [pathlib] (repeated
      separators, [.] components) are left out, so where a theorem spells
      out the names of the files of a section it assumes a type tag
      without separator;
    - the set of types found is kept as a list whose order stands for
      nothing: [list(set)] may give any order;
    - [print] is not modelled, nor the text of error messages beyond their
      structure, nor the elapsed time, the templates of phase 5 and the
      serialisation of the output documents;
    - [-0.0] and [0.0] are identified (they are equal in Python, too).

    Sharing.  The section dicts that [crop_sections] extends are the
    objects held by [self.annotations], by [self.sections_catalog] and by
    the lists of [self.section_types].  Each of them is extended once,
    before it is appended, and never written again; after phase 2 nothing
    reads the sections through [self.annotations] (only its length is
    used).  The model therefore keeps the annotations as loaded and gives
    the catalog and the type groups the extended value. *)

From Stdlib Require Import ZArith QArith Qround Qpower Qabs Qminmax.
From Stdlib Require Import Bool String Ascii List Lia Lqa.
From Stdlib Require Import DecimalString DecimalN SpecFloat.
From Stdlib Require Import Sorted Permutation.
Import ListNotations.

Local Open Scope string_scope.
Local Open Scope list_scope.
Local Open Scope Z_scope.

(** ** Exceptions and results *)

Inductive exn : Type :=
| KeyError
| TypeError
| AttributeError
| ZeroDivisionError
| OverflowError
| ValueError
| OSError.

Inductive result (A : Type) : Type :=
| Ok (a : A)
| Raise (e : exn).

Arguments Ok {A} a.
Arguments Raise {A} e.

Definition rbind {A B : Type} (r : result A) (k : A -> result B) : result B :=
  match r with
  | Ok a => k a
  | Raise e => Raise e
  end.

Declare Scope result_scope.
Delimit Scope result_scope with result.
Notation "x <~ r ;; k" := (rbind r (fun x => k))
  (at level 61, r at next level, right associativity) : result_scope.

(** ** JSON documents as Python values *)

#[local] Unset Elimination Schemes.
Inductive json : Type :=
| JNull
| JBool (b : bool)
| JInt (z : Z)
| JStr (s : string)
| JList (l : list json)
| JObj (kv : list (string * json)).
#[local] Set Elimination Schemes.

(** A [dict] with string keys: an association list in insertion order.
    Lookup takes the first binding; assignment replaces the binding in
    place or appends a new one, as a Python [dict] does. *)
Definition dict (V : Type) : Type := list (string * V).

Fixpoint dict_get {V : Type} (k : string) (d : dict V) : option V :=
  match d with
  | [] => None
  | (k', v) :: d' => if String.eqb k k' then Some v else dict_get k d'
  end.

Fixpoint dict_set {V : Type} (k : string) (v : V) (d : dict V) : dict V :=
  match d with
  | [] => [(k, v)]
  | (k', v') :: d' =>
      if String.eqb k k' then (k, v) :: d' else (k', v') :: dict_set k v d'
  end.

Definition dict_mem {V : Type} (k : string) (d : dict V) : bool :=
  match dict_get k d with
  | Some _ => true
  | None => false
  end.

Definition dict_keys {V : Type} (d : dict V) : list string := map fst d.

(** [needle in haystack] for two strings. *)
Fixpoint is_substring (needle haystack : string) : bool :=
  if String.prefix needle haystack then true
  else match haystack with
       | EmptyString => false
       | String _ rest => is_substring needle rest
       end.

Definition json_is_str (k : string) (v : json) : bool :=
  match v with
  | JStr s => String.eqb k s
  | _ => false
  end.

(** [k in v] for a string [k]: key membership for a dict, element
    membership for a list, substring test for a string; the other values
    are not containers. *)
Definition py_contains (k : string) (v : json) : result bool :=
  match v with
  | JObj kv => Ok (dict_mem k kv)
  | JList l => Ok (existsb (json_is_str k) l)
  | JStr s => Ok (is_substring k s)
  | _ => Raise TypeError
  end.

(** [v[k]] for a string [k]. *)
Definition py_getitem (v : json) (k : string) : result json :=
  match v with
  | JObj kv =>
      match dict_get k kv with
      | Some x => Ok x
      | None => Raise KeyError
      end
  | _ => Raise TypeError
  end.

(** [v[k] = x]; only used on dicts. *)
Definition py_setitem (v : json) (k : string) (x : json) : result json :=
  match v with
  | JObj kv => Ok (JObj (dict_set k x kv))
  | _ => Raise TypeError
  end.

(** [v.get(k, default)] *)
Definition py_get_default (v : json) (k : string) (default : json) : result json :=
  match v with
  | JObj kv =>
      match dict_get k kv with
      | Some x => Ok x
      | None => Ok default
      end
  | _ => Raise AttributeError
  end.

(** [for x in v]: the elements of a list, the keys of a dict, the
    characters of a string. *)
Definition py_iter (v : json) : result (list json) :=
  match v with
  | JList l => Ok l
  | JObj kv => Ok (map (fun b => JStr (fst b)) kv)
  | JStr s =>
      Ok (map (fun c => JStr (String c EmptyString)) (list_ascii_of_string s))
  | _ => Raise TypeError
  end.

(** The integer a value stands for in comparisons and arithmetic
    ([bool] is a subclass of [int]). *)
Definition py_int_value (v : json) : result Z :=
  match v with
  | JInt z => Ok z
  | JBool true => Ok 1
  | JBool false => Ok 0
  | _ => Raise TypeError
  end.

(** ** Strings: [lower], [replace], [{:04d}] *)

Definition ascii_lower (c : ascii) : ascii :=
  let n := N_of_ascii c in
  if (65 <=? n)%N && (n <=? 90)%N then ascii_of_N (n + 32) else c.

Fixpoint str_lower (s : string) : string :=
  match s with
  | EmptyString => EmptyString
  | String c s' => String (ascii_lower c) (str_lower s')
  end.

(** [s.replace(old, new)] for single characters. *)
Fixpoint str_replace_char (old new : ascii) (s : string) : string :=
  match s with
  | EmptyString => EmptyString
  | String c s' =>
      String (if Ascii.eqb c old then new else c) (str_replace_char old new s')
  end.

(** [s.replace(old, "")] for a single character. *)
Fixpoint str_remove_char (old : ascii) (s : string) : string :=
  match s with
  | EmptyString => EmptyString
  | String c s' =>
      if Ascii.eqb c old then str_remove_char old s'
      else String c (str_remove_char old s')
  end.

Definition decimal (n : N) : string := NilEmpty.string_of_uint (N.to_uint n).

Fixpoint zeros (k : nat) : string :=
  match k with
  | O => EmptyString
  | S k' => String "0" (zeros k')
  end.

(** [s.zfill(width)] for a string of digits. *)
Definition zfill (width : nat) (s : string) : string :=
  (zeros (width - String.length s) ++ s)%string.

(** [f"{n:04d}"]: at least four characters, sign included. *)
Definition format_04d (n : Z) : string :=
  if n <? 0 then String "-" (zfill 3 (decimal (Z.to_N (- n))))
  else zfill 4 (decimal (Z.to_N n)).

(** ** Identity assigner *)

Definition normalize_type (t : string) : string :=
  str_replace_char " " "_" (str_lower t).

Definition make_section_id (t : string) (counter : Z) : string :=
  (normalize_type t ++ "_" ++ format_04d counter)%string.

(** [generate_section_id]: [section["type"].lower().replace(" ", "_")]
    followed by the counter. *)
Definition generate_section_id (section : json) (counter : Z) : result string :=
  (t <~ py_getitem section "type" ;;
   match t with
   | JStr s => Ok (make_section_id s counter)
   | _ => Raise AttributeError
   end)%result.



(** ** Binary64 arithmetic

    A finite Python [float] is the rational it denotes.  Every operation
    computes the exact rational result and rounds it to the nearest
    binary64 value, ties to even, with gradual underflow; a result of
    magnitude [2^1024] or more is an overflow. *)

Local Open Scope Q_scope.

(** [floor (log2 q)] for a positive [q]. *)
Definition binade (q : Q) : Z :=
  let g := (Z.log2 (Qnum q) - Z.log2 (Z.pos (Qden q)))%Z in
  if Qle_bool (2 ^ g) q then g else (g - 1)%Z.

(** Exponent of the unit in the last place: 53 significant bits, and
    never below the subnormal spacing [2^-1074]. *)
Definition ulp_exponent (q : Q) : Z := Z.max (binade q - 52) (-1074).

Definition round_half_even (q : Q) : Z :=
  let f := Qfloor q in
  match Qcompare (q - inject_Z f) (1 # 2) with
  | Lt => f
  | Gt => (f + 1)%Z
  | Eq => if Z.even f then f else (f + 1)%Z
  end.

Definition round64_pos (q : Q) : Q :=
  let e := ulp_exponent q in
  Qred (inject_Z (round_half_even (q / 2 ^ e)) * 2 ^ e).

Definition round64 (q : Q) : Q :=
  match Qcompare q 0 with
  | Eq => 0
  | Gt => round64_pos q
  | Lt => - round64_pos (- q)
  end.

Definition overflows (q : Q) : bool := Qle_bool (2 ^ 1024) (Qabs q).

Inductive pyfloat : Type :=
| Finite (q : Q)
| Infinite (negative : bool).

(** [a / b] on two [int]s: true division, correctly rounded. *)
Definition py_truediv (a b : Z) : result Q :=
  if (b =? 0)%Z then Raise ZeroDivisionError
  else
    let r := round64 (inject_Z a / inject_Z b) in
    if overflows r then Raise OverflowError else Ok r.

(** [float(n)] for an [int]. *)
Definition py_float_of_int (n : Z) : result Q :=
  let r := round64 (inject_Z n) in
  if overflows r then Raise OverflowError else Ok r.

(** [x * y] on two finite floats. *)
Definition py_float_mul (x y : Q) : pyfloat :=
  let r := round64 (x * y) in
  if overflows r then Infinite (Qle_bool r 0) else Finite r.

(** [int(x)]: truncation towards zero. *)
Definition py_int_of_float (x : pyfloat) : result Z :=
  match x with
  | Finite q => Ok (if Qle_bool 0 q then Qfloor q else (- Qfloor (- q))%Z)
  | Infinite _ => Raise OverflowError
  end.

(** [min(a, b)] keeps the first of two equal arguments. *)
Definition py_min_float (a b : Q) : Q :=
  match Qcompare b a with
  | Lt => b
  | _ => a
  end.

(** [round(x, 2)] on a finite float: the decimal with two places nearest
    to the exact value of [x], ties to even, converted back to binary64. *)
Definition py_round2 (x : Q) : Q :=
  round64 (inject_Z (round_half_even (x * 100)) / 100).

Local Close Scope Q_scope.

(** The integer operations of the cropper. *)
Definition py_min (a b : Z) : Z := if (b <? a)%Z then b else a.
Definition py_max (a b : Z) : Z := if (a <? b)%Z then b else a.

(** ** The environment of a run *)

(** What [open] and [json.load] give for one annotation file. *)
Inductive file_content : Type :=
| Parsed (annotation : json)
| Unreadable (e : exn).

(** The calls into the imaging library made while one section is cropped. *)
Inductive pil_call : Type :=
| PilCrop (box : Z * Z * Z * Z)
| PilSave (path : string)
| PilResize (source size : Z * Z).

Record World : Type := mkWorld {
  (** [annotations_dir.glob("annotations_*.json")], [None] when the
      directory does not exist *)
  annotation_files : option (list (string * file_content));
  (** [Path.exists] under the screenshots directory *)
  screenshot_exists : string -> bool;
  (** [Image.open] and the conversion to RGB: the size of the image *)
  image_open : string -> result (N * N);
  (** the exception, if any, a library call raises on a given screenshot *)
  pil_raises : string -> pil_call -> option exn;
  (** [datetime.now().isoformat()] when the section with the given
      sequence number is cataloged *)
  now_isoformat : Z -> string
}.

Inductive error_msg : Type :=
| MissingRequiredField (field file : string)
| SectionsNotList (file : string)
| MissingSectionField (field : string) (index : nat) (file : string)
| NoMatchingScreenshot (source_image : json)
| ErrorLoading (file : string) (e : exn)
| ErrorProcessing (source_image : json) (e : exn).

(** ** The processor object *)

Record processor : Type := mkProcessor {
  annotations : list json;
  sections_catalog : list json;
  section_types : dict (list json);
  files_processed : Z;
  sections_extracted : Z;
  section_types_found : list string;
  errors : list error_msg;
  saved_files : list string
}.

(** [SectionProcessor.__init__] *)
Definition new_processor : processor :=
  {| annotations := [];
     sections_catalog := [];
     section_types := [];
     files_processed := 0;
     sections_extracted := 0;
     section_types_found := [];
     errors := [];
     saved_files := [] |}.

(** [self.processing_stats["errors"].append(error_msg)] *)
Definition log_error (m : error_msg) (p : processor) : processor :=
  {| annotations := annotations p;
     sections_catalog := sections_catalog p;
     section_types := section_types p;
     files_processed := files_processed p;
     sections_extracted := sections_extracted p;
     section_types_found := section_types_found p;
     errors := errors p ++ [m];
     saved_files := saved_files p |}.

(** [self.annotations.append(annotation)] and
    [self.processing_stats["files_processed"] += 1] *)
Definition append_annotation (a : json) (p : processor) : processor :=
  {| annotations := annotations p ++ [a];
     sections_catalog := sections_catalog p;
     section_types := section_types p;
     files_processed := files_processed p + 1;
     sections_extracted := sections_extracted p;
     section_types_found := section_types_found p;
     errors := errors p;
     saved_files := saved_files p |}.

Definition record_saved (path : string) (p : processor) : processor :=
  {| annotations := annotations p;
     sections_catalog := sections_catalog p;
     section_types := section_types p;
     files_processed := files_processed p;
     sections_extracted := sections_extracted p;
     section_types_found := section_types_found p;
     errors := errors p;
     saved_files := saved_files p ++ [path] |}.

(** [d[k].append(v)] on a [defaultdict(list)] *)
Fixpoint group_append {V : Type} (k : string) (v : V) (d : dict (list V))
  : dict (list V) :=
  match d with
  | [] => [(k, [v])]
  | (k', vs) :: d' =>
      if String.eqb k k' then (k', vs ++ [v]) :: d'
      else (k', vs) :: group_append k v d'
  end.

(** [s.add(k)] on a [set].  The members are kept in a list without
    repetition; the order of that list stands for nothing, as a Python
    set has none, and no statement below depends on it. *)
Definition set_add (k : string) (s : list string) : list string :=
  if existsb (String.eqb k) s then s else s ++ [k].

(** The four updates of [self] made for a cropped section. *)
Definition catalog_section (section_type : string) (section : json)
    (p : processor) : processor :=
  {| annotations := annotations p;
     sections_catalog := sections_catalog p ++ [section];
     section_types := group_append section_type section (section_types p);
     files_processed := files_processed p;
     sections_extracted := sections_extracted p + 1;
     section_types_found := set_add section_type (section_types_found p);
     errors := errors p;
     saved_files := saved_files p |}.

(** ** State and exceptions *)

Definition M (S A : Type) : Type := S -> result A * S.

Definition ret {S A : Type} (a : A) : M S A := fun s => (Ok a, s).

Definition bind {S A B : Type} (m : M S A) (k : A -> M S B) : M S B :=
  fun s =>
    match m s with
    | (Ok a, s') => k a s'
    | (Raise e, s') => (Raise e, s')
    end.

Definition lift {S A : Type} (r : result A) : M S A := fun s => (r, s).

Definition raise {S A : Type} (e : exn) : M S A := fun s => (Raise e, s).

Definition gets {S A : Type} (f : S -> A) : M S A := fun s => (Ok (f s), s).

Definition modify {S : Type} (f : S -> S) : M S unit := fun s => (Ok tt, f s).

(** [try: body except Exception as e: handler(e)]; the updates the body
    made before it raised stay. *)
Definition try_except {S A : Type} (body : M S A) (handler : exn -> M S A)
  : M S A :=
  fun s =>
    match body s with
    | (Ok a, s') => (Ok a, s')
    | (Raise e, s') => handler e s'
    end.

Declare Scope monad_scope.
Delimit Scope monad_scope with monad.
Notation "x <- m ;; k" := (bind m (fun x => k))
  (at level 61, m at next level, right associativity) : monad_scope.
Notation "m ;; k" := (bind m (fun _ => k))
  (at level 61, right associativity) : monad_scope.

Local Open Scope monad_scope.

(** ** Phase 1: annotation loader *)

Definition screenshots_dir : string := "store_screenshots".
Definition annotations_dir : string := "annotations".

(** A path that starts at the root. *)
Definition is_absolute (p : string) : bool :=
  match p with
  | EmptyString => false
  | String c _ => Ascii.eqb c "/"
  end.

(** [dir / name]: an absolute [name] replaces [dir], as [pathlib] has
    it. *)
Definition path_join (dir name : string) : string :=
  if is_absolute name then name else (dir ++ "/" ++ name)%string.

Fixpoint has_slash (p : string) : bool :=
  match p with
  | EmptyString => false
  | String c r => Ascii.eqb c "/" || has_slash r
  end.

(** [Path(p).name]: the text after the last separator. *)
Fixpoint path_name (p : string) : string :=
  match p with
  | EmptyString => EmptyString
  | String c r =>
      if has_slash r then path_name r
      else if Ascii.eqb c "/" then r else p
  end.

Definition required_fields : list string :=
  ["source_image"; "image_dimensions"; "sections"].

Definition required_section_fields : list string :=
  ["id"; "type"; "coordinates"].

(** [for field in fields: if field not in v: <log>; return False] *)
Fixpoint check_fields (missing : string -> error_msg) (fields : list string)
    (v : json) : M processor bool :=
  match fields with
  | [] => ret true
  | field :: rest =>
      present <- lift (py_contains field v) ;;
      if present then check_fields missing rest v
      else modify (log_error (missing field)) ;; ret false
  end.

(** [for i, section in enumerate(annotation["sections"]): ...] *)
Fixpoint check_sections (file : string) (i : nat) (sections : list json)
  : M processor bool :=
  match sections with
  | [] => ret true
  | section :: rest =>
      ok <- check_fields (fun field => MissingSectionField field i file)
              required_section_fields section ;;
      if ok then check_sections file (S i) rest else ret false
  end.

Definition validate_annotation (annotation : json) (file : string)
  : M processor bool :=
  ok <- check_fields (fun field => MissingRequiredField field file)
          required_fields annotation ;;
  if ok then
    sections <- lift (py_getitem annotation "sections") ;;
    match sections with
    | JList l => check_sections file 0 l
    | _ => modify (log_error (SectionsNotList file)) ;; ret false
    end
  else ret false.

Definition find_matching_screenshot (w : World) (source_image : json)
  : result (option string) :=
  match source_image with
  | JStr name =>
      let screenshot_path := path_join screenshots_dir name in
      if screenshot_exists w screenshot_path then Ok (Some screenshot_path)
      else
        let alt_name := str_remove_char " " name in
        let alt_path := path_join screenshots_dir alt_name in
        if screenshot_exists w alt_path then Ok (Some alt_path) else Ok None
  | _ => Raise TypeError
  end.

Definition read_annotation (content : file_content) : result json :=
  match content with
  | Parsed annotation => Ok annotation
  | Unreadable e => Raise e
  end.

(** The body of the loop of [load_annotations] for one file. *)
Definition load_annotation_file (w : World) (ann_file : string * file_content)
  : M processor unit :=
  let '(name, content) := ann_file in
  try_except
    (annotation <- lift (read_annotation content) ;;
     valid <- validate_annotation annotation name ;;
     if valid then
       source_image <- lift (py_getitem annotation "source_image") ;;
       found <- lift (find_matching_screenshot w source_image) ;;
       match found with
       | Some screenshot_path =>
           a1 <- lift (py_setitem annotation "screenshot_path"
                         (JStr screenshot_path)) ;;
           a2 <- lift (py_setitem a1 "annotation_file"
                         (JStr (path_join annotations_dir name))) ;;
           modify (append_annotation a2)
       | None => modify (log_error (NoMatchingScreenshot source_image))
       end
     else ret tt)
    (fun e => modify (log_error (ErrorLoading name e))).

Fixpoint load_annotation_files (w : World)
    (files : list (string * file_content)) : M processor unit :=
  match files with
  | [] => ret tt
  | ann_file :: rest =>
      load_annotation_file w ann_file ;; load_annotation_files w rest
  end.

Definition load_annotations (w : World) : M processor (list json) :=
  match annotation_files w with
  | None => raise OSError
  | Some files =>
      load_annotation_files w files ;;
      gets annotations
  end.

(** ** Phase 2: section cropper *)

(** [calculate_resize]: the scale is [min(max_width / width,
    max_height / height, 1.0)], both new dimensions are [int(d * scale)]. *)
Definition calculate_resize (original_size max_size : Z * Z)
  : result (Z * Z) :=
  let '(width, height) := original_size in
  let '(max_width, max_height) := max_size in
  (a <~ py_truediv max_width width ;;
   b <~ py_truediv max_height height ;;
   let scale := py_min_float (py_min_float a b) 1 in
   fw <~ py_float_of_int width ;;
   new_width <~ py_int_of_float (py_float_mul fw scale) ;;
   fh <~ py_float_of_int height ;;
   new_height <~ py_int_of_float (py_float_mul fh scale) ;;
   Ok (new_width, new_height))%result.

Definition size_json (size : Z * Z) : json :=
  JObj [("width", JInt (fst size)); ("height", JInt (snd size))].

(** [self.full_dir / f"{filename_base}.png"] and its two siblings,
    written from [self.output_dir]; a file name that starts at the root
    leaves the output directory. *)
Definition full_path (filename_base : string) : string :=
  path_join "images/full" (filename_base ++ ".png").
Definition medium_path (filename_base : string) : string :=
  path_join "images/medium" (filename_base ++ "_medium.png").
Definition thumb_path (filename_base : string) : string :=
  path_join "images/thumbnails" (filename_base ++ "_thumb.png").

(** [str(path.relative_to(self.output_dir))].  The output directory is a
    relative path ([base_dir] is the default [.]), so a path that starts
    at the root does not lie under it. *)
Definition relative_to_output (path : string) : result string :=
  if is_absolute path then Raise ValueError else Ok path.

(** One call into the imaging library; a save that returns leaves a file. *)
Definition pil (w : World) (screenshot : string) (call : pil_call)
  : M processor unit :=
  match pil_raises w screenshot call with
  | Some e => raise e
  | None =>
      match call with
      | PilSave path => modify (record_saved path)
      | _ => ret tt
      end
  end.

(** The clamping of [crop_section_image] (lines 215 to 218): [x] and [y]
    first, then the extent that is left. *)
Definition clamp_box (img_size : Z * Z) (x y width height : Z)
  : Z * Z * Z * Z :=
  let '(img_width, img_height) := img_size in
  let x := py_max 0 (py_min x img_width) in
  let y := py_max 0 (py_min y img_height) in
  let width := py_min width (img_width - x) in
  let height := py_min height (img_height - y) in
  (x, y, width, height).

(** The part of [crop_section_image] behind the guard: the crop, the
    three derivatives and the returned document.  Both resizes start from
    [cropped], whose size is that of the box.  The document names the
    three files from the output directory: [relative_to] raises, after
    the three saves, when the file name starts at the root. *)
Definition render_section (w : World) (screenshot : string)
    (box : Z * Z * Z * Z) (size : Z * Z) (section_id section_type : string)
  : M processor (option json) :=
  pil w screenshot (PilCrop box) ;;
  let filename_base := (section_id ++ "_" ++ section_type)%string in
  pil w screenshot (PilSave (full_path filename_base)) ;;
  medium_size <- lift (calculate_resize size (400, 300)) ;;
  pil w screenshot (PilResize size medium_size) ;;
  pil w screenshot (PilSave (medium_path filename_base)) ;;
  thumb_size <- lift (calculate_resize size (200, 150)) ;;
  pil w screenshot (PilResize size thumb_size) ;;
  pil w screenshot (PilSave (thumb_path filename_base)) ;;
  full <- lift (relative_to_output (full_path filename_base)) ;;
  medium <- lift (relative_to_output (medium_path filename_base)) ;;
  thumbnail <- lift (relative_to_output (thumb_path filename_base)) ;;
  ret (Some (JObj
    [("full", JStr full);
     ("medium", JStr medium);
     ("thumbnail", JStr thumbnail);
     ("dimensions", JObj
        [("original", size_json size);
         ("medium", size_json medium_size);
         ("thumbnail", size_json thumb_size)])])).

(** [crop_section_image].  The four values are read, then compared with
    the size of the image: a missing key and a value that is no number
    both end in the handler, which returns [None]. *)
Definition crop_section_image (w : World) (screenshot : string)
    (img_size : Z * Z) (coords : json) (section_id section_type : string)
  : M processor (option json) :=
  try_except
    (x <- lift (py_getitem coords "x") ;;
     y <- lift (py_getitem coords "y") ;;
     width <- lift (py_getitem coords "width") ;;
     height <- lift (py_getitem coords "height") ;;
     x <- lift (py_int_value x) ;;
     y <- lift (py_int_value y) ;;
     width <- lift (py_int_value width) ;;
     height <- lift (py_int_value height) ;;
     let '(x, y, width, height) := clamp_box img_size x y width height in
     if (width <=? 0) || (height <=? 0) then ret None
     else
       render_section w screenshot (x, y, x + width, y + height)
         (width, height) section_id section_type)
    (fun _ => ret None).

(** The local variable [section_counter] of [crop_sections] next to
    [self]: it keeps its value when an annotation is abandoned. *)
Record cropping : Type := mkCropping {
  self : processor;
  section_counter : Z
}.

Definition on_self {A : Type} (m : M processor A) : M cropping A :=
  fun st =>
    let '(r, p) := m (self st) in
    (r, {| self := p; section_counter := section_counter st |}).

(** The updates made for a cropped section, [section_counter += 1] last. *)
Definition catalog_and_count (section_type : string) (section : json)
    (st : cropping) : cropping :=
  {| self := catalog_section section_type section (self st);
     section_counter := section_counter st + 1 |}.

(** The four keys added to a section that was cropped. *)
Definition enrich (section : json) (section_id source_file : string)
    (cropped_files : json) (processing_date : string) : result json :=
  (s1 <~ py_setitem section "unique_id" (JStr section_id) ;;
   s2 <~ py_setitem s1 "source_file" (JStr source_file) ;;
   s3 <~ py_setitem s2 "cropped_files" cropped_files ;;
   py_setitem s3 "processing_date" (JStr processing_date))%result.

(** The body of the inner loop of [crop_sections].  Once
    [generate_section_id] has returned, [section["type"]] is a string; the
    last branch is there for the other values only. *)
Definition process_section (w : World) (screenshot : string)
    (img_size : Z * Z) (section : json) : M cropping unit :=
  counter <- gets section_counter ;;
  section_id <- lift (generate_section_id section counter) ;;
  coords <- lift (py_getitem section "coordinates") ;;
  type <- lift (py_getitem section "type") ;;
  match type with
  | JStr section_type =>
      cropped_section <- on_self (crop_section_image w screenshot img_size
                                    coords section_id section_type) ;;
      match cropped_section with
      | Some cropped_files =>
          section' <- lift (enrich section section_id (path_name screenshot)
                              cropped_files (now_isoformat w counter)) ;;
          modify (catalog_and_count section_type section')
      | None => ret tt
      end
  | _ => raise AttributeError
  end.

Fixpoint process_sections (w : World) (screenshot : string)
    (img_size : Z * Z) (sections : list json) : M cropping unit :=
  match sections with
  | [] => ret tt
  | section :: rest =>
      process_section w screenshot img_size section ;;
      process_sections w screenshot img_size rest
  end.

(** The body of the outer loop of [crop_sections], with its handler.
    [Path] takes a string, as the loader stored one. *)
Definition process_annotation (w : World) (annotation : json)
  : M cropping unit :=
  try_except
    (path <- lift (py_getitem annotation "screenshot_path") ;;
     match path with
     | JStr screenshot =>
         size <- lift (image_open w screenshot) ;;
         let img_size := (Z.of_N (fst size), Z.of_N (snd size)) in
         sections <- lift (py_getitem annotation "sections") ;;
         sections <- lift (py_iter sections) ;;
         process_sections w screenshot img_size sections
     | _ => raise TypeError
     end)
    (fun e =>
       source_image <- lift (py_get_default annotation "source_image"
                               (JStr "unknown")) ;;
       on_self (modify (log_error (ErrorProcessing source_image e)))).

Fixpoint process_annotations (w : World) (anns : list json)
  : M cropping unit :=
  match anns with
  | [] => ret tt
  | annotation :: rest =>
      process_annotation w annotation ;; process_annotations w rest
  end.

Definition crop_sections (w : World) : M processor unit :=
  fun p =>
    let '(r, st) :=
      process_annotations w (annotations p)
        {| self := p; section_counter := 1 |} in
    (r, self st).

(** ** Phase 3: pattern aggregator *)

(** A number of the patterns document: an [int] or a [float]. *)
Inductive pynum : Type :=
| PInt (z : Z)
| PFloat (q : Q).

Definition pynum_value (n : pynum) : Q :=
  match n with
  | PInt z => inject_Z z
  | PFloat q => q
  end.

(** [==] on numbers: [0 == 0.0]. *)
Definition pynum_eqb (a b : pynum) : bool :=
  Qeq_bool (pynum_value a) (pynum_value b).

Definition dims_eqb (a b : Z * Z) : bool :=
  (fst a =? fst b) && (snd a =? snd b).

(** [round(width / height, 2) if height > 0 else 0] *)
Definition aspect_ratio_of (width height : Z) : result pynum :=
  if 0 <? height then
    (q <~ py_truediv width height ;; Ok (PFloat (py_round2 q)))%result
  else Ok (PInt 0).

(** What one section adds to the three lists of its type group:
    [(width, height)], the aspect ratio and the area, all from
    [section["coordinates"]].  The cataloged sections have integer
    coordinates: any other value fails in [crop_section_image]. *)
Definition section_measure (section : json)
  : result ((Z * Z) * pynum * Z) :=
  (coords <~ py_getitem section "coordinates" ;;
   width <~ py_getitem coords "width" ;;
   height <~ py_getitem coords "height" ;;
   width <~ py_int_value width ;;
   height <~ py_int_value height ;;
   let area := width * height in
   aspect_ratio <~ aspect_ratio_of width height ;;
   Ok ((width, height), aspect_ratio, area))%result.

Fixpoint result_map {A B : Type} (f : A -> result B) (l : list A)
  : result (list B) :=
  match l with
  | [] => Ok []
  | a :: l' =>
      (b <~ f a ;; bs <~ result_map f l' ;; Ok (b :: bs))%result
  end.

(** [Counter(items)]: the distinct items in order of first occurrence,
    each with its number of occurrences. *)
Fixpoint counter_add {K : Type} (eqb : K -> K -> bool) (k : K)
    (c : list (K * Z)) : list (K * Z) :=
  match c with
  | [] => [(k, 1)]
  | (k', n) :: c' =>
      if eqb k' k then (k', n + 1) :: c'
      else (k', n) :: counter_add eqb k c'
  end.

Definition counter_of {K : Type} (eqb : K -> K -> bool) (items : list K)
  : list (K * Z) :=
  fold_left (fun c k => counter_add eqb k c) items [].

(** Insertion behind every entry that is at least as frequent. *)
Fixpoint insert_by_count {K : Type} (x : K * Z) (sorted : list (K * Z))
  : list (K * Z) :=
  match sorted with
  | [] => [x]
  | y :: rest =>
      if snd y <? snd x then x :: y :: rest
      else y :: insert_by_count x rest
  end.

(** [Counter.most_common(n)]: by decreasing count, equal counts in order
    of first occurrence. *)
Definition most_common {K : Type} (n : nat) (c : list (K * Z))
  : list (K * Z) :=
  firstn n (fold_left (fun sorted x => insert_by_count x sorted) c []).

Definition sum_Z (l : list Z) : Z := fold_left Z.add l 0.

(** [min(l)] and [max(l)] of a list that is not empty *)
Definition min_Z (l : list Z) : Z :=
  match l with
  | [] => 0
  | a :: l' => fold_left py_min l' a
  end.

Definition max_Z (l : list Z) : Z :=
  match l with
  | [] => 0
  | a :: l' => fold_left py_max l' a
  end.

Record type_pattern : Type := mkTypePattern {
  count : Z;
  common_dimensions : list ((Z * Z) * Z);
  common_aspect_ratios : list (pynum * Z);
  avg_area : pynum;
  min_area : Z;
  max_area : Z
}.

(** The entry of [patterns["section_types"]] for one type group. *)
Definition pattern_of_group (sections : list json) : result type_pattern :=
  (measures <~ result_map section_measure sections ;;
   let dimensions := map (fun m => fst (fst m)) measures in
   let aspect_ratios := map (fun m => snd (fst m)) measures in
   let areas := map snd measures in
   avg <~ match areas with
          | [] => Ok (PInt 0)
          | _ => q <~ py_truediv (sum_Z areas) (Z.of_nat (length areas)) ;;
                 Ok (PFloat q)
          end ;;
   Ok {| count := Z.of_nat (length sections);
         common_dimensions := most_common 5 (counter_of dims_eqb dimensions);
         common_aspect_ratios :=
           most_common 3 (counter_of pynum_eqb aspect_ratios);
         avg_area := avg;
         min_area := match areas with [] => 0 | _ => min_Z areas end;
         max_area := match areas with [] => 0 | _ => max_Z areas end |})%result.

Record patterns : Type := mkPatterns {
  pattern_section_types : dict type_pattern;
  most_common_types : list (string * Z);
  total_sections : Z;
  unique_types : Z
}.

Definition section_type_tag (section : json) : result string :=
  (t <~ py_getitem section "type" ;;
   match t with
   | JStr s => Ok s
   | _ => Raise TypeError
   end)%result.

Definition analyze_patterns (p : processor) : result patterns :=
  (per_type <~ result_map
                 (fun g => pat <~ pattern_of_group (snd g) ;; Ok (fst g, pat))
                 (section_types p) ;;
   tags <~ result_map section_type_tag (sections_catalog p) ;;
   Ok {| pattern_section_types := per_type;
         most_common_types := most_common 10 (counter_of String.eqb tags);
         total_sections := Z.of_nat (length (sections_catalog p));
         unique_types := Z.of_nat (length (section_types p)) |})%result.

(** ** Phase 4: module catalog *)

Record catalog : Type := mkCatalog {
  total_modules : Z;
  source_stores : Z;
  catalog_section_types : list string;
  modules : list json;
  types_index : dict (list json)
}.

(** [{section_type: [s["unique_id"] for s in sections] for ...}] *)
Definition index_of_groups (groups : dict (list json))
  : result (dict (list json)) :=
  result_map
    (fun g =>
       (ids <~ result_map (fun s => py_getitem s "unique_id") (snd g) ;;
        Ok (fst g, ids))%result)
    groups.

Definition generate_module_catalog (p : processor) : result catalog :=
  (index <~ index_of_groups (section_types p) ;;
   Ok {| total_modules := Z.of_nat (length (sections_catalog p));
         source_stores := Z.of_nat (length (annotations p));
         catalog_section_types := section_types_found p;
         modules := sections_catalog p;
         types_index := index |})%result.

(** ** Statistics *)

Record statistics : Type := mkStatistics {
  stat_files_processed : Z;
  stat_sections_extracted : Z;
  errors_count : Z;
  section_type_breakdown : dict Z;
  stat_errors : list error_msg
}.

(** [generate_statistics], without the elapsed time and the
    recommendation texts. *)
Definition generate_statistics (p : processor) : statistics :=
  {| stat_files_processed := files_processed p;
     stat_sections_extracted := sections_extracted p;
     errors_count := Z.of_nat (length (errors p));
     section_type_breakdown :=
       map (fun g => (fst g, Z.of_nat (length (snd g)))) (section_types p);
     stat_errors := errors p |}.

(** ** The pipeline *)

Record artifacts : Type := mkArtifacts {
  out_patterns : patterns;
  out_catalog : catalog;
  out_statistics : statistics
}.

(** [run_full_processing]: the phases in order; nothing is emitted when
    no annotation was loaded. *)
Definition run_full_processing (w : World) : M processor (option artifacts) :=
  anns <- load_annotations w ;;
  match anns with
  | [] => ret None
  | _ =>
      crop_sections w ;;
      pats <- bind (gets analyze_patterns) lift ;;
      cat <- bind (gets generate_module_catalog) lift ;;
      stats <- gets generate_statistics ;;
      ret (Some {| out_patterns := pats;
                   out_catalog := cat;
                   out_statistics := stats |})
  end.

(** ** Scenarios *)

Definition coordinates (x y width height : Z) : json :=
  JObj [("x", JInt x); ("y", JInt y);
        ("width", JInt width); ("height", JInt height)].

Definition section_spec (id type : string) (coords : json) : json :=
  JObj [("id", JStr id); ("type", JStr type); ("coordinates", coords)].

Definition annotation_record (source_image : string) (width height : Z)
    (sections : list json) : json :=
  JObj [("source_image", JStr source_image);
        ("image_dimensions", size_json (width, height));
        ("sections", JList sections)].

(** A world where every screenshot exists with the given size and no
    library call fails. *)
Definition calm_world (files : list (string * file_content)) (size : N * N)
  : World :=
  {| annotation_files := Some files;
     screenshot_exists := fun _ => true;
     image_open := fun _ => Ok size;
     pil_raises := fun _ _ => None;
     now_isoformat := fun _ => "2024-01-01T00:00:00" |}.

Definition unique_id_of (section : json) : option json :=
  match section with
  | JObj kv => dict_get "unique_id" kv
  | _ => None
  end.

Definition s1_world : World :=
  calm_world
    [("annotations_s1.json",
      Parsed (annotation_record "s1.png" 1000 2000
                [section_spec "a" "Hero Banner" (coordinates 0 0 1200 300)]))]
    (1000%N, 2000%N).

(** ** Notions used by the properties *)

(** The state in which [run_full_processing] leaves a new processor. *)
Definition final_state (w : World) : processor :=
  snd (run_full_processing w new_processor).

Definition is_digit (c : ascii) : bool :=
  let n := N_of_ascii c in (48 <=? n)%N && (n <=? 57)%N.

(** The class [[a-z0-9_]]. *)
Definition is_id_char (c : ascii) : bool :=
  let n := N_of_ascii c in
  ((97 <=? n)%N && (n <=? 122)%N) || is_digit c || Ascii.eqb c "_".

(** The strings of [^[a-z0-9_]+_\d{4}$]: a prefix of one or more class
    characters, an underscore and exactly four digits.  The match is
    decided from the end of the string. *)
Definition matches_unique_id_pattern (s : string) : bool :=
  match rev (list_ascii_of_string s) with
  | d4 :: d3 :: d2 :: d1 :: u :: c :: prefix =>
      forallb is_digit [d1; d2; d3; d4] && Ascii.eqb u "_"
      && forallb is_id_char (c :: prefix)
  | _ => false
  end.

(** A string of ASCII characters.  On these [str_lower] is Python's
    [str.lower]; the lower case of other code points is outside the
    model. *)
Definition is_ascii_char (c : ascii) : bool := (N_of_ascii c <? 128)%N.

Definition is_ascii (s : string) : bool :=
  forallb is_ascii_char (list_ascii_of_string s).

(** A type tag made of ASCII letters, digits, underscores and spaces. *)
Definition is_plain_char (c : ascii) : bool :=
  let n := N_of_ascii c in
  ((65 <=? n)%N && (n <=? 90)%N) || is_id_char c || Ascii.eqb c " ".

Definition is_plain_type (t : string) : bool :=
  negb (String.eqb t "") && forallb is_plain_char (list_ascii_of_string t).

(** The text behind the last underscore of an identifier. *)
Fixpoint after_last_underscore (s : string) : string :=
  match s with
  | EmptyString => EmptyString
  | String c r =>
      if is_substring "_" r then after_last_underscore r
      else if Ascii.eqb c "_" then r else s
  end.

(** The sequence number an identifier ends with. *)
Definition sequence_number (unique_id : string) : option Z :=
  option_map (fun d => Z.of_N (N.of_uint d))
    (NilZero.uint_of_string (after_last_underscore unique_id)).

Definition section_unique_id (section : json) : option string :=
  match unique_id_of section with
  | Some (JStr s) => Some s
  | _ => None
  end.

(** The index rebuilt from the flat list of modules, grouped by the
    [type] field as it stands in each module. *)
Definition types_index_from_modules (modules : list json)
  : result (dict (list json)) :=
  fold_left
    (fun acc s =>
       (index <~ acc ;;
        t <~ section_type_tag s ;;
        id <~ py_getitem s "unique_id" ;;
        Ok (group_append t id index))%result)
    modules (Ok []).

(** The identifiers of the modules of one type, in catalog order. *)
Fixpoint ids_of_type (t : string) (modules : list json) : list json :=
  match modules with
  | [] => []
  | s :: rest =>
      match section_type_tag s, py_getitem s "unique_id" with
      | Ok t', Ok id =>
          if String.eqb t t' then id :: ids_of_type t rest
          else ids_of_type t rest
      | _, _ => ids_of_type t rest
      end
  end.

(** The six whitespace characters of ASCII. *)
Definition is_whitespace (c : ascii) : bool :=
  let n := N_of_ascii c in
  ((9 <=? n)%N && (n <=? 13)%N) || (n =? 32)%N.

(** The normalisation as the specification words it: lower case, every
    whitespace character replaced by an underscore. *)
Fixpoint spec_normalize (t : string) : string :=
  match t with
  | EmptyString => EmptyString
  | String c r =>
      String (if is_whitespace c then "_"%char else ascii_lower c)
        (spec_normalize r)
  end.

(** The index as the specification words it: keyed by normalised type. *)
Definition spec_types_index (modules : list json)
  : result (dict (list json)) :=
  fold_left
    (fun acc s =>
       (index <~ acc ;;
        t <~ section_type_tag s ;;
        id <~ py_getitem s "unique_id" ;;
        Ok (group_append (normalize_type t) id index))%result)
    modules (Ok []).

(** A record that lacks one of the listed keys. *)
Definition lacks_field (fields : list string) (v : json) : bool :=
  match v with
  | JObj kv => existsb (fun field => negb (dict_mem field kv)) fields
  | _ => false
  end.

(** An annotation record without one of its required top-level fields,
    or with a section that lacks one of the required section fields. *)
Definition incomplete_record (annotation : json) : Prop :=
  lacks_field required_fields annotation = true
  \/ exists kv sections section,
       annotation = JObj kv
       /\ dict_get "sections" kv = Some (JList sections)
       /\ In section sections
       /\ lacks_field required_section_fields section = true.

(** [section] was produced from [original] by the four assignments of
    [crop_sections]. *)
Definition enriched_from (section original : json) : Prop :=
  exists section_id source_file cropped_files processing_date,
    enrich original section_id source_file cropped_files processing_date
    = Ok section.

(** The sections listed by the loaded annotations. *)
Definition annotated_section (p : processor) (section : json) : Prop :=
  exists annotation listed sections,
    In annotation (annotations p)
    /\ py_getitem annotation "sections" = Ok listed
    /\ py_iter listed = Ok sections
    /\ In section sections.

(** A box inside an image of the given size. *)
Definition box_within (img_size : Z * Z) (box : Z * Z * Z * Z) : Prop :=
  let '(x0, y0, x1, y1) := box in
  0 <= x0 /\ x0 < x1 /\ x1 <= fst img_size
  /\ 0 <= y0 /\ y0 < y1 /\ y1 <= snd img_size.

(** The four integers a coordinates document holds. *)
Definition read_coordinates (coords : json) : result (Z * Z * Z * Z) :=
  (x <~ py_getitem coords "x" ;;
   y <~ py_getitem coords "y" ;;
   width <~ py_getitem coords "width" ;;
   height <~ py_getitem coords "height" ;;
   x <~ py_int_value x ;;
   y <~ py_int_value y ;;
   width <~ py_int_value width ;;
   height <~ py_int_value height ;;
   Ok (x, y, width, height))%result.

(** All attributes of [self] but the list of saved files agree. *)
Definition same_except_saved (p p' : processor) : Prop :=
  annotations p' = annotations p
  /\ sections_catalog p' = sections_catalog p
  /\ section_types p' = section_types p
  /\ files_processed p' = files_processed p
  /\ sections_extracted p' = sections_extracted p
  /\ section_types_found p' = section_types_found p
  /\ errors p' = errors p.

(** The type groups rebuilt from a flat catalog. *)
Definition regroup (sections : list json) : dict (list json) :=
  fold_left
    (fun acc s =>
       match section_type_tag s with
       | Ok t => group_append t s acc
       | Raise _ => acc
       end)
    sections [].

(** Every entry of a catalog carries the identifier made from its type
    and its position, counted from one. *)
Definition ids_by_position (sections : list json) : Prop :=
  forall (i : nat) (e : json),
    nth_error sections i = Some e ->
    exists t,
      section_type_tag e = Ok t
      /\ py_getitem e "unique_id"
         = Ok (JStr (make_section_id t (Z.of_nat i + 1))).

(** A computation that changes nothing but the list of saved files. *)
Definition saves_only {A : Type} (m : M processor A) : Prop :=
  forall p, same_except_saved p (snd (m p)).

(** The three ways in which phase 2 moves from one state to the next:
    a section is dropped (files may have been saved on the way), a section
    of the annotations is cataloged under the current counter, or the
    handler of the outer loop logs an error. *)
Inductive crop_step (w : World) (annotated : json -> Prop)
    (st st' : cropping) : Prop :=
| crop_step_dropped :
    same_except_saved (self st) (self st') ->
    section_counter st' = section_counter st ->
    crop_step w annotated st st'
| crop_step_cataloged (screenshot : string) (section : json) (t : string)
    (e cropped_files : json) :
    annotated section ->
    section_type_tag section = Ok t ->
    enrich section (make_section_id t (section_counter st))
      (path_name screenshot) cropped_files
      (now_isoformat w (section_counter st)) = Ok e ->
    annotations (self st') = annotations (self st) ->
    sections_catalog (self st') = sections_catalog (self st) ++ [e] ->
    section_types (self st') = group_append t e (section_types (self st)) ->
    errors (self st') = errors (self st) ->
    section_counter st' = section_counter st + 1 ->
    crop_step w annotated st st'
| crop_step_logged (m : error_msg) :
    annotations (self st') = annotations (self st) ->
    sections_catalog (self st') = sections_catalog (self st) ->
    section_types (self st') = section_types (self st) ->
    errors (self st') = errors (self st) ++ [m] ->
    section_counter st' = section_counter st ->
    crop_step w annotated st st'.

Inductive crop_steps (w : World) (annotated : json -> Prop)
  : cropping -> cropping -> Prop :=
| crop_steps_refl (st : cropping) : crop_steps w annotated st st
| crop_steps_snoc (st st' st'' : cropping) :
    crop_steps w annotated st st' ->
    crop_step w annotated st' st'' ->
    crop_steps w annotated st st''.

(** What every state of phase 2 satisfies when it starts from an empty
    catalog: the counter is one ahead of the catalog, every entry carries
    the identifier of its position, the type groups are those of the
    catalog, and every entry is a section of the annotations with the
    four keys added. *)
Record crop_invariant (annotated : json -> Prop) (st : cropping) : Prop :=
  mkCropInvariant {
    inv_counter :
      section_counter st
      = Z.of_nat (length (sections_catalog (self st))) + 1;
    inv_ids : ids_by_position (sections_catalog (self st));
    inv_groups :
      section_types (self st) = regroup (sections_catalog (self st));
    inv_origin :
      Forall (fun e => exists s, annotated s /\ enriched_from e s)
        (sections_catalog (self st))
  }.

(** A computation of phase 1: the catalog, the type groups and the saved
    files stay as they are. *)
Definition loads_only {A : Type} (m : M processor A) : Prop :=
  forall p,
    sections_catalog (snd (m p)) = sections_catalog p
    /\ section_types (snd (m p)) = section_types p
    /\ saved_files (snd (m p)) = saved_files p.

Definition all_digits (s : string) : bool :=
  forallb is_digit (list_ascii_of_string s).

(** A string of exactly four digits. *)
Definition four_digits (s : string) : bool :=
  match s with
  | String d1 (String d2 (String d3 (String d4 EmptyString))) =>
      forallb is_digit [d1; d2; d3; d4]
  | _ => false
  end.

(** The state, local counter included, in which [crop_sections] ends. *)
Definition crop_sections_state (w : World) (p : processor) : cropping :=
  snd (process_annotations w (annotations p)
         {| self := p; section_counter := 1 |}).

(** A world with one annotation file for the screenshot [shot.png]. *)
Definition one_file_world (size : N * N) (sections : list json) : World :=
  calm_world
    [("annotations_shot.json",
      Parsed (annotation_record "shot.png" (Z.of_N (fst size))
                (Z.of_N (snd size)) sections))]
    size.

(** A section tagged [hero-banner]. *)
Definition dash_world : World :=
  one_file_world (1000%N, 2000%N)
    [section_spec "a" "hero-banner" (coordinates 0 0 500 300)].

(** Two annotation files: two [hero] sections in the first, a [footer]
    section in the second. *)
Definition hero_footer_world : World :=
  calm_world
    [("annotations_one.json",
      Parsed (annotation_record "one.png" 1000 2000
                [section_spec "a" "hero" (coordinates 0 0 1000 300);
                 section_spec "b" "hero" (coordinates 0 300 1000 300)]));
     ("annotations_two.json",
      Parsed (annotation_record "two.png" 1000 2000
                [section_spec "a" "footer" (coordinates 0 1800 1000 200)]))]
    (1000%N, 2000%N).

(** ** Further notions used by the properties *)

(** A run in which the first section lies outside the image and the
    saving of the second fails: the third one is number one. *)
Definition gap_world : World :=
  {| annotation_files :=
       Some [("annotations_shot.json",
              Parsed (annotation_record "shot.png" 1000 2000
                        [section_spec "a" "hero" (coordinates 1500 0 200 300);
                         section_spec "b" "hero" (coordinates 0 300 1000 300);
                         section_spec "c" "footer"
                           (coordinates 0 1800 1000 200)]))];
     screenshot_exists := fun _ => true;
     image_open := fun _ => Ok (1000%N, 2000%N);
     pil_raises := fun _ call =>
       match call with
       | PilSave path =>
           if String.eqb path "images/medium/hero_0001_hero_medium.png"
           then Some OSError else None
       | _ => None
       end;
     now_isoformat := fun _ => "2024-01-01T00:00:00" |}.

(** The size of the crop as recorded in [cropped_files]. *)
Definition recorded_crop_size (section : json) : result (Z * Z) :=
  (files <~ py_getitem section "cropped_files" ;;
   dims <~ py_getitem files "dimensions" ;;
   original <~ py_getitem dims "original" ;;
   width <~ py_getitem original "width" ;;
   height <~ py_getitem original "height" ;;
   width <~ py_int_value width ;;
   height <~ py_int_value height ;;
   Ok (width, height))%result.

(** The processor with [log] put in front of its error log. *)
Definition add_errors (log : list error_msg) (p : processor) : processor :=
  {| annotations := annotations p;
     sections_catalog := sections_catalog p;
     section_types := section_types p;
     files_processed := files_processed p;
     sections_extracted := sections_extracted p;
     section_types_found := section_types_found p;
     errors := log ++ errors p;
     saved_files := saved_files p |}.

Definition add_errors_cropping (log : list error_msg) (st : cropping)
  : cropping :=
  {| self := add_errors log (self st);
     section_counter := section_counter st |}.

(** A computation that never looks at what [act] changes. *)
Definition framed {S A : Type} (act : S -> S) (m : M S A) : Prop :=
  forall s, m (act s) = (fst (m s), act (snd (m s))).

(** Worlds that differ in nothing but the annotation files. *)
Definition same_oracles (w w' : World) : Prop :=
  screenshot_exists w' = screenshot_exists w
  /\ image_open w' = image_open w
  /\ pil_raises w' = pil_raises w
  /\ now_isoformat w' = now_isoformat w.

(** The processor with an empty error log. *)
Definition clear_errors (p : processor) : processor :=
  {| annotations := annotations p;
     sections_catalog := sections_catalog p;
     section_types := section_types p;
     files_processed := files_processed p;
     sections_extracted := sections_extracted p;
     section_types_found := section_types_found p;
     errors := [];
     saved_files := saved_files p |}.

(** A record without [image_dimensions] between two complete ones. *)
Definition lacking_files : list (string * file_content) :=
  [("annotations_one.json",
    Parsed (annotation_record "one.png" 1000 2000
              [section_spec "a" "hero" (coordinates 0 0 1000 300)]));
   ("annotations_bad.json",
    Parsed (JObj [("source_image", JStr "bad.png");
                  ("sections",
                   JList [section_spec "a" "hero"
                            (coordinates 0 0 1000 300)])]));
   ("annotations_two.json",
    Parsed (annotation_record "two.png" 1000 2000
              [section_spec "a" "footer" (coordinates 0 1800 1000 200)]))].

(** The scale factor in exact arithmetic. *)
Definition exact_scale (size max_size : Z * Z) : Q :=
  Qmin (Qmin (inject_Z (fst max_size) / inject_Z (fst size))
             (inject_Z (snd max_size) / inject_Z (snd size)))%Q 1%Q.

(** The scale factor [calculate_resize] works with. *)
Definition float_scale (size max_size : Z * Z) : result Q :=
  (a <~ py_truediv (fst max_size) (fst size) ;;
   b <~ py_truediv (snd max_size) (snd size) ;;
   Ok (py_min_float (py_min_float a b) 1))%result.

(** The size recorded for one tier of [cropped_files]. *)
Definition recorded_size (cropped_files : json) (tier : string)
  : result (Z * Z) :=
  (dims <~ py_getitem cropped_files "dimensions" ;;
   size <~ py_getitem dims tier ;;
   width <~ py_getitem size "width" ;;
   height <~ py_getitem size "height" ;;
   width <~ py_int_value width ;;
   height <~ py_int_value height ;;
   Ok (width, height))%result.

(** A section whose annotated width is beyond the range of binary64:
    it is cropped inside the screenshot and cataloged. *)
Definition huge_world : World :=
  one_file_world (1000%N, 2000%N)
    [section_spec "a" "hero" (coordinates 0 0 (2 ^ 1100) 300)].

(** The rational a finite [spec_float] denotes. *)
Definition spec_float_value (f : spec_float) : option Q :=
  match f with
  | S754_zero _ => Some 0%Q
  | S754_finite s m e =>
      Some (Qred ((if s then - (1) else 1) * inject_Z (Z.pos m) * 2 ^ e))%Q
  | _ => None
  end.

(** An integer as a [spec_float] with exponent zero. *)
Definition spec_float_of_int (z : Z) : spec_float :=
  match z with
  | Z0 => S754_zero false
  | Zpos p => S754_finite false p 0
  | Zneg p => S754_finite true p 0
  end.

Definition result_value {A : Type} (r : result A) : option A :=
  match r with
  | Ok a => Some a
  | Raise _ => None
  end.

Definition option_Qeq (a b : option Q) : bool :=
  match a, b with
  | Some x, Some y => Qeq_bool x y
  | None, None => true
  | _, _ => false
  end.

(** Numerators and denominators, with the bounds of the two tiers and
    integers next to [2^52] and [2^53]. *)
Definition sample_operands : list (Z * Z) :=
  flat_map
    (fun a => map (fun b => (a, b))
                [1; 3; 7; 562; 582; 999; 1000; 1200; 2248; 123456789;
                 4503599627370497; 9007199254740991])
    [1; 2; 5; 150; 200; 300; 400; -7; 0; 9007199254740991].

(** ** Notions for the loader *)

(** A record that [validate_annotation] lets through: the three
    membership tests succeed on it, its [sections] is a list, and the three
    membership tests succeed on every element of that list. *)
Definition accepted_record (annotation : json) : Prop :=
  (forall field, In field required_fields ->
                 py_contains field annotation = Ok true)
  /\ exists sections,
       py_getitem annotation "sections" = Ok (JList sections)
       /\ forall section field,
            In section sections -> In field required_section_fields ->
            py_contains field section = Ok true.

(** An annotation as [load_annotations] stores it: the record of a file
    that passed the validation, bound to a screenshot that exists. *)
Definition loaded_annotation (w : World)
    (files : list (string * file_content)) (annotation : json) : Prop :=
  exists name record kv source_image screenshot_path,
    In (name, Parsed record) files
    /\ record = JObj kv
    /\ accepted_record record
    /\ dict_get "source_image" kv = Some source_image
    /\ find_matching_screenshot w source_image = Ok (Some screenshot_path)
    /\ screenshot_exists w screenshot_path = true
    /\ annotation
       = JObj (dict_set "annotation_file"
                 (JStr (path_join annotations_dir name))
                 (dict_set "screenshot_path" (JStr screenshot_path) kv)).

(** ** Notions for the accounting of phase 2 *)

Definition group_sizes {V : Type} (groups : dict (list V)) : list Z :=
  map (fun g => Z.of_nat (length (snd g))) groups.

(** The counters of [self] against the containers they count; the set of
    types found has the keys of the type groups as its members. *)
Definition tallies_agree (p : processor) : Prop :=
  sections_extracted p = Z.of_nat (length (sections_catalog p))
  /\ Permutation (section_types_found p) (dict_keys (section_types p))
  /\ sum_Z (group_sizes (section_types p))
     = Z.of_nat (length (sections_catalog p))
  /\ files_processed p = Z.of_nat (length (annotations p)).

(** The keys of a cataloged module: three from the annotator, four added
    by [crop_sections]. *)
Definition module_keys : list string :=
  ["id"; "type"; "coordinates";
   "unique_id"; "source_file"; "cropped_files"; "processing_date"].

Definition has_module_keys (e : json) : Prop :=
  forall k, In k module_keys -> py_contains k e = Ok true.

(** The three files a cataloged module names, as [crop_section_image]
    builds their names from the identifier and the type. *)
Definition module_files (e : json) : result (list string) :=
  (id <~ py_getitem e "unique_id" ;;
   t <~ section_type_tag e ;;
   match id with
   | JStr section_id =>
       let base := (section_id ++ "_" ++ t)%string in
       Ok [full_path base; medium_path base; thumb_path base]
   | _ => Raise TypeError
   end)%result.

(** The three paths a cataloged module records under [cropped_files]. *)
Definition recorded_files (e : json) : result (list json) :=
  (cf <~ py_getitem e "cropped_files" ;;
   full <~ py_getitem cf "full" ;;
   medium <~ py_getitem cf "medium" ;;
   thumbnail <~ py_getitem cf "thumbnail" ;;
   Ok [full; medium; thumbnail])%result.

Definition files_on_record (p : processor) (e : json) : Prop :=
  exists files,
    module_files e = Ok files
    /\ recorded_files e = Ok (map JStr files)
    /\ incl files (saved_files p).

(** An error of the handler of the outer loop of [crop_sections]. *)
Definition is_processing_error (m : error_msg) : bool :=
  match m with
  | ErrorProcessing _ _ => true
  | _ => false
  end.

(** The number of sections the annotations list. *)
Definition listed_sections (anns : list json) : Z :=
  sum_Z
    (map (fun a =>
            match (l <~ py_getitem a "sections" ;; py_iter l)%result with
            | Ok sections => Z.of_nat (length sections)
            | Raise _ => 0
            end)
       anns).

(** ** Scenarios for the skipped annotations *)

(** A world whose screenshots cannot be opened. *)
Definition dark_world : World :=
  {| annotation_files := Some [];
     screenshot_exists := fun _ => true;
     image_open := fun _ => Raise OSError;
     pil_raises := fun _ _ => None;
     now_isoformat := fun _ => "2024-01-01T00:00:00" |}.

(** An annotation for [shot.png] as the loader stores it. *)
Definition bound_annotation (sections : list json) : json :=
  JObj [("source_image", JStr "shot.png");
        ("image_dimensions", size_json (1000, 2000));
        ("sections", JList sections);
        ("screenshot_path", JStr (path_join screenshots_dir "shot.png"));
        ("annotation_file",
         JStr (path_join annotations_dir "annotations_shot.json"))].

Definition start_of_cropping : cropping :=
  {| self := new_processor; section_counter := 1 |}.

(** ** Notions for the completion of a run *)

(** A cataloged module that phases 3 and 4 can read: its type is a
    string, it has an identifier, and its annotated extent has an area
    between one and [2^1023]. *)
Definition measurable (e : json) : Prop :=
  exists t id width height ratio,
    section_type_tag e = Ok t
    /\ py_getitem e "unique_id" = Ok id
    /\ section_measure e = Ok ((width, height), ratio, width * height)
    /\ 1 <= width * height <= 2 ^ 1023.

(** No annotated section has an area beyond [2^1023]. *)
Definition modest_sections (p : processor) : Prop :=
  forall section coords x y width height,
    annotated_section p section ->
    py_getitem section "coordinates" = Ok coords ->
    read_coordinates coords = Ok (x, y, width, height) ->
    width * height <= 2 ^ 1023.

Definition is_dict (v : json) : bool :=
  match v with
  | JObj _ => true
  | _ => false
  end.

(** ** Recommendations *)

(** [sep.join(l)] *)
Fixpoint str_join (sep : string) (l : list string) : string :=
  match l with
  | [] => EmptyString
  | s :: rest =>
      match rest with
      | [] => s
      | _ => (s ++ sep ++ str_join sep rest)%string
      end
  end.

(** [str(n)] for an [int]. *)
Definition py_str_int (n : Z) : string :=
  if n <? 0 then String "-" (decimal (Z.to_N (- n)))
  else decimal (Z.to_N n).

Definition most_used_text (most : list (string * Z)) : string :=
  ("Most used section types: "
   ++ str_join ", "
        (map (fun tc => fst tc ++ "(" ++ py_str_int (snd tc) ++ ")") most)
   ++ ". "
   ++ "Consider creating multiple variants of these.")%string.

Definition rare_types_text (rare_types : list string) : string :=
  ("Rare section types found: " ++ str_join ", " rare_types ++ ". "
   ++ "Consider if these are special cases or could be generalized.")%string.

Definition large_catalog_text : string :=
  "Large catalog detected. Consider implementing search and filtering in React UI.".

(** [[t for t, count in type_counts.items() if count == 1]] *)
Definition rare_types_of (type_counts : list (string * Z)) : list string :=
  map fst (filter (fun tc => snd tc =? 1) type_counts).

(** [generate_recommendations].  The types are read as in
    [analyze_patterns]: the cataloged sections have a string there. *)
Definition generate_recommendations (p : processor) : result (list string) :=
  (tags <~ result_map section_type_tag (sections_catalog p) ;;
   let type_counts := counter_of String.eqb tags in
   let most := most_common 3 type_counts in
   let used := match most with
               | [] => []
               | _ => [most_used_text most]
               end in
   let rare_types := rare_types_of type_counts in
   let rare := match rare_types with
               | [] => []
               | _ => [rare_types_text rare_types]
               end in
   let large :=
     if 50 <? Z.of_nat (length (sections_catalog p))
     then [large_catalog_text] else [] in
   Ok (used ++ rare ++ large))%result.

(** ** Notions for the counters *)

(** The number of items that equal [k]. *)
Definition occurrences {K : Type} (eqb : K -> K -> bool) (k : K)
    (items : list K) : Z :=
  Z.of_nat (length (filter (eqb k) items)).

(** The order of [most_common]: the count does not go up. *)
Definition by_count {K : Type} (a b : K * Z) : Prop := snd b <= snd a.

(** No two keys of a counter are equal. *)
Definition distinct_keys {K : Type} (eqb : K -> K -> bool)
    (c : list (K * Z)) : Prop :=
  ForallOrdPairs (fun a b => eqb (fst a) (fst b) = false) c.

(** What [Counter(items)] holds: every entry counts the items equal to its
    key, which is one of them; no two keys are equal; every item has its
    entry; the counts add up to the number of items. *)
Definition counted {K : Type} (eqb : K -> K -> bool) (items : list K)
    (c : list (K * Z)) : Prop :=
  Forall (fun kn => snd kn = occurrences eqb (fst kn) items
                    /\ 0 < snd kn /\ In (fst kn) items) c
  /\ distinct_keys eqb c
  /\ (forall x, In x items -> exists kn, In kn c /\ eqb (fst kn) x = true)
  /\ sum_Z (map snd c) = Z.of_nat (length items).

(** ** [performance_analyzer.py]: the height factor

    [_optimal_height_factor] is the one function of the analyzer that
    works on the integers of a cataloged module alone; the others read
    the performance table through pandas. *)

(** A decimal literal: the binary64 value nearest to it. *)
Definition py_float_literal (q : Q) : Q := round64 q.

(** The table [optimal_heights] of the given fold position, in the order
    of the dict display. *)
Definition optimal_heights (y_pos : Z) : list (Z * Q) :=
  if y_pos <? 800 then
    [(200, py_float_literal 1); (400, py_float_literal (12 # 10));
     (600, py_float_literal (11 # 10)); (800, py_float_literal (9 # 10))]
  else
    [(150, py_float_literal (8 # 10)); (300, py_float_literal 1);
     (450, py_float_literal (11 # 10)); (600, py_float_literal (9 # 10))].

(** [min(keys, key=f)]: the first key at which [f] is least. *)
Definition py_min_by_key (f : Z -> Z) (keys : list Z) : result Z :=
  match keys with
  | [] => Raise ValueError
  | k :: rest =>
      Ok (fold_left (fun best x => if f x <? f best then x else best) rest k)
  end.

Fixpoint table_get (k : Z) (table : list (Z * Q)) : result Q :=
  match table with
  | [] => Raise KeyError
  | (k', v) :: table' => if k =? k' then Ok v else table_get k table'
  end.

(** [_optimal_height_factor] *)
Definition optimal_height_factor (height y_pos : Z) : result Q :=
  let optimal_heights := optimal_heights y_pos in
  (closest_optimal <~ py_min_by_key (fun x => Z.abs (x - height))
                        (map fst optimal_heights) ;;
   table_get closest_optimal optimal_heights)%result.

(** ** Notions for the statistics of a type group *)

(** The extent a section was annotated with: the [width] and the
    [height] of its [coordinates]. *)
Definition annotated_extent (section : json) : result (Z * Z) :=
  (coords <~ py_getitem section "coordinates" ;;
   width <~ py_getitem coords "width" ;;
   height <~ py_getitem coords "height" ;;
   width <~ py_int_value width ;;
   height <~ py_int_value height ;;
   Ok (width, height))%result.

(** What the patterns document has to say of a type group whose sections
    have the given extents: their number, the most common extents and
    aspect ratios, and the average, the least and the greatest of their
    areas. *)
Definition statistics_of_extents (extents : list (Z * Z))
    (pat : type_pattern) : Prop :=
  let areas := map (fun wh => fst wh * snd wh) extents in
  exists ratios,
    result_map (fun wh => aspect_ratio_of (fst wh) (snd wh)) extents
    = Ok ratios
    /\ count pat = Z.of_nat (length extents)
    /\ common_dimensions pat = most_common 5 (counter_of dims_eqb extents)
    /\ common_aspect_ratios pat = most_common 3 (counter_of pynum_eqb ratios)
    /\ match areas with
       | [] => avg_area pat = PInt 0 /\ min_area pat = 0 /\ max_area pat = 0
       | _ =>
           (exists q,
              py_truediv (sum_Z areas) (Z.of_nat (length areas)) = Ok q
              /\ avg_area pat = PFloat q)
           /\ min_area pat = min_Z areas
           /\ max_area pat = max_Z areas
       end.

(** * Properties *)

Example generate_section_id_hero_banner :
  generate_section_id (JObj [("id", JStr "a"); ("type", JStr "Hero Banner")]) 1
  = Ok "hero_banner_0001".
Proof. reflexivity. Qed.

Example format_04d_samples :
  map format_04d [1; 42; 9999; 10000; 123456; -5]
  = ["0001"; "0042"; "9999"; "10000"; "123456"; "-005"].
Proof. reflexivity. Qed.

Example s1_scenario :
  let p := final_state s1_world in
  map unique_id_of (sections_catalog p) = [Some (JStr "hero_banner_0001")]
  /\ errors p = []
  /\ saved_files p =
       ["images/full/hero_banner_0001_Hero Banner.png";
        "images/medium/hero_banner_0001_Hero Banner_medium.png";
        "images/thumbnails/hero_banner_0001_Hero Banner_thumb.png"].
Proof. vm_compute. repeat split. Qed.

(** ** The cropper clamps into the image *)

Lemma py_min_spec (a b : Z) : py_min a b = Z.min a b.
Proof. unfold py_min. destruct (Z.ltb_spec b a); lia. Qed.

Lemma py_max_spec (a b : Z) : py_max a b = Z.max a b.
Proof. unfold py_max. destruct (Z.ltb_spec a b); lia. Qed.

Lemma clamp_box_spec (img_width img_height x y width height : Z) :
  clamp_box (img_width, img_height) x y width height
  = (Z.max 0 (Z.min x img_width),
     Z.max 0 (Z.min y img_height),
     Z.min width (img_width - Z.max 0 (Z.min x img_width)),
     Z.min height (img_height - Z.max 0 (Z.min y img_height))).
Proof. unfold clamp_box. now rewrite !py_min_spec, !py_max_spec. Qed.

Lemma crop_section_image_unfold (w : World) (screenshot : string)
    (img_size : Z * Z) (coords : json) (section_id section_type : string)
    (x y width height : Z) (p : processor) :
  read_coordinates coords = Ok (x, y, width, height) ->
  crop_section_image w screenshot img_size coords section_id section_type p
  = let '(x', y', width', height') := clamp_box img_size x y width height in
    if (width' <=? 0) || (height' <=? 0) then (Ok None, p)
    else try_except
           (render_section w screenshot
              (x', y', x' + width', y' + height') (width', height')
              section_id section_type)
           (fun _ => ret None) p.
Proof.
  unfold read_coordinates, crop_section_image, try_except, bind, lift, rbind.
  intros H.
  destruct (py_getitem coords "x") as [vx|]; [|discriminate].
  destruct (py_getitem coords "y") as [vy|]; [|discriminate].
  destruct (py_getitem coords "width") as [vw|]; [|discriminate].
  destruct (py_getitem coords "height") as [vh|]; [|discriminate].
  destruct (py_int_value vx) as [x0|]; [|discriminate].
  destruct (py_int_value vy) as [y0|]; [|discriminate].
  destruct (py_int_value vw) as [w0|]; [|discriminate].
  destruct (py_int_value vh) as [h0|]; [|discriminate].
  injection H as -> -> -> ->.
  destruct (clamp_box img_size x y width height) as [[[x' y'] width'] height'].
  destruct ((width' <=? 0) || (height' <=? 0)); reflexivity.
Qed.

(** C2.  The cropper clamps [x] and [y] into the image, then only cuts
    the width and the height down to what is left to the right of and
    below the clamped corner; a region left without extent is dropped
    with nothing saved, any other region lies inside the image. *)
Theorem crop_region_clamped :
  forall (w : World) (screenshot : string) (img_width img_height : Z)
         (coords : json) (x y width height x' y' width' height' : Z)
         (section_id section_type : string) (p : processor),
    0 <= img_width -> 0 <= img_height ->
    read_coordinates coords = Ok (x, y, width, height) ->
    clamp_box (img_width, img_height) x y width height
      = (x', y', width', height') ->
    (x' = Z.max 0 (Z.min x img_width) /\ y' = Z.max 0 (Z.min y img_height))
    /\ (0 <= x' <= img_width /\ 0 <= y' <= img_height)
    /\ (width' = Z.min width (img_width - x')
        /\ height' = Z.min height (img_height - y'))
    /\ (width' <= width /\ height' <= height)
    /\ (x' + width' <= img_width /\ y' + height' <= img_height)
    /\ (width' <= 0 \/ height' <= 0 ->
        crop_section_image w screenshot (img_width, img_height) coords
          section_id section_type p = (Ok None, p))
    /\ (0 < width' /\ 0 < height' ->
        box_within (img_width, img_height)
          (x', y', x' + width', y' + height')
        /\ crop_section_image w screenshot (img_width, img_height) coords
             section_id section_type p
           = try_except
               (render_section w screenshot
                  (x', y', x' + width', y' + height') (width', height')
                  section_id section_type)
               (fun _ => ret None) p).
Proof.
  intros w screenshot img_width img_height coords x y width height
    x' y' width' height' section_id section_type p HW HH Hread Hclamp.
  pose proof (crop_section_image_unfold w screenshot (img_width, img_height)
                coords section_id section_type x y width height p Hread) as Hcrop.
  rewrite Hclamp in Hcrop.
  rewrite clamp_box_spec in Hclamp.
  injection Hclamp as Hx Hy Hw Hh.
  repeat split; try lia.
  - intros Hdeg. rewrite Hcrop.
    replace ((width' <=? 0) || (height' <=? 0)) with true; [reflexivity|].
    symmetry. apply orb_true_iff. rewrite !Z.leb_le. exact Hdeg.
  - cbn [fst]. lia.
  - cbn [snd]. lia.
  - rewrite Hcrop.
    replace ((width' <=? 0) || (height' <=? 0)) with false; [reflexivity|].
    symmetry. apply orb_false_iff. rewrite !Z.leb_gt. lia.
Qed.

Lemma crop_region_clamped_witness :
  let w := calm_world [] (1000%N, 2000%N) in
  crop_section_image w "store_screenshots/s1.png" (1000, 2000)
    (coordinates 0 0 1200 300) "hero_banner_0001" "Hero Banner" new_processor
  = try_except
      (render_section w "store_screenshots/s1.png" (0, 0, 0 + 1000, 0 + 300)
         (1000, 300) "hero_banner_0001" "Hero Banner")
      (fun _ => ret None) new_processor.
Proof.
  intro w.
  refine (proj2 (proj2 (proj2 (proj2 (proj2 (proj2 (proj2
    (crop_region_clamped w "store_screenshots/s1.png" 1000 2000
       (coordinates 0 0 1200 300) 0 0 1200 300 0 0 1000 300
       "hero_banner_0001" "Hero Banner" new_processor _ _ _ _)))))) _)).
  - lia.
  - lia.
  - reflexivity.
  - reflexivity.
  - lia.
Defined.

(** ** Dictionaries *)

Lemma dict_get_set_same {V : Type} (k : string) (v : V) (d : dict V) :
  dict_get k (dict_set k v d) = Some v.
Proof.
  induction d as [|[k' v'] d IH]; simpl.
  - now rewrite String.eqb_refl.
  - destruct (String.eqb k k') eqn:E; simpl.
    + now rewrite String.eqb_refl.
    + now rewrite E.
Qed.

Lemma dict_get_set_other {V : Type} (k k0 : string) (v : V) (d : dict V) :
  k0 <> k -> dict_get k0 (dict_set k v d) = dict_get k0 d.
Proof.
  intros Hne. induction d as [|[k' v'] d IH]; simpl.
  - destruct (String.eqb_spec k0 k); [contradiction|reflexivity].
  - destruct (String.eqb_spec k k') as [->|Hk]; simpl.
    + destruct (String.eqb_spec k0 k'); [contradiction|reflexivity].
    + destruct (String.eqb_spec k0 k'); [reflexivity|exact IH].
Qed.

(** What the four assignments of [crop_sections] leave in a section. *)
Lemma enrich_inv (section : json) (section_id source_file : string)
    (cropped_files : json) (processing_date : string) (e : json) :
  enrich section section_id source_file cropped_files processing_date = Ok e ->
  exists kv kv',
    section = JObj kv /\ e = JObj kv'
    /\ dict_get "unique_id" kv' = Some (JStr section_id)
    /\ dict_get "cropped_files" kv' = Some cropped_files
    /\ (forall k, k <> "unique_id" -> k <> "source_file" ->
                  k <> "cropped_files" -> k <> "processing_date" ->
                  dict_get k kv' = dict_get k kv).
Proof.
  destruct section as [| | | | |kv]; try discriminate.
  unfold enrich, rbind, py_setitem. intros H. injection H as <-.
  exists kv. eexists. split; [reflexivity|]. split; [reflexivity|].
  split; [|split].
  - rewrite !dict_get_set_other by discriminate. apply dict_get_set_same.
  - rewrite !dict_get_set_other by discriminate. apply dict_get_set_same.
  - intros k H1 H2 H3 H4. now rewrite !dict_get_set_other by assumption.
Qed.

Lemma enriched_type_tag (e s : json) :
  enriched_from e s -> section_type_tag e = section_type_tag s.
Proof.
  intros (id & sf & cf & pd & H).
  destruct (enrich_inv _ _ _ _ _ _ H) as (kv & kv' & -> & -> & _ & _ & Hkeep).
  unfold section_type_tag, py_getitem.
  now rewrite (Hkeep "type") by discriminate.
Qed.

Lemma enriched_coordinates (e s : json) :
  enriched_from e s -> py_getitem e "coordinates" = py_getitem s "coordinates".
Proof.
  intros (id & sf & cf & pd & H).
  destruct (enrich_inv _ _ _ _ _ _ H) as (kv & kv' & -> & -> & _ & _ & Hkeep).
  unfold py_getitem. now rewrite (Hkeep "coordinates") by discriminate.
Qed.

Lemma enriched_measure (e s : json) :
  enriched_from e s -> section_measure e = section_measure s.
Proof.
  intros H. unfold section_measure. now rewrite (enriched_coordinates e s H).
Qed.

(** ** The cropper only adds saved files *)

Lemma same_except_saved_refl (p : processor) : same_except_saved p p.
Proof. repeat split. Qed.

Lemma same_except_saved_trans (p q r : processor) :
  same_except_saved p q -> same_except_saved q r -> same_except_saved p r.
Proof.
  unfold same_except_saved.
  intros (A1 & A2 & A3 & A4 & A5 & A6 & A7) (B1 & B2 & B3 & B4 & B5 & B6 & B7).
  repeat split; congruence.
Qed.

Lemma saves_only_ret {A : Type} (a : A) : saves_only (ret a).
Proof. intro p. apply same_except_saved_refl. Qed.

Lemma saves_only_lift {A : Type} (r : result A) : saves_only (lift r).
Proof. intro p. apply same_except_saved_refl. Qed.

Lemma saves_only_bind {A B : Type} (m : M processor A) (k : A -> M processor B) :
  saves_only m -> (forall a, saves_only (k a)) -> saves_only (bind m k).
Proof.
  intros Hm Hk p. unfold bind. specialize (Hm p).
  destruct (m p) as [[a|e] p1]; simpl in *.
  - eapply same_except_saved_trans; [exact Hm|apply Hk].
  - exact Hm.
Qed.

Lemma saves_only_try {A : Type} (m : M processor A) (h : exn -> M processor A) :
  saves_only m -> (forall e, saves_only (h e)) -> saves_only (try_except m h).
Proof.
  intros Hm Hh p. unfold try_except. specialize (Hm p).
  destruct (m p) as [[a|e] p1]; simpl in *.
  - exact Hm.
  - eapply same_except_saved_trans; [exact Hm|apply Hh].
Qed.

Lemma saves_only_pil (w : World) (screenshot : string) (call : pil_call) :
  saves_only (pil w screenshot call).
Proof.
  intro p. unfold pil.
  destruct (pil_raises w screenshot call); [apply same_except_saved_refl|].
  destruct call; repeat split.
Qed.

Lemma saves_only_if {A : Type} (b : bool) (m1 m2 : M processor A) :
  saves_only m1 -> saves_only m2 -> saves_only (if b then m1 else m2).
Proof. now destruct b. Qed.

Ltac saves_only_tac :=
  repeat first
    [ apply saves_only_ret | apply saves_only_lift | apply saves_only_pil
    | apply saves_only_try; [|intro]
    | apply saves_only_if
    | apply saves_only_bind; [|intro]
    | match goal with
      | |- saves_only (let '(_, _) := ?x in _) => destruct x
      end ].

Lemma saves_only_render (w : World) (screenshot : string)
    (box : Z * Z * Z * Z) (size : Z * Z) (section_id section_type : string) :
  saves_only (render_section w screenshot box size section_id section_type).
Proof. unfold render_section. saves_only_tac. Qed.

Lemma saves_only_crop (w : World) (screenshot : string) (img_size : Z * Z)
    (coords : json) (section_id section_type : string) :
  saves_only
    (crop_section_image w screenshot img_size coords section_id section_type).
Proof.
  unfold crop_section_image. saves_only_tac.
Qed.

(** [crop_section_image] catches what it raises. *)
Lemma crop_section_image_returns (w : World) (screenshot : string)
    (img_size : Z * Z) (coords : json) (section_id section_type : string)
    (p : processor) :
  exists r,
    fst (crop_section_image w screenshot img_size coords section_id
           section_type p) = Ok r.
Proof.
  unfold crop_section_image, try_except.
  match goal with |- context [match ?m p with _ => _ end] => destruct (m p) as [[a|e] p1] end.
  - now exists a.
  - now exists None.
Qed.

(** ** Phase 2 as a sequence of steps *)

Lemma crop_steps_trans (w : World) (annotated : json -> Prop)
    (st1 st2 st3 : cropping) :
  crop_steps w annotated st1 st2 -> crop_steps w annotated st2 st3 ->
  crop_steps w annotated st1 st3.
Proof.
  intros H12 H23. induction H23 as [|st2 st3 st4 _ IH Hstep].
  - exact H12.
  - eapply crop_steps_snoc; [apply IH; exact H12|exact Hstep].
Qed.

Lemma crop_steps_one (w : World) (annotated : json -> Prop)
    (st st' : cropping) :
  crop_step w annotated st st' -> crop_steps w annotated st st'.
Proof. intro H. eapply crop_steps_snoc; [apply crop_steps_refl|exact H]. Qed.

Lemma crop_step_stay (w : World) (annotated : json -> Prop) (st : cropping) :
  crop_step w annotated st st.
Proof. apply crop_step_dropped; [apply same_except_saved_refl|reflexivity]. Qed.

(** One turn of the inner loop is one step: the section is cataloged
    under the current counter, or nothing but saved files changes. *)
Lemma process_section_step (w : World) (annotated : json -> Prop)
    (screenshot : string) (img_size : Z * Z) (section : json)
    (st : cropping) :
  annotated section ->
  crop_step w annotated st
    (snd (process_section w screenshot img_size section st)).
Proof.
  intros Hann.
  unfold process_section, bind, gets, lift, generate_section_id, rbind.
  cbn [fst snd].
  destruct (py_getitem section "type") as [ty|] eqn:Hty;
    [|apply crop_step_stay].
  destruct ty as [| | |t| |]; try apply crop_step_stay.
  destruct (py_getitem section "coordinates") as [coords|] eqn:Hco;
    [|apply crop_step_stay].
  unfold on_self.
  pose proof (saves_only_crop w screenshot img_size coords
                (make_section_id t (section_counter st)) t (self st)) as Hsave.
  destruct (crop_section_image_returns w screenshot img_size coords
              (make_section_id t (section_counter st)) t (self st)) as [r Hr].
  destruct (crop_section_image w screenshot img_size coords
              (make_section_id t (section_counter st)) t (self st))
    as [res p1].
  cbn [fst snd] in *. subst res.
  destruct r as [cf|].
  - destruct section as [| | | | |kv]; try discriminate.
    cbn [enrich py_setitem rbind]. unfold modify. cbn [snd].
    destruct Hsave as (A1 & A2 & A3 & A4 & A5 & A6 & A7).
    eapply crop_step_cataloged with (t := t) (cropped_files := cf)
                                    (screenshot := screenshot).
    + exact Hann.
    + unfold section_type_tag. now rewrite Hty.
    + reflexivity.
    + exact A1.
    + cbn. now rewrite A2.
    + cbn. now rewrite A3.
    + exact A7.
    + reflexivity.
  - cbn [snd]. apply crop_step_dropped; [exact Hsave|reflexivity].
Qed.

Lemma process_sections_steps (w : World) (annotated : json -> Prop)
    (screenshot : string) (img_size : Z * Z) (sections : list json) :
  Forall annotated sections ->
  forall st,
    crop_steps w annotated st
      (snd (process_sections w screenshot img_size sections st)).
Proof.
  induction 1 as [|section rest Hs _ IH]; intro st.
  - apply crop_steps_refl.
  - cbn [process_sections]. unfold bind.
    pose proof (process_section_step w annotated screenshot img_size section
                  st Hs) as Hstep.
    destruct (process_section w screenshot img_size section st)
      as [[u|e] st1]; cbn [snd] in *.
    + eapply crop_steps_trans; [apply crop_steps_one; exact Hstep|apply IH].
    + apply crop_steps_one. exact Hstep.
Qed.

(** One turn of the outer loop: the steps of its sections and, when the
    annotation is abandoned, one logged error. *)
Lemma process_annotation_steps (w : World) (annotated : json -> Prop)
    (annotation : json) (st : cropping) :
  (forall listed sections,
     py_getitem annotation "sections" = Ok listed ->
     py_iter listed = Ok sections -> Forall annotated sections) ->
  crop_steps w annotated st (snd (process_annotation w annotation st)).
Proof.
  intros Hann. unfold process_annotation, try_except.
  match goal with
  | |- context [match ?m st with _ => _ end] =>
      assert (Hbody : crop_steps w annotated st (snd (m st)));
      [|destruct (m st) as [[u|e] st1]; cbn [snd] in *]
  end.
  - unfold bind, lift.
    destruct (py_getitem annotation "screenshot_path") as [path|];
      [|apply crop_steps_refl].
    destruct path as [| | |screenshot| |]; try apply crop_steps_refl.
    destruct (image_open w screenshot) as [size|]; [|apply crop_steps_refl].
    destruct (py_getitem annotation "sections") as [listed|] eqn:Hs;
      [|apply crop_steps_refl].
    destruct (py_iter listed) as [sections|] eqn:Hi; [|apply crop_steps_refl].
    apply process_sections_steps. now apply (Hann listed).
  - exact Hbody.
  - unfold bind, lift.
    destruct (py_get_default annotation "source_image" (JStr "unknown"))
      as [src|]; [|exact Hbody].
    eapply crop_steps_snoc; [exact Hbody|].
    apply crop_step_logged with (m := ErrorProcessing src e); reflexivity.
Qed.

Lemma process_annotations_steps (w : World) (annotated : json -> Prop)
    (anns : list json) :
  (forall annotation listed sections,
     In annotation anns ->
     py_getitem annotation "sections" = Ok listed ->
     py_iter listed = Ok sections ->
     Forall annotated sections) ->
  forall st,
    crop_steps w annotated st (snd (process_annotations w anns st)).
Proof.
  induction anns as [|annotation rest IH]; intros Hann st.
  - apply crop_steps_refl.
  - cbn [process_annotations]. unfold bind.
    pose proof (process_annotation_steps w annotated annotation st
                  (fun listed sections =>
                     Hann annotation listed sections (or_introl eq_refl)))
      as Hstep.
    destruct (process_annotation w annotation st) as [[u|e] st1];
      cbn [snd] in *.
    + eapply crop_steps_trans; [exact Hstep|].
      apply IH. intros a v s Hin. apply Hann. now right.
    + exact Hstep.
Qed.

(** Phase 2 from a processor [p]: steps over the sections its
    annotations list. *)
Lemma crop_sections_steps (w : World) (p : processor) :
  crop_steps w (annotated_section p)
    {| self := p; section_counter := 1 |}
    {| self := snd (crop_sections w p);
       section_counter :=
         section_counter
           (snd (process_annotations w (annotations p)
                   {| self := p; section_counter := 1 |})) |}.
Proof.
  unfold crop_sections.
  pose proof (process_annotations_steps w (annotated_section p) (annotations p))
    as H.
  specialize (H (fun annotation listed sections Hin Hl Hi =>
                   proj2 (Forall_forall _ _)
                     (fun s Hs =>
                        ex_intro _ annotation
                          (ex_intro _ listed
                             (ex_intro _ sections
                                (conj Hin (conj Hl (conj Hi Hs)))))))
                {| self := p; section_counter := 1 |}).
  destruct (process_annotations w (annotations p)
              {| self := p; section_counter := 1 |}) as [r st].
  cbn [snd] in *. now destruct st.
Qed.

(** ** The invariant of phase 2 *)

Lemma regroup_snoc (l : list json) (e : json) (t : string) :
  section_type_tag e = Ok t ->
  regroup (l ++ [e]) = group_append t e (regroup l).
Proof.
  intro Ht. unfold regroup. rewrite fold_left_app. cbn [fold_left].
  now rewrite Ht.
Qed.

Lemma crop_invariant_step (w : World) (annotated : json -> Prop)
    (st st' : cropping) :
  crop_step w annotated st st' ->
  crop_invariant annotated st -> crop_invariant annotated st'.
Proof.
  intros Hstep [Hc Hi Hg Ho].
  destruct Hstep
    as [(A1 & A2 & A3 & A4 & A5 & A6 & A7) Hcnt
       |screenshot section t e cf Hann Ht He Ha Hcat Hgrp Herr Hcnt
       |m Ha Hcat Hgrp Herr Hcnt].
  - constructor; rewrite ?A2, ?A3, ?Hcnt; assumption.
  - assert (Hfrom : enriched_from e section) by (repeat eexists; exact He).
    assert (Hte : section_type_tag e = Ok t)
      by (now rewrite (enriched_type_tag e section Hfrom)).
    constructor; rewrite ?Hcat, ?Hgrp, ?Hcnt.
    + rewrite length_app. cbn [length]. lia.
    + intros i x Hnth.
      destruct (Nat.lt_ge_cases i (length (sections_catalog (self st))))
        as [Hlt|Hge].
      * rewrite nth_error_app1 in Hnth by exact Hlt. now apply Hi.
      * rewrite nth_error_app2 in Hnth by exact Hge.
        destruct (i - length (sections_catalog (self st)))%nat as [|j] eqn:Hj.
        -- cbn in Hnth. injection Hnth as <-. exists t. split; [exact Hte|].
           destruct (enrich_inv _ _ _ _ _ _ He)
             as (kv & kv' & -> & -> & Hid & _ & _).
           unfold py_getitem. rewrite Hid.
           replace (Z.of_nat i + 1) with (section_counter st) by lia.
           reflexivity.
        -- destruct j; discriminate.
    + rewrite Hg. symmetry. now apply regroup_snoc.
    + apply Forall_app. split; [exact Ho|].
      constructor; [|constructor]. now exists section.
  - constructor; rewrite ?Hcat, ?Hgrp, ?Hcnt; assumption.
Qed.

Lemma crop_invariant_steps (w : World) (annotated : json -> Prop)
    (st st' : cropping) :
  crop_steps w annotated st st' ->
  crop_invariant annotated st -> crop_invariant annotated st'.
Proof.
  induction 1 as [|st st' st'' _ IH Hstep]; intro Hinv.
  - exact Hinv.
  - eapply crop_invariant_step; [exact Hstep|apply IH; exact Hinv].
Qed.

(** The steps of phase 2 never touch the annotations, only extend the
    catalog and the error log, and never lower the counter. *)
Lemma crop_steps_monotone (w : World) (annotated : json -> Prop)
    (st st' : cropping) :
  crop_steps w annotated st st' ->
  annotations (self st') = annotations (self st)
  /\ (exists more,
        sections_catalog (self st')
        = sections_catalog (self st) ++ more
        /\ section_counter st'
           = section_counter st + Z.of_nat (length more))
  /\ (exists more, errors (self st') = errors (self st) ++ more).
Proof.
  induction 1 as [|st st' st'' _ (IHa & (c & IHc & IHn) & (l & IHe)) Hstep].
  - split; [reflexivity|]. split.
    + exists []. rewrite app_nil_r. cbn. split; [reflexivity|lia].
    + exists []. now rewrite app_nil_r.
  - destruct Hstep
      as [(A1 & A2 & A3 & A4 & A5 & A6 & A7) Hcnt
         |screenshot section t e cf Hann Ht He Ha Hcat Hgrp Herr Hcnt
         |m Ha Hcat Hgrp Herr Hcnt].
    + split; [congruence|]. split.
      * exists c. split; [congruence|lia].
      * exists l. congruence.
    + split; [congruence|]. split.
      * exists (c ++ [e]). rewrite Hcat, IHc, <- app_assoc.
        split; [reflexivity|]. rewrite length_app. cbn [length]. lia.
      * exists l. congruence.
    + split; [congruence|]. split.
      * exists c. split; [congruence|lia].
      * exists (l ++ [m]). rewrite Herr, IHe. now rewrite app_assoc.
Qed.

(** ** Phase 1 leaves the catalog alone *)

Lemma loads_only_ret {A : Type} (a : A) : loads_only (ret a).
Proof. intro p. repeat split. Qed.

Lemma loads_only_lift {A : Type} (r : result A) : loads_only (lift r).
Proof. intro p. repeat split. Qed.

Lemma loads_only_gets {A : Type} (f : processor -> A) : loads_only (gets f).
Proof. intro p. repeat split. Qed.

Lemma loads_only_raise {A : Type} (e : exn) : loads_only (@raise _ A e).
Proof. intro p. repeat split. Qed.

Lemma loads_only_log (m : error_msg) : loads_only (modify (log_error m)).
Proof. intro p. repeat split. Qed.

Lemma loads_only_append (a : json) : loads_only (modify (append_annotation a)).
Proof. intro p. repeat split. Qed.

Lemma loads_only_bind {A B : Type} (m : M processor A)
    (k : A -> M processor B) :
  loads_only m -> (forall a, loads_only (k a)) -> loads_only (bind m k).
Proof.
  intros Hm Hk p. unfold bind. specialize (Hm p).
  destruct (m p) as [[a|e] p1]; cbn [snd] in *.
  - destruct (Hk a p1) as (B1 & B2 & B3). destruct Hm as (A1 & A2 & A3).
    repeat split; congruence.
  - exact Hm.
Qed.

Lemma loads_only_try {A : Type} (m : M processor A)
    (h : exn -> M processor A) :
  loads_only m -> (forall e, loads_only (h e)) -> loads_only (try_except m h).
Proof.
  intros Hm Hh p. unfold try_except. specialize (Hm p).
  destruct (m p) as [[a|e] p1]; cbn [snd] in *.
  - exact Hm.
  - destruct (Hh e p1) as (B1 & B2 & B3). destruct Hm as (A1 & A2 & A3).
    repeat split; congruence.
Qed.

Ltac loads_only_tac :=
  repeat first
    [ apply loads_only_ret | apply loads_only_lift | apply loads_only_gets
    | apply loads_only_raise | apply loads_only_log | apply loads_only_append
    | apply loads_only_try; [|intro]
    | apply loads_only_bind; [|intro]
    | match goal with
      | |- loads_only (if ?b then _ else _) => destruct b
      | |- loads_only (match ?x with _ => _ end) => destruct x
      end ].

Lemma loads_only_check_fields (missing : string -> error_msg)
    (fields : list string) (v : json) :
  loads_only (check_fields missing fields v).
Proof.
  induction fields as [|field rest IH]; cbn [check_fields].
  - apply loads_only_ret.
  - apply loads_only_bind; [apply loads_only_lift|].
    intros [|]; [exact IH|loads_only_tac].
Qed.

Lemma loads_only_check_sections (file : string) (sections : list json) :
  forall i, loads_only (check_sections file i sections).
Proof.
  induction sections as [|section rest IH]; intro i; cbn [check_sections].
  - apply loads_only_ret.
  - apply loads_only_bind; [apply loads_only_check_fields|].
    intros [|]; [apply IH|apply loads_only_ret].
Qed.

Lemma loads_only_validate (annotation : json) (file : string) :
  loads_only (validate_annotation annotation file).
Proof.
  unfold validate_annotation.
  apply loads_only_bind; [apply loads_only_check_fields|].
  intros [|]; [|apply loads_only_ret].
  apply loads_only_bind; [apply loads_only_lift|].
  intros [| | | |l|]; loads_only_tac. apply loads_only_check_sections.
Qed.

Lemma loads_only_file (w : World) (ann_file : string * file_content) :
  loads_only (load_annotation_file w ann_file).
Proof.
  destruct ann_file as [name content]. unfold load_annotation_file.
  apply loads_only_try; [|intro; apply loads_only_log].
  apply loads_only_bind; [apply loads_only_lift|]. intro annotation.
  apply loads_only_bind; [apply loads_only_validate|].
  intros [|]; loads_only_tac.
Qed.

Lemma loads_only_files (w : World) (files : list (string * file_content)) :
  loads_only (load_annotation_files w files).
Proof.
  induction files as [|f rest IH]; cbn [load_annotation_files].
  - apply loads_only_ret.
  - apply loads_only_bind; [apply loads_only_file|]. intro. exact IH.
Qed.

Lemma loads_only_load_annotations (w : World) :
  loads_only (load_annotations w).
Proof.
  unfold load_annotations. destruct (annotation_files w).
  - apply loads_only_bind; [apply loads_only_files|].
    intro. apply loads_only_gets.
  - apply loads_only_raise.
Qed.

(** ** The state at the end of a run *)

Lemma crop_invariant_weaken (P Q : json -> Prop) (st : cropping) :
  (forall s, P s -> Q s) -> crop_invariant P st -> crop_invariant Q st.
Proof.
  intros HPQ [Hc Hi Hg Ho]. constructor; try assumption.
  eapply Forall_impl; [|exact Ho].
  intros e (s & Hs & He). exists s. split; [now apply HPQ|exact He].
Qed.

Lemma annotated_section_ext (p q : processor) (s : json) :
  annotations p = annotations q -> annotated_section p s ->
  annotated_section q s.
Proof.
  intros Heq (a & v & l & Hin & Hv & Hl & Hs). exists a, v, l.
  rewrite <- Heq. auto.
Qed.

(** A run ends in the state phase 1 left, or in the state phase 2 made
    of it; phase 1 starts and ends with an empty catalog. *)
Lemma final_state_cases (w : World) :
  let p1 := snd (load_annotations w new_processor) in
  sections_catalog p1 = [] /\ section_types p1 = []
  /\ (final_state w = p1 \/ final_state w = snd (crop_sections w p1)).
Proof.
  intro p1.
  destruct (loads_only_load_annotations w new_processor) as (H1 & H2 & _).
  fold p1 in H1, H2. cbn in H1, H2.
  split; [exact H1|]. split; [exact H2|].
  unfold final_state, run_full_processing, bind. subst p1.
  destruct (load_annotations w new_processor) as [[anns|e] p1]; cbn [snd].
  - destruct anns as [|a anns]; [now left|]. right.
    destruct (crop_sections w p1) as [[u|e] p2]; cbn [snd]; [|reflexivity].
    unfold gets, lift. cbn [fst snd].
    destruct (analyze_patterns p2); cbn [snd]; [|reflexivity].
    destruct (generate_module_catalog p2); reflexivity.
  - now left.
Qed.

(** The invariant of phase 2 holds at the end of every run. *)
Lemma final_state_invariant (w : World) :
  exists c,
    crop_invariant (annotated_section (final_state w))
      {| self := final_state w; section_counter := c |}.
Proof.
  destruct (final_state_cases w) as (Hcat & Hgrp & [Hfin|Hfin]).
  - exists 1. rewrite Hfin. constructor; cbn [self section_counter].
    + now rewrite Hcat.
    + rewrite Hcat. intros [|i] e H; discriminate.
    + now rewrite Hcat, Hgrp.
    + rewrite Hcat. constructor.
  - set (p1 := snd (load_annotations w new_processor)) in *.
    pose proof (crop_sections_steps w p1) as Hsteps.
    eexists. rewrite Hfin.
    destruct (crop_steps_monotone _ _ _ _ Hsteps) as (Hann & _).
    cbn [self] in Hann.
    eapply crop_invariant_weaken;
      [intros s Hs; eapply annotated_section_ext; [symmetry; exact Hann|exact Hs]|].
    eapply crop_invariant_steps; [exact Hsteps|].
    constructor; cbn [self section_counter].
    + now rewrite Hcat.
    + rewrite Hcat. intros [|i] e H; discriminate.
    + now rewrite Hcat, Hgrp.
    + rewrite Hcat. constructor.
Qed.

(** ** Identifiers: digits, sequence numbers, the pattern *)

Lemma list_ascii_app (a b : string) :
  list_ascii_of_string (a ++ b)
  = list_ascii_of_string a ++ list_ascii_of_string b.
Proof. induction a as [|c a IH]; cbn; [reflexivity|now rewrite IH]. Qed.

Lemma all_digits_app (a b : string) :
  all_digits (a ++ b)%string = all_digits a && all_digits b.
Proof. unfold all_digits. now rewrite list_ascii_app, forallb_app. Qed.

Lemma all_digits_uint (d : Decimal.uint) :
  all_digits (NilEmpty.string_of_uint d) = true.
Proof.
  induction d; cbn [NilEmpty.string_of_uint]; try reflexivity;
    unfold all_digits in *; cbn [list_ascii_of_string forallb];
    (apply andb_true_iff; split; [reflexivity|assumption]).
Qed.

Lemma all_digits_zeros (k : nat) : all_digits (zeros k) = true.
Proof. induction k; [reflexivity|exact IHk]. Qed.

Lemma all_digits_format (n : Z) : 0 <= n -> all_digits (format_04d n) = true.
Proof.
  intro Hn. unfold format_04d.
  destruct (Z.ltb_spec n 0); [lia|].
  unfold zfill, decimal.
  now rewrite all_digits_app, all_digits_zeros, all_digits_uint.
Qed.

Lemma length_zeros (k : nat) : String.length (zeros k) = k.
Proof. induction k; cbn; congruence. Qed.

Lemma length_string_app (a b : string) :
  String.length (a ++ b) = (String.length a + String.length b)%nat.
Proof. induction a as [|c a IH]; cbn; congruence. Qed.

Lemma length_zfill (width : nat) (s : string) :
  (width <= String.length (zfill width s))%nat.
Proof.
  unfold zfill. rewrite length_string_app, length_zeros. lia.
Qed.

Lemma format_nonempty (n : Z) : format_04d n <> "".
Proof.
  unfold format_04d. destruct (n <? 0); [discriminate|].
  intro H. pose proof (length_zfill 4 (decimal (Z.to_N n))) as Hl.
  rewrite H in Hl. cbn in Hl. lia.
Qed.

Lemma uint_of_string_zeros (k : nat) (s : string) (d : Decimal.uint) :
  NilEmpty.uint_of_string s = Some d ->
  exists d', NilEmpty.uint_of_string (zeros k ++ s) = Some d'
             /\ N.of_uint d' = N.of_uint d.
Proof.
  intro H. induction k as [|k (d' & Hd' & Hv)]; cbn [zeros String.append].
  - now exists d.
  - exists (Decimal.D0 d'). cbn [NilEmpty.uint_of_string]. rewrite Hd'.
    split; [reflexivity|exact Hv].
Qed.

(** Reading back what [{:04d}] printed. *)
Lemma parse_format (n : Z) :
  0 <= n ->
  option_map (fun d => Z.of_N (N.of_uint d))
    (NilZero.uint_of_string (format_04d n)) = Some n.
Proof.
  intro Hn.
  assert (Hne : format_04d n <> "") by apply format_nonempty.
  unfold NilZero.uint_of_string.
  destruct (format_04d n) as [|c s] eqn:E; [contradiction|]. rewrite <- E.
  unfold format_04d. destruct (Z.ltb_spec n 0); [lia|].
  unfold zfill, decimal.
  destruct (uint_of_string_zeros
              (4 - String.length (NilEmpty.string_of_uint (N.to_uint (Z.to_N n))))
              _ _ (NilEmpty.usu (N.to_uint (Z.to_N n)))) as (d' & -> & Hv).
  cbn [option_map]. rewrite Hv, DecimalN.Unsigned.of_to. f_equal. lia.
Qed.

Lemma no_underscore_in_digits (s : string) :
  all_digits s = true -> is_substring "_" s = false.
Proof.
  unfold all_digits.
  induction s as [|c s IH]; cbn [list_ascii_of_string forallb is_substring].
  - reflexivity.
  - intros H. apply andb_true_iff in H as [Hc Hs].
    cbn [String.prefix].
    destruct (ascii_dec "_" c) as [<-|_]; [discriminate|].
    now apply IH.
Qed.

Lemma underscore_in_app (a d : string) :
  is_substring "_" (a ++ String "_" d) = true.
Proof.
  induction a as [|c a IH]; cbn [String.append is_substring String.prefix].
  - destruct (ascii_dec "_" "_") as [_|H]; [now destruct d|now destruct H].
  - destruct (ascii_dec "_" c);
      [now destruct (a ++ String "_" d)%string|exact IH].
Qed.

Lemma after_last_underscore_app (a d : string) :
  is_substring "_" d = false ->
  after_last_underscore (a ++ String "_" d) = d.
Proof.
  intro Hd. induction a as [|c a IH]; cbn [String.append after_last_underscore].
  - now rewrite Hd.
  - now rewrite underscore_in_app.
Qed.

(** The identifier made for counter [n] ends with the sequence number [n]. *)
Lemma sequence_number_make (t : string) (n : Z) :
  0 <= n -> sequence_number (make_section_id t n) = Some n.
Proof.
  intro Hn. unfold sequence_number, make_section_id.
  cbn [String.append].
  rewrite after_last_underscore_app
    by (apply no_underscore_in_digits, all_digits_format, Hn).
  now apply parse_format.
Qed.

Lemma make_section_id_inj (t t' : string) (n n' : Z) :
  0 <= n -> 0 <= n' ->
  make_section_id t n = make_section_id t' n' -> n = n'.
Proof.
  intros Hn Hn' H.
  pose proof (sequence_number_make t n Hn) as H1.
  rewrite H, (sequence_number_make t' n' Hn') in H1. congruence.
Qed.

Lemma format_four_digits (n : Z) :
  0 <= n < 10000 -> four_digits (format_04d n) = true.
Proof.
  intro Hn.
  assert (Hall : forallb (fun k => four_digits (format_04d (Z.of_nat k)))
                   (seq 0 (Z.to_nat 10000)) = true) by (vm_compute; reflexivity).
  rewrite forallb_forall in Hall.
  specialize (Hall (Z.to_nat n)).
  rewrite Z2Nat.id in Hall by lia. apply Hall, in_seq. lia.
Qed.

Lemma normalize_type_chars (t : string) :
  list_ascii_of_string (normalize_type t)
  = map (fun c => if Ascii.eqb (ascii_lower c) " " then "_"%char
                  else ascii_lower c)
      (list_ascii_of_string t).
Proof.
  unfold normalize_type.
  induction t as [|c t IH]; cbn; [reflexivity|now rewrite IH].
Qed.

Lemma plain_char_normalized (c : ascii) :
  is_plain_char c = true ->
  is_id_char (if Ascii.eqb (ascii_lower c) " " then "_"%char
              else ascii_lower c) = true.
Proof.
  destruct c as [[] [] [] [] [] [] [] []];
    vm_compute; intro H; try reflexivity; discriminate H.
Qed.

(** The identifier of a plain type tag and a counter below 10000 is in
    the language of the pattern. *)
Lemma plain_id_matches (t : string) (n : Z) :
  is_plain_type t = true -> 0 <= n < 10000 ->
  matches_unique_id_pattern (make_section_id t n) = true.
Proof.
  intros Ht Hn. unfold is_plain_type in Ht.
  apply andb_true_iff in Ht as [Hne Hplain].
  pose proof (format_four_digits n Hn) as Hd.
  unfold matches_unique_id_pattern, make_section_id.
  destruct (format_04d n) as [|d1 [|d2 [|d3 [|d4 [|]]]]]; try discriminate Hd.
  rewrite !list_ascii_app. cbn [list_ascii_of_string].
  rewrite rev_app_distr. cbn [rev app].
  rewrite normalize_type_chars, <- map_rev.
  assert (Hrev : forallb is_plain_char (rev (list_ascii_of_string t)) = true).
  { rewrite forallb_forall in *. intros c Hc. apply Hplain.
    now apply in_rev. }
  destruct (rev (list_ascii_of_string t)) as [|c prefix] eqn:E.
  - destruct t; [discriminate Hne|].
    apply (f_equal (@length ascii)) in E. rewrite length_rev in E.
    discriminate E.
  - cbn [four_digits] in Hd. rewrite Hd. cbn [andb].
    rewrite Ascii.eqb_refl. cbn [andb].
    change (forallb is_id_char
              (map (fun c0 => if Ascii.eqb (ascii_lower c0) " " then "_"%char
                              else ascii_lower c0) (c :: prefix)) = true).
    rewrite forallb_forall. intros x Hx.
    apply in_map_iff in Hx as (y & <- & Hy).
    apply plain_char_normalized.
    rewrite forallb_forall in Hrev. now apply Hrev.
Qed.

(** ** Identity assignment over a run *)

Lemma section_unique_id_getitem (e : json) (id : string) :
  py_getitem e "unique_id" = Ok (JStr id) -> section_unique_id e = Some id.
Proof.
  unfold py_getitem, section_unique_id, unique_id_of.
  destruct e as [| | | | |kv]; try discriminate.
  destruct (dict_get "unique_id" kv); [|discriminate].
  now intros [= ->].
Qed.

(** Every entry of the final catalog carries the identifier made from
    its own type tag and its position. *)
Lemma final_ids_by_position (w : World) (i : nat) (e : json) :
  nth_error (sections_catalog (final_state w)) i = Some e ->
  exists t,
    section_type_tag e = Ok t
    /\ section_unique_id e = Some (make_section_id t (Z.of_nat i + 1)).
Proof.
  intro Hnth. destruct (final_state_invariant w) as (c & [_ Hids _ _]).
  destruct (Hids i e Hnth) as (t & Ht & Hid).
  exists t. split; [exact Ht|]. now apply section_unique_id_getitem.
Qed.

(** C9.  The counter moves only when a section is cataloged: at the end
    of phase 2 it is one ahead of the number of cataloged sections, and
    the n-th entry of the flat catalog carries the sequence number n,
    whatever was dropped before it. *)
Theorem sequence_numbers_consecutive :
  forall (w : World) (i : nat) (e : json),
    nth_error (sections_catalog (final_state w)) i = Some e ->
    (exists id,
       section_unique_id e = Some id
       /\ sequence_number id = Some (Z.of_nat i + 1))
    /\ (forall p,
          sections_catalog p = [] ->
          section_counter (crop_sections_state w p)
          = Z.of_nat
              (length (sections_catalog (self (crop_sections_state w p))))
            + 1).
Proof.
  intros w i e Hnth. split.
  - destruct (final_ids_by_position w i e Hnth) as (t & _ & Hid).
    eexists. split; [exact Hid|]. apply sequence_number_make. lia.
  - intros p Hp. unfold crop_sections_state.
    pose proof (process_annotations_steps w (fun _ => True) (annotations p)
                  (fun _ _ sections _ _ _ =>
                     proj2 (Forall_forall _ sections) (fun _ _ => I))
                  {| self := p; section_counter := 1 |}) as Hsteps.
    destruct (crop_steps_monotone _ _ _ _ Hsteps)
      as (_ & (more & Hcat & Hcnt) & _).
    cbn [self section_counter] in Hcat, Hcnt.
    rewrite Hcnt, Hcat, Hp. cbn [app]. lia.
Qed.

Lemma sequence_numbers_consecutive_witness :
  exists id,
    map section_unique_id (sections_catalog (final_state gap_world))
      = [Some id]
    /\ sequence_number id = Some 1.
Proof.
  destruct (sequence_numbers_consecutive gap_world 0
              (JObj
                 [("id", JStr "c"); ("type", JStr "footer");
                  ("coordinates", coordinates 0 1800 1000 200);
                  ("unique_id", JStr "footer_0001");
                  ("source_file", JStr "shot.png");
                  ("cropped_files",
                   JObj
                     [("full", JStr "images/full/footer_0001_footer.png");
                      ("medium",
                       JStr "images/medium/footer_0001_footer_medium.png");
                      ("thumbnail",
                       JStr "images/thumbnails/footer_0001_footer_thumb.png");
                      ("dimensions",
                       JObj
                         [("original", size_json (1000, 200));
                          ("medium", size_json (400, 80));
                          ("thumbnail", size_json (200, 40))])]);
                  ("processing_date", JStr "2024-01-01T00:00:00")])
              ltac:(vm_compute; reflexivity)) as ((id & Hid & Hseq) & _).
  exists id. split; [|exact Hseq].
  vm_compute in Hid. injection Hid as <-. vm_compute. reflexivity.
Defined.

Lemma nth_error_map_some {A B : Type} (f : A -> B) (l : list A) (i : nat)
    (b : B) :
  nth_error (map f l) i = Some b ->
  exists a, nth_error l i = Some a /\ f a = b.
Proof.
  revert i. induction l as [|x l IH]; intros [|i] H; try discriminate.
  - cbn in H. injection H as <-. now exists x.
  - now apply IH.
Qed.

(** The identifiers of a run are pairwise distinct. *)
Lemma final_ids_distinct (w : World) :
  NoDup (map section_unique_id (sections_catalog (final_state w))).
Proof.
  apply NoDup_nth_error. intros i j Hi Heq.
  rewrite length_map in Hi.
  destruct (nth_error (sections_catalog (final_state w)) i) as [e1|] eqn:E1;
    [|apply nth_error_None in E1; lia].
  pose proof (map_nth_error section_unique_id _ _ E1) as M1.
  rewrite M1 in Heq. symmetry in Heq.
  destruct (nth_error_map_some _ _ _ _ Heq) as (e2 & E2 & Hsame).
  destruct (final_ids_by_position w i e1 E1) as (t1 & _ & H1).
  destruct (final_ids_by_position w j e2 E2) as (t2 & _ & H2).
  rewrite H1 in Hsame. rewrite H2 in Hsame. injection Hsame as Hsame.
  apply make_section_id_inj in Hsame; lia.
Qed.

(** C1, as the code has it.  The identifiers of a run are pairwise
    distinct, and each is a prefix made from the type tag, then an
    underscore and the position in the catalog padded with zeros to at
    least four digits; for an ASCII tag the prefix is the tag in lower
    case with every space replaced by an underscore; the identifier
    matches the pattern whenever the tag is a non-empty string of ASCII
    letters, digits, underscores and spaces and the position is below
    10000. *)
Theorem unique_ids_distinct_and_formed :
  forall (w : World),
    NoDup (map section_unique_id (sections_catalog (final_state w)))
    /\ forall (i : nat) (e : json),
         nth_error (sections_catalog (final_state w)) i = Some e ->
         exists t prefix,
           section_type_tag e = Ok t
           /\ section_unique_id e
              = Some (prefix ++ "_" ++ format_04d (Z.of_nat i + 1))%string
           /\ (is_ascii t = true ->
               prefix = str_replace_char " " "_" (str_lower t))
           /\ (is_plain_type t = true -> Z.of_nat i + 1 < 10000 ->
               prefix = str_replace_char " " "_" (str_lower t)
               /\ matches_unique_id_pattern
                    (prefix ++ "_" ++ format_04d (Z.of_nat i + 1))%string
                  = true).
Proof.
  intro w. split; [apply final_ids_distinct|].
  intros i e Hnth.
  destruct (final_ids_by_position w i e Hnth) as (t & Ht & Hid).
  exists t, (normalize_type t). split; [exact Ht|]. split; [exact Hid|].
  split; [reflexivity|].
  intros Hplain Hlt. split; [reflexivity|].
  apply (plain_id_matches t (Z.of_nat i + 1) Hplain). lia.
Qed.

(** The pattern of C1 fails on a tag with a hyphen: the identifier made for
    it keeps the hyphen and is not in the language of the pattern. *)
Lemma unique_id_pattern_counterexample :
  map section_unique_id (sections_catalog (final_state dash_world))
    = [Some "hero-banner_0001"]
  /\ matches_unique_id_pattern "hero-banner_0001" = false.
Proof. vm_compute. split; reflexivity. Qed.

(** Only the space is replaced: a tab in a tag stays, where the
    normalisation of the specification puts an underscore. *)
Example tab_is_kept :
  let tab := String (ascii_of_N 9) "" in
  normalize_type ("hero" ++ tab ++ "banner") = ("hero" ++ tab ++ "banner")%string
  /\ spec_normalize ("hero" ++ tab ++ "banner") = "hero_banner".
Proof. vm_compute. split; reflexivity. Qed.

(** ** One counter for all annotations *)

(** C4.  The counter is never reset: whatever annotations were processed
    before, the next ones continue from the counter reached, which is
    one ahead of the catalog; so a catalog that begins with two [hero]
    sections and a [footer] section, from whichever annotations, begins
    with [hero_0001], [hero_0002] and [footer_0003]. *)
Theorem counter_shared_across_annotations :
  forall (w : World) (e1 e2 e3 : json) (rest : list json),
    sections_catalog (final_state w) = e1 :: e2 :: e3 :: rest ->
    section_type_tag e1 = Ok "hero" ->
    section_type_tag e2 = Ok "hero" ->
    section_type_tag e3 = Ok "footer" ->
    (section_unique_id e1 = Some "hero_0001"
     /\ section_unique_id e2 = Some "hero_0002"
     /\ section_unique_id e3 = Some "footer_0003")
    /\ (forall (anns1 anns2 : list json) (p : processor),
          sections_catalog p = [] ->
          let st1 :=
            snd (process_annotations w anns1
                   {| self := p; section_counter := 1 |}) in
          let st2 := snd (process_annotations w anns2 st1) in
          section_counter st1
          = Z.of_nat (length (sections_catalog (self st1))) + 1
          /\ section_counter st2
             = Z.of_nat (length (sections_catalog (self st2))) + 1
          /\ section_counter st1 <= section_counter st2).
Proof.
  intros w e1 e2 e3 rest Hcat H1 H2 H3. split.
  - destruct (final_ids_by_position w 0 e1) as (t1 & T1 & I1);
      [now rewrite Hcat|].
    destruct (final_ids_by_position w 1 e2) as (t2 & T2 & I2);
      [now rewrite Hcat|].
    destruct (final_ids_by_position w 2 e3) as (t3 & T3 & I3);
      [now rewrite Hcat|].
    rewrite H1 in T1. rewrite H2 in T2. rewrite H3 in T3.
    injection T1 as <-. injection T2 as <-. injection T3 as <-.
    now rewrite I1, I2, I3.
  - intros anns1 anns2 p Hp st1 st2.
    assert (Hall : forall anns annotation listed (sections : list json),
               In annotation anns ->
               py_getitem annotation "sections" = Ok listed ->
               py_iter listed = Ok sections ->
               Forall (fun _ : json => True) sections)
      by (intros; apply Forall_forall; intros; exact I).
    pose proof (process_annotations_steps w (fun _ => True) anns1 (Hall anns1)
                  {| self := p; section_counter := 1 |}) as S1.
    pose proof (process_annotations_steps w (fun _ => True) anns2 (Hall anns2)
                  st1) as S2.
    fold st1 in S1. fold st2 in S2.
    destruct (crop_steps_monotone _ _ _ _ S1) as (_ & (m1 & C1 & N1) & _).
    destruct (crop_steps_monotone _ _ _ _ S2) as (_ & (m2 & C2 & N2) & _).
    cbn [self section_counter] in C1, N1.
    rewrite Hp in C1. cbn [app] in C1.
    rewrite C2, length_app, N2, N1, C1. lia.
Qed.

Lemma counter_shared_across_annotations_witness :
  map section_unique_id (sections_catalog (final_state hero_footer_world))
  = [Some "hero_0001"; Some "hero_0002"; Some "footer_0003"].
Proof.
  destruct (sections_catalog (final_state hero_footer_world))
    as [|e1 [|e2 [|e3 rest]]] eqn:Hcat; try (vm_compute in Hcat; discriminate).
  assert (Hrest : rest = []) by (vm_compute in Hcat; congruence).
  destruct (counter_shared_across_annotations hero_footer_world e1 e2 e3 rest
              Hcat) as ((I1 & I2 & I3) & _).
  - vm_compute in Hcat. injection Hcat as <- _ _ _. reflexivity.
  - vm_compute in Hcat. injection Hcat as _ <- _ _. reflexivity.
  - vm_compute in Hcat. injection Hcat as _ _ <- _. reflexivity.
  - subst rest. cbn [map]. now rewrite I1, I2, I3.
Defined.

(** ** The type index *)

Lemma dict_get_group_append {V : Type} (k t : string) (v : V)
    (d : dict (list V)) :
  dict_get k (group_append t v d)
  = if String.eqb k t
    then Some (match dict_get k d with Some vs => vs | None => [] end ++ [v])
    else dict_get k d.
Proof.
  induction d as [|[k' vs] d IH]; cbn [group_append dict_get].
  - destruct (String.eqb k t); reflexivity.
  - destruct (String.eqb_spec t k') as [->|Hne]; cbn [dict_get].
    + destruct (String.eqb k k'); reflexivity.
    + destruct (String.eqb_spec k k') as [->|Hk].
      * destruct (String.eqb_spec k' t); [congruence|reflexivity].
      * exact IH.
Qed.

Lemma dict_keys_group_append {V : Type} (t : string) (v : V)
    (d : dict (list V)) :
  dict_keys (group_append t v d)
  = if existsb (String.eqb t) (dict_keys d) then dict_keys d
    else dict_keys d ++ [t].
Proof.
  unfold dict_keys.
  induction d as [|[k' vs] d IH]; cbn [group_append map fst existsb].
  - reflexivity.
  - destruct (String.eqb t k'); cbn [map fst orb]; [reflexivity|].
    rewrite IH. now destruct (existsb (String.eqb t) (map fst d)).
Qed.

Lemma NoDup_keys_group_append {V : Type} (t : string) (v : V)
    (d : dict (list V)) :
  NoDup (dict_keys d) -> NoDup (dict_keys (group_append t v d)).
Proof.
  intro H. rewrite dict_keys_group_append.
  destruct (existsb (String.eqb t) (dict_keys d)) eqn:E; [exact H|].
  apply NoDup_app; [exact H|repeat constructor; intros []|].
  intros k Hk [Hkt|[]]. subst k.
  assert (existsb (String.eqb t) (dict_keys d) = true); [|congruence].
  apply existsb_exists. exists t. split; [exact Hk|apply String.eqb_refl].
Qed.

(** The index of the groups after one more section was grouped. *)
Lemma index_of_groups_append (t : string) (s id : json)
    (groups : dict (list json)) :
  py_getitem s "unique_id" = Ok id ->
  index_of_groups (group_append t s groups)
  = (index <~ index_of_groups groups ;; Ok (group_append t id index))%result.
Proof.
  intro Hid. unfold index_of_groups.
  induction groups as [|[k' vs] groups IH];
    cbn [group_append result_map fst snd rbind].
  - now rewrite Hid.
  - destruct (String.eqb_spec t k') as [->|Hne];
      cbn [result_map fst snd rbind].
    + clear IH.
      assert (Happ : result_map (fun x => py_getitem x "unique_id") (vs ++ [s])
                     = (ids <~ result_map (fun x => py_getitem x "unique_id") vs ;;
                        Ok (ids ++ [id]))%result).
      { induction vs as [|x vs IHvs]; cbn [app result_map rbind].
        - now rewrite Hid.
        - destruct (py_getitem x "unique_id"); [|reflexivity].
          cbn [rbind]. rewrite IHvs.
          now destruct (result_map _ vs). }
      rewrite Happ.
      destruct (result_map (fun x => py_getitem x "unique_id") vs);
        cbn [rbind]; [|reflexivity].
      match goal with
      | |- context [result_map ?f groups] => destruct (result_map f groups)
      end; cbn [rbind group_append]; [|reflexivity].
      now rewrite String.eqb_refl.
    + destruct (result_map (fun x => py_getitem x "unique_id") vs);
        cbn [rbind]; [|reflexivity].
      rewrite IH.
      match goal with
      | |- context [result_map ?f groups] => destruct (result_map f groups)
      end; cbn [rbind group_append]; [|reflexivity].
      destruct (String.eqb_spec t k'); [contradiction|reflexivity].
Qed.

Lemma types_index_from_modules_snoc (l : list json) (s : json) :
  types_index_from_modules (l ++ [s])
  = (index <~ types_index_from_modules l ;;
     t <~ section_type_tag s ;;
     id <~ py_getitem s "unique_id" ;;
     Ok (group_append t id index))%result.
Proof.
  unfold types_index_from_modules. rewrite fold_left_app. reflexivity.
Qed.

Lemma ids_of_type_snoc (k : string) (l : list json) (s : json)
    (t : string) (id : json) :
  section_type_tag s = Ok t -> py_getitem s "unique_id" = Ok id ->
  ids_of_type k (l ++ [s])
  = ids_of_type k l ++ (if String.eqb k t then [id] else []).
Proof.
  intros Ht Hid. induction l as [|x l IH]; cbn [app ids_of_type].
  - rewrite Ht, Hid. now destruct (String.eqb k t).
  - rewrite IH.
    destruct (section_type_tag x) as [t'|]; [|reflexivity].
    destruct (py_getitem x "unique_id"); [|reflexivity].
    now destruct (String.eqb k t').
Qed.

(** A catalog whose entries all have a type tag and an identifier: the
    index made from its groups is the index rebuilt from the flat list,
    its keys are distinct, and under each key stand the identifiers of
    the entries of that type, in catalog order. *)
Lemma index_of_regroup (l : list json) :
  ids_by_position l ->
  exists index,
    index_of_groups (regroup l) = Ok index
    /\ types_index_from_modules l = Ok index
    /\ NoDup (dict_keys index)
    /\ forall k,
         dict_get k index
         = match ids_of_type k l with
           | [] => None
           | ids => Some ids
           end.
Proof.
  induction l as [|s l IH] using rev_ind; intro Hids.
  - exists []. repeat split; constructor.
  - assert (Hl : ids_by_position l).
    { intros i e Hnth. apply Hids.
      rewrite nth_error_app1; [exact Hnth|].
      apply nth_error_Some. congruence. }
    destruct (IH Hl) as (index & Hidx & Hmod & Hnd & Hget).
    destruct (Hids (length l) s) as (t & Ht & Hid).
    { rewrite nth_error_app2 by lia. now rewrite Nat.sub_diag. }
    exists (group_append t (JStr (make_section_id t (Z.of_nat (length l) + 1)))
              index).
    split; [|split; [|split]].
    + rewrite (regroup_snoc l s t Ht).
      rewrite (index_of_groups_append t s _ _ Hid). now rewrite Hidx.
    + rewrite types_index_from_modules_snoc, Hmod. cbn [rbind].
      now rewrite Ht, Hid.
    + now apply NoDup_keys_group_append.
    + intro k. rewrite dict_get_group_append, Hget.
      rewrite (ids_of_type_snoc k l s t _ Ht Hid).
      destruct (String.eqb k t).
      * now destruct (ids_of_type k l).
      * rewrite app_nil_r. reflexivity.
Qed.

(** The artifacts of a run are computed from its final state. *)
Lemma run_artifacts (w : World) (p0 p : processor) (arts : artifacts) :
  run_full_processing w p0 = (Ok (Some arts), p) ->
  analyze_patterns p = Ok (out_patterns arts)
  /\ generate_module_catalog p = Ok (out_catalog arts)
  /\ out_statistics arts = generate_statistics p.
Proof.
  unfold run_full_processing, bind. intro Hrun.
  destruct (load_annotations w p0) as [[anns|e] p1]; [|discriminate].
  destruct anns; [discriminate|].
  destruct (crop_sections w p1) as [[u|e] p2]; [|discriminate].
  unfold gets, lift, ret in Hrun. cbn [fst snd] in Hrun.
  destruct (analyze_patterns p2) eqn:Ha; [|discriminate].
  destruct (generate_module_catalog p2) eqn:Hc; [|discriminate].
  injection Hrun as <- <-. cbn. now rewrite Ha, Hc.
Qed.

(** C3, as the code has it.  The emitted index is keyed by the type tags
    as they stand in the sections, not by their normalised form.  It is exactly
    the index rebuilt from the flat list of modules: its keys are
    distinct, and under each tag stand the identifiers of exactly the
    modules of that tag, in the order of the flat list; a tag without
    modules has no key. *)
Theorem types_index_matches_modules :
  forall (w : World),
    exists cat : catalog,
      generate_module_catalog (final_state w) = Ok cat
      /\ modules cat = sections_catalog (final_state w)
      /\ types_index_from_modules (modules cat) = Ok (types_index cat)
      /\ NoDup (dict_keys (types_index cat))
      /\ (forall k,
            dict_get k (types_index cat)
            = match ids_of_type k (modules cat) with
              | [] => None
              | ids => Some ids
              end)
      /\ (forall arts p,
            run_full_processing w new_processor = (Ok (Some arts), p) ->
            out_catalog arts = cat).
Proof.
  intro w. destruct (final_state_invariant w) as (c & [_ Hids Hgrp _]).
  cbn [self] in Hids, Hgrp.
  destruct (index_of_regroup _ Hids) as (index & Hidx & Hmod & Hnd & Hget).
  unfold generate_module_catalog. rewrite Hgrp, Hidx. cbn [rbind].
  eexists. split; [reflexivity|]. cbn [modules types_index].
  repeat split; try assumption.
  intros arts p Hrun.
  destruct (run_artifacts w new_processor p arts Hrun) as (_ & Hcat & _).
  assert (Hp : final_state w = p) by (unfold final_state; now rewrite Hrun).
  subst p. unfold generate_module_catalog in Hcat.
  rewrite Hgrp, Hidx in Hcat. cbn [rbind] in Hcat.
  now injection Hcat as <-.
Qed.

(** The keys of C3 fail on a tag that is not in normalised form: the
    index of the run has the key ["Hero Banner"] and none for
    ["hero_banner"], and differs from the index keyed by normalised type. *)
Lemma types_index_counterexample :
  exists cat : catalog,
    generate_module_catalog (final_state s1_world) = Ok cat
    /\ types_index cat = [("Hero Banner", [JStr "hero_banner_0001"])]
    /\ dict_get "hero_banner" (types_index cat) = None
    /\ spec_types_index (modules cat)
       = Ok [("hero_banner", [JStr "hero_banner_0001"])]
    /\ spec_types_index (modules cat) <> Ok (types_index cat).
Proof. eexists. vm_compute. repeat split. discriminate. Qed.

(** ** The pattern aggregator reads the annotated coordinates *)

Lemma in_group_append {V : Type} (t k : string) (v : V) (g : list V)
    (d : dict (list V)) :
  In (k, g) (group_append t v d) ->
  In (k, g) d
  \/ (g = [v] /\ k = t)
  \/ (exists g', In (k, g') d /\ g = g' ++ [v]).
Proof.
  induction d as [|[k' vs] d IH]; cbn [group_append].
  - intros [H|[]]. injection H as <- <-. right. now left.
  - destruct (String.eqb t k').
    + intros [H|H].
      * injection H as <- <-. right. right. exists vs. split; [now left|reflexivity].
      * left. now right.
    + intros [H|H].
      * left. now left.
      * destruct (IH H) as [H1|[H2|(g' & H3 & H4)]].
        -- left. now right.
        -- right. now left.
        -- right. right. exists g'. split; [now right|exact H4].
Qed.

(** The members of the groups of a catalog are entries of the catalog. *)
Lemma regroup_members (l : list json) (k : string) (g : list json) :
  In (k, g) (regroup l) -> Forall (fun e => In e l) g.
Proof.
  revert k g. induction l as [|s l IH] using rev_ind; intros k g Hin.
  - destruct Hin.
  - assert (Hweak : forall g0, Forall (fun e => In e l) g0 ->
                               Forall (fun e => In e (l ++ [s])) g0).
    { intros g0 H0. eapply Forall_impl; [|exact H0].
      intros e He. apply in_or_app. now left. }
    unfold regroup in Hin. rewrite fold_left_app in Hin.
    cbn [fold_left] in Hin. fold (regroup l) in Hin.
    destruct (section_type_tag s) as [t|]; [|now apply Hweak, (IH k)].
    destruct (in_group_append _ _ _ _ _ Hin) as [H1|[[-> _]|(g' & H3 & ->)]].
    + now apply Hweak, (IH k).
    + constructor; [|constructor]. apply in_or_app. right. now left.
    + apply Forall_app. split; [now apply Hweak, (IH k)|].
      constructor; [|constructor]. apply in_or_app. right. now left.
Qed.

Lemma Forall_exists_Forall2 {A B : Type} (P : B -> Prop) (R : A -> B -> Prop)
    (l : list A) :
  Forall (fun a => exists b, P b /\ R a b) l ->
  exists l', Forall2 R l l' /\ Forall P l'.
Proof.
  induction 1 as [|a l (b & Hb & Hab) _ (l' & H2 & HP)].
  - exists []. split; constructor.
  - exists (b :: l'). split; constructor; assumption.
Qed.

Lemma result_map_Forall2 {A B : Type} (f : A -> result B) (l : list A) :
  forall r, result_map f l = Ok r -> Forall2 (fun a b => f a = Ok b) l r.
Proof.
  induction l as [|a l IH]; cbn [result_map]; intros r H.
  - injection H as <-. constructor.
  - destruct (f a) as [b|] eqn:Hb; [|discriminate]. cbn [rbind] in H.
    destruct (result_map f l) as [bs|]; [|discriminate]. cbn [rbind] in H.
    injection H as <-. constructor; [exact Hb|now apply IH].
Qed.

Lemma measures_of_originals (group originals : list json) :
  Forall2 enriched_from group originals ->
  result_map section_measure group = result_map section_measure originals.
Proof.
  induction 1 as [|e s group originals Hes _ IH]; [reflexivity|].
  cbn [result_map]. now rewrite (enriched_measure e s Hes), IH.
Qed.

Lemma pattern_of_originals (group originals : list json) :
  Forall2 enriched_from group originals ->
  pattern_of_group group = pattern_of_group originals.
Proof.
  intro H. unfold pattern_of_group.
  rewrite (measures_of_originals group originals H).
  now rewrite (Forall2_length H).
Qed.

Lemma Forall2_with_Forall {A B : Type} (P : A -> Prop) (R Q : A -> B -> Prop)
    (l : list A) (l' : list B) :
  (forall a b, P a -> R a b -> Q a b) ->
  Forall P l -> Forall2 R l l' -> Forall2 Q l l'.
Proof.
  intros H HP HR. induction HR as [|a b l l' Hab _ IH]; [constructor|].
  inversion HP; subst. constructor; auto.
Qed.

(** The measures of a list of sections, taken apart: the extents, the
    aspect ratios of the extents and the areas of the extents. *)
Lemma measures_of_extents (l : list json) :
  forall ms,
    result_map section_measure l = Ok ms ->
    result_map annotated_extent l = Ok (map (fun m => fst (fst m)) ms)
    /\ result_map (fun wh => aspect_ratio_of (fst wh) (snd wh))
         (map (fun m => fst (fst m)) ms)
       = Ok (map (fun m => snd (fst m)) ms)
    /\ map snd ms
       = map (fun wh => fst wh * snd wh) (map (fun m => fst (fst m)) ms).
Proof.
  induction l as [|s l IH]; intros ms H; cbn [result_map] in H.
  - injection H as <-. repeat split.
  - destruct (section_measure s) as [m|] eqn:Hm; [|discriminate].
    cbn [rbind] in H.
    destruct (result_map section_measure l) as [ms'|]; [|discriminate].
    cbn [rbind] in H. injection H as <-.
    destruct (IH ms' eq_refl) as (H1 & H2 & H3).
    assert (Hs : annotated_extent s = Ok (fst (fst m))
                 /\ aspect_ratio_of (fst (fst (fst m))) (snd (fst (fst m)))
                    = Ok (snd (fst m))
                 /\ snd m = fst (fst (fst m)) * snd (fst (fst m))).
    { unfold section_measure, annotated_extent in *.
      destruct (py_getitem s "coordinates") as [coords|]; [|discriminate].
      cbn [rbind] in *.
      destruct (py_getitem coords "width") as [jw|]; [|discriminate].
      cbn [rbind] in *.
      destruct (py_getitem coords "height") as [jh|]; [|discriminate].
      cbn [rbind] in *.
      destruct (py_int_value jw) as [wd|]; [|discriminate].
      cbn [rbind] in *.
      destruct (py_int_value jh) as [ht|]; [|discriminate].
      cbn [rbind] in *.
      destruct (aspect_ratio_of wd ht) as [r|] eqn:Hr; [|discriminate].
      cbn [rbind] in *. injection Hm as <-. cbn [fst snd].
      repeat split. exact Hr. }
    destruct Hs as (S1 & S2 & S3).
    cbn [result_map map]. rewrite S1, H1. cbn [rbind].
    rewrite S2, H2. cbn [rbind]. rewrite S3, H3.
    repeat split.
Qed.

(** The pattern of a group says of the extents of its sections what the
    patterns document has to say of them. *)
Lemma pattern_of_group_statistics (group : list json) (pat : type_pattern) :
  pattern_of_group group = Ok pat ->
  exists extents,
    result_map annotated_extent group = Ok extents
    /\ statistics_of_extents extents pat.
Proof.
  unfold pattern_of_group. intro H.
  destruct (result_map section_measure group) as [ms|] eqn:Hms;
    [|discriminate].
  cbn [rbind] in H.
  destruct (measures_of_extents group ms Hms) as (H1 & H2 & H3).
  pose proof (result_map_Forall2 _ _ _ Hms) as Hlen.
  apply Forall2_length in Hlen.
  exists (map (fun m => fst (fst m)) ms). split; [exact H1|].
  unfold statistics_of_extents. cbv zeta. rewrite <- H3.
  exists (map (fun m => snd (fst m)) ms). split; [exact H2|].
  destruct (map snd ms) as [|a areas] eqn:Hareas.
  - cbn [rbind] in H. injection H as <-.
    cbn [count common_dimensions common_aspect_ratios avg_area min_area
         max_area].
    rewrite length_map, Hlen. repeat split.
  - destruct (py_truediv (sum_Z (a :: areas))
                (Z.of_nat (length (a :: areas)))) as [q|] eqn:Hq;
      [|discriminate].
    cbn [rbind] in H. injection H as <-.
    cbn [count common_dimensions common_aspect_ratios avg_area min_area
         max_area].
    rewrite length_map, Hlen.
    split; [reflexivity|]. split; [reflexivity|]. split; [reflexivity|].
    split; [|split; reflexivity]. exists q. now split.
Qed.

(** C10.  In the patterns document of a run, the entry of every type
    group is computed from the extents its sections were annotated with:
    the document has one entry for each type group, under the same key,
    and the entry says of the annotated widths and heights of the group's
    sections what the document has to say: how many they are, which
    extents and aspect ratios are most common, and the average, the least
    and the greatest area.  In the run over the 1200 pixels wide section
    on a 1000 pixels wide screenshot the document counts the extent 1200
    by 300 and the area 360000, while the crop recorded for the module is
    1000 by 300. *)
Theorem patterns_use_annotated_coordinates :
  forall (w : World) (arts : artifacts) (p : processor),
    run_full_processing w new_processor = (Ok (Some arts), p) ->
    Forall2
      (fun g kp =>
         fst kp = fst g
         /\ exists originals extents,
              Forall2 enriched_from (snd g) originals
              /\ Forall (annotated_section p) originals
              /\ result_map annotated_extent originals = Ok extents
              /\ statistics_of_extents extents (snd kp))
      (section_types p) (pattern_section_types (out_patterns arts))
    /\ exists arts1 p1,
         run_full_processing s1_world new_processor = (Ok (Some arts1), p1)
         /\ map (fun kp => (fst kp, common_dimensions (snd kp),
                            min_area (snd kp), max_area (snd kp)))
              (pattern_section_types (out_patterns arts1))
            = [("Hero Banner", [((1200, 300), 1)], 360000, 360000)]
         /\ map recorded_crop_size (modules (out_catalog arts1))
            = [Ok (1000, 300)].
Proof.
  intros w arts p Hrun. split.
  - destruct (run_artifacts w new_processor p arts Hrun) as (Hp & _ & _).
    assert (Hfin : p = final_state w)
      by (unfold final_state; now rewrite Hrun).
    destruct (final_state_invariant w) as (c & [_ _ Hgrp Horigin]).
    rewrite <- Hfin in Hgrp, Horigin. cbn [self] in Hgrp, Horigin.
    unfold analyze_patterns in Hp.
    match type of Hp with
    | context [rbind ?a _] =>
        destruct a as [per_type|] eqn:Hper; [|discriminate]
    end.
    cbn [rbind] in Hp.
    destruct (result_map section_type_tag (sections_catalog p)) as [tags|];
      [|discriminate].
    cbn [rbind] in Hp. injection Hp as <-. cbn [pattern_section_types].
    apply result_map_Forall2 in Hper.
    apply (Forall2_with_Forall
             (fun g => exists originals,
                         Forall2 enriched_from (snd g) originals
                         /\ Forall (annotated_section p) originals)
             (fun g kp =>
                (pat <~ pattern_of_group (snd g) ;; Ok (fst g, pat))%result
                = Ok kp)); [| |exact Hper].
    + intros g kp (originals & H2 & HP) Hg.
      destruct (pattern_of_group (snd g)) as [pat|] eqn:Hpat;
        [|discriminate].
      cbn [rbind] in Hg. injection Hg as <-. cbn [fst snd].
      split; [reflexivity|].
      rewrite (pattern_of_originals _ _ H2) in Hpat.
      destruct (pattern_of_group_statistics _ _ Hpat) as (extents & He & Hs).
      exists originals, extents. repeat split; assumption.
    + apply Forall_forall. intros [k group] Hin. cbn [snd].
      rewrite Hgrp in Hin.
      pose proof (regroup_members _ _ _ Hin) as Hmem.
      assert (Hall : Forall (fun e => exists s,
                               annotated_section p s /\ enriched_from e s)
                       group).
      { rewrite Forall_forall in *. intros e He. apply Horigin, Hmem, He. }
      destruct (Forall_exists_Forall2 _ _ _ Hall) as (originals & H2 & HP).
      now exists originals.
  - destruct (run_full_processing s1_world new_processor) as [r p1] eqn:E.
    vm_compute in E. injection E as <- <-.
    eexists. eexists. split; [reflexivity|]. vm_compute. split; reflexivity.
Qed.

Lemma patterns_use_annotated_coordinates_witness :
  exists arts p,
    run_full_processing s1_world new_processor = (Ok (Some arts), p)
    /\ Forall2
         (fun g kp =>
            fst kp = fst g
            /\ exists originals extents,
                 Forall2 enriched_from (snd g) originals
                 /\ Forall (annotated_section p) originals
                 /\ result_map annotated_extent originals = Ok extents
                 /\ statistics_of_extents extents (snd kp))
         (section_types p) (pattern_section_types (out_patterns arts)).
Proof.
  destruct (run_full_processing s1_world new_processor) as [r p] eqn:E.
  destruct r as [[arts|]|x];
    try (exfalso; vm_compute in E; discriminate E).
  exists arts, p. split; [reflexivity|].
  exact (proj1 (patterns_use_annotated_coordinates s1_world arts p E)).
Defined.

(** ** The error log is a frame *)

Section Framing.
Context {S : Type} (act : S -> S).

Lemma framed_ret {A : Type} (a : A) : framed act (ret a).
Proof. intro s. reflexivity. Qed.

Lemma framed_lift {A : Type} (r : result A) : framed act (lift r).
Proof. intro s. reflexivity. Qed.

Lemma framed_raise {A : Type} (e : exn) : framed act (@raise S A e).
Proof. intro s. reflexivity. Qed.

Lemma framed_gets {A : Type} (f : S -> A) :
  (forall s, f (act s) = f s) -> framed act (gets f).
Proof. intros Hf s. unfold gets. now rewrite Hf. Qed.

Lemma framed_modify (f : S -> S) :
  (forall s, f (act s) = act (f s)) -> framed act (modify f).
Proof. intros Hf s. unfold modify. now rewrite Hf. Qed.

Lemma framed_bind {A B : Type} (m : M S A) (k : A -> M S B) :
  framed act m -> (forall a, framed act (k a)) -> framed act (bind m k).
Proof.
  intros Hm Hk s. unfold bind. rewrite Hm.
  destruct (m s) as [[a|e] s1]; cbn [fst snd]; [apply Hk|reflexivity].
Qed.

Lemma framed_try {A : Type} (m : M S A) (h : exn -> M S A) :
  framed act m -> (forall e, framed act (h e)) ->
  framed act (try_except m h).
Proof.
  intros Hm Hh s. unfold try_except. rewrite Hm.
  destruct (m s) as [[a|e] s1]; cbn [fst snd]; [reflexivity|apply Hh].
Qed.
End Framing.

Ltac framed_tac :=
  repeat first
    [ apply framed_ret | apply framed_lift | apply framed_raise
    | apply framed_try; [|intro]
    | apply framed_bind; [|intro]
    | match goal with
      | |- framed _ (if ?b then _ else _) => destruct b
      | |- framed _ (match ?x with _ => _ end) => destruct x
      end ].

Lemma log_error_add_errors (log : list error_msg) (m : error_msg)
    (p : processor) :
  log_error m (add_errors log p) = add_errors log (log_error m p).
Proof. unfold log_error, add_errors. cbn. now rewrite app_assoc. Qed.

Lemma framed_log (log : list error_msg) (m : error_msg) :
  framed (add_errors log) (modify (log_error m)).
Proof. apply framed_modify. intro. apply log_error_add_errors. Qed.

Lemma framed_check_fields (log : list error_msg)
    (missing : string -> error_msg) (fields : list string) (v : json) :
  framed (add_errors log) (check_fields missing fields v).
Proof.
  induction fields as [|field rest IH]; cbn [check_fields].
  - apply framed_ret.
  - apply framed_bind; [apply framed_lift|].
    intros [|]; [exact IH|].
    apply framed_bind; [apply framed_log|intro; apply framed_ret].
Qed.

Lemma framed_check_sections (log : list error_msg) (file : string)
    (sections : list json) :
  forall i, framed (add_errors log) (check_sections file i sections).
Proof.
  induction sections as [|section rest IH]; intro i; cbn [check_sections].
  - apply framed_ret.
  - apply framed_bind; [apply framed_check_fields|].
    intros [|]; [apply IH|apply framed_ret].
Qed.

Lemma framed_validate (log : list error_msg) (annotation : json)
    (file : string) :
  framed (add_errors log) (validate_annotation annotation file).
Proof.
  unfold validate_annotation.
  apply framed_bind; [apply framed_check_fields|].
  intros [|]; [|apply framed_ret].
  apply framed_bind; [apply framed_lift|].
  intros [| | | |l|];
    try (apply framed_bind; [apply framed_log|intro; apply framed_ret]).
  apply framed_check_sections.
Qed.

Lemma framed_load_file (log : list error_msg) (w : World)
    (ann_file : string * file_content) :
  framed (add_errors log) (load_annotation_file w ann_file).
Proof.
  destruct ann_file as [name content]. unfold load_annotation_file.
  apply framed_try; [|intro; apply framed_log].
  apply framed_bind; [apply framed_lift|]. intro annotation.
  apply framed_bind; [apply framed_validate|].
  intros [|]; [|apply framed_ret].
  apply framed_bind; [apply framed_lift|]. intro src.
  apply framed_bind; [apply framed_lift|].
  intros [path|]; [|apply framed_log].
  apply framed_bind; [apply framed_lift|]. intro a1.
  apply framed_bind; [apply framed_lift|]. intro a2.
  apply framed_modify. reflexivity.
Qed.

Lemma framed_load_files (log : list error_msg) (w : World)
    (files : list (string * file_content)) :
  framed (add_errors log) (load_annotation_files w files).
Proof.
  induction files as [|f rest IH]; cbn [load_annotation_files].
  - apply framed_ret.
  - apply framed_bind; [apply framed_load_file|]. intro. exact IH.
Qed.

Lemma framed_pil (log : list error_msg) (w : World) (screenshot : string)
    (call : pil_call) :
  framed (add_errors log) (pil w screenshot call).
Proof.
  unfold pil. destruct (pil_raises w screenshot call).
  - apply framed_raise.
  - destruct call.
    + apply framed_ret.
    + apply framed_modify. reflexivity.
    + apply framed_ret.
Qed.

Lemma framed_crop_image (log : list error_msg) (w : World)
    (screenshot : string) (img_size : Z * Z) (coords : json)
    (section_id section_type : string) :
  framed (add_errors log)
    (crop_section_image w screenshot img_size coords section_id section_type).
Proof.
  unfold crop_section_image, render_section.
  repeat first
    [ apply framed_ret | apply framed_lift | apply framed_pil
    | apply framed_try; [|intro]
    | apply framed_bind; [|intro]
    | match goal with
      | |- framed _ (if ?b then _ else _) => destruct b
      | |- framed _ (let '(_, _) := ?x in _) => destruct x
      end ].
Qed.

Lemma framed_on_self {A : Type} (log : list error_msg) (m : M processor A) :
  framed (add_errors log) m ->
  framed (add_errors_cropping log) (on_self m).
Proof.
  intros Hm st. unfold on_self, add_errors_cropping. cbn [self section_counter].
  rewrite Hm. now destruct (m (self st)).
Qed.

Lemma framed_process_section (log : list error_msg) (w : World)
    (screenshot : string) (img_size : Z * Z) (section : json) :
  framed (add_errors_cropping log)
    (process_section w screenshot img_size section).
Proof.
  unfold process_section.
  apply framed_bind; [apply framed_gets; reflexivity|]. intro counter.
  apply framed_bind; [apply framed_lift|]. intro section_id.
  apply framed_bind; [apply framed_lift|]. intro coords.
  apply framed_bind; [apply framed_lift|].
  intros [| | |t| |]; try apply framed_raise.
  apply framed_bind; [apply framed_on_self, framed_crop_image|].
  intros [cf|]; [|apply framed_ret].
  apply framed_bind; [apply framed_lift|]. intro e.
  apply framed_modify. reflexivity.
Qed.

Lemma framed_process_sections (log : list error_msg) (w : World)
    (screenshot : string) (img_size : Z * Z) (sections : list json) :
  framed (add_errors_cropping log)
    (process_sections w screenshot img_size sections).
Proof.
  induction sections as [|s rest IH]; cbn [process_sections].
  - apply framed_ret.
  - apply framed_bind; [apply framed_process_section|]. intro. exact IH.
Qed.

Lemma framed_process_annotation (log : list error_msg) (w : World)
    (annotation : json) :
  framed (add_errors_cropping log) (process_annotation w annotation).
Proof.
  unfold process_annotation. apply framed_try.
  - apply framed_bind; [apply framed_lift|].
    intros [| | |screenshot| |]; try apply framed_raise.
    apply framed_bind; [apply framed_lift|]. intro size.
    apply framed_bind; [apply framed_lift|]. intro listed.
    apply framed_bind; [apply framed_lift|]. intro sections.
    apply framed_process_sections.
  - intro e. apply framed_bind; [apply framed_lift|]. intro src.
    apply framed_on_self, framed_log.
Qed.

Lemma framed_process_annotations (log : list error_msg) (w : World)
    (anns : list json) :
  framed (add_errors_cropping log) (process_annotations w anns).
Proof.
  induction anns as [|a rest IH]; cbn [process_annotations].
  - apply framed_ret.
  - apply framed_bind; [apply framed_process_annotation|]. intro. exact IH.
Qed.

Lemma framed_crop_sections (log : list error_msg) (w : World) :
  framed (add_errors log) (crop_sections w).
Proof.
  intro p. unfold crop_sections.
  pose proof (framed_process_annotations log w (annotations p)
                {| self := p; section_counter := 1 |}) as H.
  unfold add_errors_cropping in H. cbn [self section_counter] in H.
  change (annotations (add_errors log p)) with (annotations p).
  rewrite H.
  now destruct (process_annotations w (annotations p)
                  {| self := p; section_counter := 1 |}).
Qed.

(** ** Incomplete records *)

(** The three outcomes of a field check: every field is there, or one
    error was logged, or the membership test raised. *)
Lemma check_fields_outcome (missing : string -> error_msg)
    (fields : list string) (v : json) (p : processor) :
  (check_fields missing fields v p = (Ok true, p)
   /\ forall field, In field fields -> py_contains field v = Ok true)
  \/ (exists m, check_fields missing fields v p = (Ok false, log_error m p))
  \/ (exists x, check_fields missing fields v p = (Raise x, p)).
Proof.
  induction fields as [|field rest IH]; cbn [check_fields].
  - left. split; [reflexivity|intros f []].
  - unfold bind, lift. destruct (py_contains field v) as [[|]|x] eqn:E.
    + destruct IH as [[H1 H2]|[H|H]].
      * left. split; [exact H1|]. intros f [<-|Hf]; [exact E|now apply H2].
      * right. now left.
      * right. now right.
    + right. left. exists (missing field). reflexivity.
    + right. right. now exists x.
Qed.

Lemma lacks_field_contains (fields : list string) (v : json) :
  lacks_field fields v = true ->
  exists field, In field fields /\ py_contains field v = Ok false.
Proof.
  destruct v as [| | | | |kv]; try discriminate. cbn [lacks_field].
  intro H. apply existsb_exists in H as (field & Hin & Hmem).
  exists field. split; [exact Hin|]. cbn [py_contains].
  now destruct (dict_mem field kv).
Qed.

Lemma check_sections_outcome (file : string) (sections : list json) :
  forall (i : nat) (p : processor),
    (check_sections file i sections p = (Ok true, p)
     /\ forall section field,
          In section sections -> In field required_section_fields ->
          py_contains field section = Ok true)
    \/ (exists m, check_sections file i sections p = (Ok false, log_error m p))
    \/ (exists x, check_sections file i sections p = (Raise x, p)).
Proof.
  induction sections as [|section rest IH]; intros i p; cbn [check_sections].
  - left. split; [reflexivity|intros s f []].
  - unfold bind.
    destruct (check_fields_outcome
                (fun field => MissingSectionField field i file)
                required_section_fields section p)
      as [[H1 H2]|[(m & H)|(x & H)]]; rewrite ?H1, ?H.
    + destruct (IH (S i) p) as [[H3 H4]|[H3|H3]].
      * left. split; [exact H3|].
        intros s f [<-|Hs] Hf; [now apply H2|now apply H4].
      * right. now left.
      * right. now right.
    + right. left. now exists m.
    + right. right. now exists x.
Qed.

(** An incomplete record never passes the validation: one error is
    logged, or the validation raises with the log untouched. *)
Lemma validate_incomplete (annotation : json) (file : string)
    (p : processor) :
  incomplete_record annotation ->
  (exists m,
     validate_annotation annotation file p = (Ok false, log_error m p))
  \/ (exists x, validate_annotation annotation file p = (Raise x, p)).
Proof.
  intro Hinc. unfold validate_annotation, bind.
  destruct (check_fields_outcome
              (fun field => MissingRequiredField field file)
              required_fields annotation p)
    as [[H1 H2]|[(m & H)|(x & H)]]; rewrite ?H1, ?H.
  - destruct Hinc as [Hlack|(kv & sections & section & -> & Hs & Hin & Hlack)].
    + destruct (lacks_field_contains _ _ Hlack) as (field & Hf & Hc).
      rewrite (H2 field Hf) in Hc. discriminate.
    + unfold lift. cbn [py_getitem]. rewrite Hs.
      destruct (check_sections_outcome file sections 0 p)
        as [[H3 H4]|[H3|H3]].
      * destruct (lacks_field_contains _ _ Hlack) as (field & Hf & Hc).
        rewrite (H4 section field Hin Hf) in Hc. discriminate.
      * now left.
      * now right.
  - left. now exists m.
  - right. now exists x.
Qed.

(** Loading an incomplete record logs exactly one error and does
    nothing else. *)
Lemma load_incomplete (w : World) (name : string) (annotation : json)
    (p : processor) :
  incomplete_record annotation ->
  exists m,
    load_annotation_file w (name, Parsed annotation) p
    = (Ok tt, log_error m p).
Proof.
  intro Hinc. unfold load_annotation_file, try_except, bind, lift.
  cbn [read_annotation].
  destruct (validate_incomplete annotation name p Hinc)
    as [(m & ->)|(x & ->)].
  - now exists m.
  - now exists (ErrorLoading name x).
Qed.

Lemma load_file_returns (w : World) (ann_file : string * file_content)
    (p : processor) :
  fst (load_annotation_file w ann_file p) = Ok tt.
Proof.
  destruct ann_file as [name content].
  unfold load_annotation_file, try_except.
  match goal with
  | |- context [match ?m p with _ => _ end] => destruct (m p) as [[[]|e] p1]
  end; reflexivity.
Qed.

Lemma load_files_app (w : World) (fs1 fs2 : list (string * file_content))
    (p : processor) :
  load_annotation_files w (fs1 ++ fs2) p
  = load_annotation_files w fs2 (snd (load_annotation_files w fs1 p)).
Proof.
  revert p. induction fs1 as [|f fs1 IH]; intro p; [reflexivity|].
  cbn [app load_annotation_files]. unfold bind.
  pose proof (load_file_returns w f p) as Hr.
  destruct (load_annotation_file w f p) as [r p1]. cbn [fst] in Hr. subst r.
  apply IH.
Qed.

Lemma load_files_same_oracles (w w' : World)
    (files : list (string * file_content)) (p : processor) :
  same_oracles w w' ->
  load_annotation_files w' files p = load_annotation_files w files p.
Proof.
  destruct w as [f1 ex op pr nw], w' as [f2 ex' op' pr' nw'].
  unfold same_oracles. cbn. intros (-> & -> & -> & ->).
  revert p. induction files as [|f rest IH]; intro p; [reflexivity|].
  cbn [load_annotation_files]. unfold bind.
  change (load_annotation_file (mkWorld f2 ex op pr nw) f p)
    with (load_annotation_file (mkWorld f1 ex op pr nw) f p).
  destruct (load_annotation_file (mkWorld f1 ex op pr nw) f p) as [[u|e] p1];
    [apply IH|reflexivity].
Qed.

Lemma crop_sections_same_oracles (w w' : World) (p : processor) :
  same_oracles w w' -> crop_sections w' p = crop_sections w p.
Proof.
  destruct w as [f1 ex op pr nw], w' as [f2 ex' op' pr' nw'].
  unfold same_oracles. cbn. intros (-> & -> & -> & ->).
  set (w1 := mkWorld f1 ex op pr nw). set (w2 := mkWorld f2 ex op pr nw).
  assert (Hsec : forall screenshot img_size sections st,
             process_sections w2 screenshot img_size sections st
             = process_sections w1 screenshot img_size sections st).
  { intros screenshot img_size sections.
    induction sections as [|s rest IH]; intro st; [reflexivity|].
    cbn [process_sections]. unfold bind.
    change (process_section w2 screenshot img_size s st)
      with (process_section w1 screenshot img_size s st).
    destruct (process_section w1 screenshot img_size s st) as [[u|e] st1];
      [apply IH|reflexivity]. }
  assert (Hann : forall annotation st,
             process_annotation w2 annotation st
             = process_annotation w1 annotation st).
  { intros annotation st. unfold process_annotation, try_except, bind, lift.
    destruct (py_getitem annotation "screenshot_path") as [[| | |s| |]|];
      try reflexivity.
    change (image_open w2 s) with (image_open w1 s).
    destruct (image_open w1 s); [|reflexivity].
    destruct (py_getitem annotation "sections") as [listed|];
      [|reflexivity].
    destruct (py_iter listed) as [sections|]; [|reflexivity].
    now rewrite Hsec. }
  unfold crop_sections.
  assert (Hanns : forall anns st,
             process_annotations w2 anns st = process_annotations w1 anns st).
  { induction anns as [|a rest IH]; intro st; [reflexivity|].
    cbn [process_annotations]. unfold bind. rewrite Hann.
    destruct (process_annotation w1 a st) as [[u|e] st1];
      [apply IH|reflexivity]. }
  now rewrite Hanns.
Qed.

(** The state at the end of a run, from the files of the world. *)
Lemma final_state_unfold (w : World) (files : list (string * file_content)) :
  annotation_files w = Some files ->
  final_state w
  = snd (crop_sections w (snd (load_annotation_files w files new_processor))).
Proof.
  intro Hfiles. unfold final_state, run_full_processing, load_annotations.
  rewrite Hfiles. unfold bind, gets.
  destruct (load_annotation_files w files new_processor) as [[u|e] p1] eqn:E;
    cbn [fst snd].
  - destruct (annotations p1) as [|a anns] eqn:Ea.
    + unfold crop_sections. now rewrite Ea.
    + destruct (crop_sections w p1) as [[u2|e] p2]; cbn [snd]; [|reflexivity].
      unfold lift. cbn [fst snd].
      destruct (analyze_patterns p2); cbn [snd]; [|reflexivity].
      destruct (generate_module_catalog p2); reflexivity.
  - exfalso. clear Hfiles.
    revert E. generalize new_processor.
    induction files as [|f rest IH]; intros p0 E; [discriminate|].
    cbn [load_annotation_files] in E. unfold bind in E.
    pose proof (load_file_returns w f p0) as Hr.
    destruct (load_annotation_file w f p0) as [r p']. cbn [fst] in Hr.
    subst r. now apply (IH p').
Qed.

Lemma add_errors_clear (p : processor) :
  p = add_errors (errors p) (clear_errors p).
Proof. destruct p. unfold add_errors, clear_errors. cbn. now rewrite app_nil_r. Qed.

Lemma log_error_clear (m : error_msg) (p : processor) :
  log_error m p = add_errors (errors p ++ [m]) (clear_errors p).
Proof. destruct p. unfold add_errors, clear_errors, log_error. cbn. now rewrite app_nil_r. Qed.

(** Phases 1 and 2 on a list of files: the log that was there at the
    start stays in front of whatever is logged. *)
Lemma load_and_crop_framed (w : World) (files : list (string * file_content))
    (log : list error_msg) (p : processor) :
  snd (crop_sections w (snd (load_annotation_files w files (add_errors log p))))
  = add_errors log
      (snd (crop_sections w (snd (load_annotation_files w files p)))).
Proof.
  pose proof (framed_load_files log w files) as Hload.
  pose proof (framed_crop_sections log w) as Hcrop.
  unfold framed in Hload, Hcrop.
  rewrite Hload. cbn [snd]. now rewrite Hcrop.
Qed.

(** C7.  An annotation record that lacks a required top-level field, or
    one of whose sections lacks a required field, is loaded with exactly
    one error logged and nothing else changed; the run goes on with the
    other records: against the run without that record, the annotations,
    the catalog, the type groups and the count of processed files are the
    same, and the error log has exactly one more entry. *)
Theorem incomplete_record_contributes_nothing :
  forall (w w' : World) (fs1 fs2 : list (string * file_content))
         (name : string) (annotation : json),
    incomplete_record annotation ->
    annotation_files w = Some (fs1 ++ (name, Parsed annotation) :: fs2) ->
    annotation_files w' = Some (fs1 ++ fs2) ->
    same_oracles w w' ->
    (forall p, exists m,
        load_annotation_file w (name, Parsed annotation) p
        = (Ok tt, log_error m p))
    /\ annotations (final_state w) = annotations (final_state w')
    /\ sections_catalog (final_state w) = sections_catalog (final_state w')
    /\ section_types (final_state w) = section_types (final_state w')
    /\ files_processed (final_state w) = files_processed (final_state w')
    /\ exists m before after,
         errors (final_state w') = before ++ after
         /\ errors (final_state w) = before ++ m :: after.
Proof.
  intros w w' fs1 fs2 name annotation Hinc Hw Hw' Hsame.
  split; [intro p; now apply load_incomplete|].
  rewrite (final_state_unfold w _ Hw), (final_state_unfold w' _ Hw').
  rewrite (load_files_same_oracles w w' _ _ Hsame).
  rewrite (crop_sections_same_oracles w w' _ Hsame).
  rewrite !load_files_app.
  set (pA := snd (load_annotation_files w fs1 new_processor)).
  destruct (load_incomplete w name annotation pA Hinc) as (m & Hm).
  assert (Hbad : load_annotation_files w ((name, Parsed annotation) :: fs2) pA
                 = load_annotation_files w fs2 (log_error m pA))
    by (cbn [load_annotation_files]; unfold bind; now rewrite Hm).
  rewrite Hbad.
  set (F := snd (crop_sections w
                   (snd (load_annotation_files w fs2 (clear_errors pA))))).
  assert (Hwith : snd (crop_sections w
                         (snd (load_annotation_files w fs2 (log_error m pA))))
                  = add_errors (errors pA ++ [m]) F)
    by (rewrite (log_error_clear m pA); apply load_and_crop_framed).
  assert (Hwithout : snd (crop_sections w
                            (snd (load_annotation_files w fs2 pA)))
                     = add_errors (errors pA) F).
  { transitivity
      (snd (crop_sections w
              (snd (load_annotation_files w fs2
                      (add_errors (errors pA) (clear_errors pA)))))).
    - now rewrite <- add_errors_clear.
    - apply load_and_crop_framed. }
  rewrite Hwith, Hwithout.
  do 4 (split; [reflexivity|]).
  exists m, (errors pA), (errors F). cbn [errors add_errors].
  split; [reflexivity|]. now rewrite <- app_assoc.
Qed.

Lemma incomplete_record_contributes_nothing_witness :
  map section_unique_id
    (sections_catalog (final_state (calm_world lacking_files (1000%N, 2000%N))))
  = [Some "hero_0001"; Some "footer_0002"]
  /\ errors (final_state (calm_world lacking_files (1000%N, 2000%N)))
     = [MissingRequiredField "image_dimensions" "annotations_bad.json"].
Proof.
  pose proof (incomplete_record_contributes_nothing
                (calm_world lacking_files (1000%N, 2000%N))
                (calm_world (firstn 1 lacking_files ++ skipn 2 lacking_files)
                   (1000%N, 2000%N))
                (firstn 1 lacking_files) (skipn 2 lacking_files)
                "annotations_bad.json"
                (JObj [("source_image", JStr "bad.png");
                       ("sections",
                        JList [section_spec "a" "hero"
                                 (coordinates 0 0 1000 300)])])
                (or_introl eq_refl) eq_refl eq_refl
                (conj eq_refl (conj eq_refl (conj eq_refl eq_refl))))
    as (_ & _ & Hcat & _ & _ & m & before & after & Hwithout & Hwith).
  split; [rewrite Hcat|]; vm_compute; reflexivity.
Defined.

(** ** Rounding to binary64 *)

Local Open Scope Q_scope.

Lemma pow2_pos (e : Z) : 0 < 2 ^ e.
Proof. apply Qpower_0_lt. reflexivity. Qed.

Lemma pow2_succ (e : Z) : 2 ^ (e + 1) == 2 * 2 ^ e.
Proof. rewrite Qpower_plus by discriminate. rewrite Qpower_1_r. ring. Qed.

Lemma pow2_add (a b : Z) : 2 ^ (a + b) == 2 ^ a * 2 ^ b.
Proof. apply Qpower_plus. discriminate. Qed.

Lemma pow2_sub (a b : Z) : 2 ^ (a - b) == 2 ^ a / 2 ^ b.
Proof. apply Qpower_minus. discriminate. Qed.

Lemma pow2_le (a b : Z) : (a <= b)%Z -> 2 ^ a <= 2 ^ b.
Proof. intro H. apply Qpower_le_compat_l; [exact H|discriminate]. Qed.

Lemma pow2_lt_inv (a b : Z) : 2 ^ a < 2 ^ b -> (a < b)%Z.
Proof. intro H. eapply Qpower_lt_compat_l_inv; [exact H|reflexivity]. Qed.

Lemma pow2_inject (n : Z) : (0 <= n)%Z -> inject_Z (2 ^ n) == 2 ^ n.
Proof. intro H. now rewrite Zpower_Qpower. Qed.

Lemma quotient_bounds (A B N D : Q) :
  0 < A -> 0 < B -> A <= N -> N < 2 * A -> B <= D -> D < 2 * B ->
  A / B / 2 < N / D /\ N / D < 2 * (A / B).
Proof.
  intros HA HB H1 H2 H3 H4.
  assert (HD : 0 < D) by lra.
  assert (Hr : N / D * D == N) by (field; lra).
  assert (Hg : A / B * B == A) by (field; lra).
  assert (Hg0 : 0 < A / B) by (apply Qlt_shift_div_l; lra).
  assert (Hr0 : 0 < N / D) by (apply Qlt_shift_div_l; lra).
  set (r := N / D) in *. set (g := A / B) in *.
  split.
  - setoid_replace (g / 2) with (g * (1 # 2)) by (field).
    nra.
  - nra.
Qed.

(** [binade] is the exponent of the power of two at or below [q]. *)
Lemma binade_spec (q : Q) :
  0 < q -> 2 ^ binade q <= q /\ q < 2 ^ (binade q + 1).
Proof.
  intro Hq. destruct q as [n d]. unfold binade. cbn [Qnum Qden].
  assert (Hn : (0 < n)%Z).
  { unfold Qlt in Hq. cbn in Hq. lia. }
  pose proof (Z.log2_spec n Hn) as [Hn1 Hn2].
  pose proof (Z.log2_spec (Z.pos d) (Pos2Z.is_pos d)) as [Hd1 Hd2].
  set (a := Z.log2 n) in *. set (b := Z.log2 (Z.pos d)) in *.
  assert (Ha : (0 <= a)%Z) by apply Z.log2_nonneg.
  assert (Hb : (0 <= b)%Z) by apply Z.log2_nonneg.
  assert (HA : 0 < 2 ^ a) by apply pow2_pos.
  assert (HB : 0 < 2 ^ b) by apply pow2_pos.
  assert (Hn1q : 2 ^ a <= inject_Z n).
  { rewrite <- pow2_inject by exact Ha. rewrite <- Zle_Qle. exact Hn1. }
  assert (Hn2q : inject_Z n < 2 * 2 ^ a).
  { rewrite <- pow2_succ, <- pow2_inject by lia. rewrite <- Zlt_Qlt.
    replace (a + 1)%Z with (Z.succ a) by lia. exact Hn2. }
  assert (Hd1q : 2 ^ b <= inject_Z (Z.pos d)).
  { rewrite <- pow2_inject by exact Hb. rewrite <- Zle_Qle. exact Hd1. }
  assert (Hd2q : inject_Z (Z.pos d) < 2 * 2 ^ b).
  { rewrite <- pow2_succ, <- pow2_inject by lia. rewrite <- Zlt_Qlt.
    replace (b + 1)%Z with (Z.succ b) by lia. exact Hd2. }
  assert (Hq' : n # d == inject_Z n / inject_Z (Z.pos d)) by apply Qmake_Qdiv.
  set (N := inject_Z n) in *. set (D := inject_Z (Z.pos d)) in *.
  assert (HD : 0 < D) by lra.
  assert (Hg : 2 ^ (a - b) == 2 ^ a / 2 ^ b) by apply pow2_sub.
  destruct (quotient_bounds (2 ^ a) (2 ^ b) N D HA HB Hn1q Hn2q Hd1q Hd2q)
    as [Hlow Hhigh].
  rewrite <- Hg, <- Hq' in Hlow, Hhigh.
  destruct (Qle_bool (2 ^ (a - b)) (n # d)) eqn:E.
  - apply Qle_bool_iff in E. split; [exact E|]. now rewrite pow2_succ.
  - assert (Hlt : n # d < 2 ^ (a - b)).
    { apply Qnot_le_lt. intro H. apply Qle_bool_iff in H. congruence. }
    replace (a - b - 1 + 1)%Z with (a - b)%Z by lia.
    split; [|exact Hlt].
    assert (H2 : 2 ^ (a - b) == 2 * 2 ^ (a - b - 1)).
    { rewrite <- pow2_succ. now replace (a - b - 1 + 1)%Z with (a - b)%Z by lia. }
    revert Hlow H2. generalize (2 ^ (a - b)) (2 ^ (a - b - 1)) (n # d).
    clear. intros p p1 x Hlow H2.
    setoid_replace (p / 2) with (p * (1 # 2)) in Hlow by field. lra.
Qed.

(** Rounding to the nearest integer keeps the order with integers and
    moves by at most one half. *)
Lemma round_half_even_ge (q : Q) (k : Z) :
  inject_Z k <= q -> (k <= round_half_even q)%Z.
Proof.
  intro H. unfold round_half_even.
  assert (Hf : (k <= Qfloor q)%Z).
  { rewrite <- (Qfloor_Z k). now apply Qfloor_resp_le. }
  destruct (Qcompare (q - inject_Z (Qfloor q)) (1 # 2));
    [destruct (Z.even (Qfloor q))| |]; lia.
Qed.

Lemma round_half_even_le (q : Q) (k : Z) :
  q <= inject_Z k -> (round_half_even q <= k)%Z.
Proof.
  intro H. unfold round_half_even.
  pose proof (Qfloor_le q) as Hfl.
  assert (Hf : (Qfloor q <= k)%Z).
  { rewrite <- (Qfloor_Z k). now apply Qfloor_resp_le. }
  destruct (Z.eq_dec (Qfloor q) k) as [Heq|Hne].
  - assert (Hz : q - inject_Z (Qfloor q) == 0) by (rewrite Heq in *; lra).
    assert (Hc : Qcompare (q - inject_Z (Qfloor q)) (1 # 2) = Lt).
    { apply Qlt_alt. rewrite Hz. reflexivity. }
    rewrite Hc. lia.
  - destruct (Qcompare (q - inject_Z (Qfloor q)) (1 # 2));
      [destruct (Z.even (Qfloor q))| |]; lia.
Qed.

Lemma round_half_even_error (q : Q) :
  q - (1 # 2) <= inject_Z (round_half_even q)
  /\ inject_Z (round_half_even q) <= q + (1 # 2).
Proof.
  unfold round_half_even.
  pose proof (Qfloor_le q) as H1. pose proof (Qlt_floor q) as H2.
  rewrite inject_Z_plus in H2. change (inject_Z 1) with 1 in H2.
  destruct (Qcompare (q - inject_Z (Qfloor q)) (1 # 2)) eqn:E.
  - apply Qeq_alt in E.
    destruct (Z.even (Qfloor q)); rewrite ?inject_Z_plus;
      change (inject_Z 1) with 1; lra.
  - apply Qlt_alt in E. lra.
  - apply Qgt_alt in E. rewrite inject_Z_plus. change (inject_Z 1) with 1. lra.
Qed.

(** The value of [round64_pos]. *)
Lemma round64_pos_value (q : Q) :
  round64_pos q
  == inject_Z (round_half_even (q / 2 ^ ulp_exponent q))
     * 2 ^ ulp_exponent q.
Proof. unfold round64_pos. apply Qred_correct. Qed.

Lemma round64_positive (q : Q) : 0 < q -> round64 q = round64_pos q.
Proof.
  intro H. unfold round64. apply Qgt_alt in H. now rewrite H.
Qed.

(** A multiple of the unit in the last place of [q] on one side of [q]
    is on the same side of the rounded [q]. *)
Lemma round64_pos_sandwich (q : Q) (j t : Z) :
  (ulp_exponent q <= t)%Z ->
  (inject_Z j * 2 ^ t <= q -> inject_Z j * 2 ^ t <= round64_pos q)
  /\ (q <= inject_Z j * 2 ^ t -> round64_pos q <= inject_Z j * 2 ^ t).
Proof.
  intro Ht. set (e := ulp_exponent q) in *.
  assert (He : 0 < 2 ^ e) by apply pow2_pos.
  assert (Hk : inject_Z j * 2 ^ t == inject_Z (j * 2 ^ (t - e)) * 2 ^ e).
  { rewrite inject_Z_mult, pow2_inject by lia.
    rewrite pow2_sub. field. lra. }
  rewrite round64_pos_value. fold e. rewrite Hk.
  split; intro H.
  - apply Qmult_le_compat_r; [|lra].
    rewrite <- Zle_Qle. apply round_half_even_ge.
    apply Qle_shift_div_l; [exact He|exact H].
  - apply Qmult_le_compat_r; [|lra].
    rewrite <- Zle_Qle. apply round_half_even_le.
    apply Qle_shift_div_r; [exact He|exact H].
Qed.

Lemma ulp_exponent_small (q : Q) (n : Z) :
  0 < q -> q < 2 ^ n -> (-1021 <= n)%Z -> (ulp_exponent q <= n - 53)%Z.
Proof.
  intros Hq Hn Hmin. unfold ulp_exponent.
  destruct (binade_spec q Hq) as [Hb _].
  assert (binade q < n)%Z by (apply pow2_lt_inv; lra).
  lia.
Qed.

(** Integers below [2^53] and half-integers below [2^52] are binary64
    values: rounding does not cross them. *)
Lemma round64_integer_sandwich (q : Q) (k : Z) :
  0 < q -> q < 2 ^ 53 ->
  (inject_Z k <= q -> inject_Z k <= round64 q)
  /\ (q <= inject_Z k -> round64 q <= inject_Z k).
Proof.
  intros Hq Hlt. rewrite (round64_positive q Hq).
  pose proof (ulp_exponent_small q 53 Hq Hlt ltac:(lia)) as He.
  destruct (round64_pos_sandwich q k 0 ltac:(lia)) as [H1 H2].
  change (2 ^ 0) with 1 in H1, H2. rewrite Qmult_1_r in H1, H2.
  now split.
Qed.

Lemma round64_half_sandwich (q : Q) (j : Z) :
  0 < q -> q < 2 ^ 52 ->
  (inject_Z j * (1 # 2) <= q -> inject_Z j * (1 # 2) <= round64 q)
  /\ (q <= inject_Z j * (1 # 2) -> round64 q <= inject_Z j * (1 # 2)).
Proof.
  intros Hq Hlt. rewrite (round64_positive q Hq).
  pose proof (ulp_exponent_small q 52 Hq Hlt ltac:(lia)) as He.
  destruct (round64_pos_sandwich q j (-1) ltac:(lia)) as [H1 H2].
  change (2 ^ (-1)) with (1 # 2) in H1, H2. now split.
Qed.

(** The relative error of rounding in the normal range. *)
Lemma round64_error (q : Q) :
  2 ^ (-1022) <= q ->
  q * (1 - 2 ^ (-53)) <= round64 q /\ round64 q <= q * (1 + 2 ^ (-53)).
Proof.
  intro Hn.
  assert (Hq : 0 < q) by (pose proof (pow2_pos (-1022)); lra).
  rewrite (round64_positive q Hq), round64_pos_value.
  destruct (binade_spec q Hq) as [Hb1 Hb2].
  assert (Hbin : (-1022 <= binade q)%Z).
  { assert (2 ^ (-1022) < 2 ^ (binade q + 1)) by lra.
    apply pow2_lt_inv in H. lia. }
  assert (He : ulp_exponent q = (binade q - 52)%Z) by (unfold ulp_exponent; lia).
  rewrite He. set (e := (binade q - 52)%Z) in *.
  assert (Hpe : 0 < 2 ^ e) by apply pow2_pos.
  destruct (round_half_even_error (q / 2 ^ e)) as [H1 H2].
  set (m := inject_Z (round_half_even (q / 2 ^ e))) in *.
  assert (Hdiv : q / 2 ^ e * 2 ^ e == q) by (field; lra).
  assert (Hulp : 2 ^ e * (1 # 2) == 2 ^ binade q * 2 ^ (-53)).
  { replace (binade q) with (e + 52)%Z by lia.
    rewrite pow2_add. change (2 ^ (-53)) with (1 # 9007199254740992).
    change (2 ^ 52) with (4503599627370496 # 1). ring. }
  change (2 ^ (-53)) with (1 # 9007199254740992) in *.
  set (x := q / 2 ^ e) in *. set (u := 2 ^ e) in *. set (B := 2 ^ binade q) in *.
  clearbody x u B m. clear - H1 H2 Hdiv Hulp Hpe Hb1 Hq.
  split; nra.
Qed.

(** ** The resize computation *)

Lemma not_overflows (r : Q) : 0 <= r -> r < 2 ^ 53 -> overflows r = false.
Proof.
  intros H0 H1. unfold overflows.
  destruct (Qle_bool (2 ^ 1024) (Qabs r)) eqn:E; [|reflexivity].
  apply Qle_bool_iff in E. rewrite Qabs_pos in E by exact H0.
  assert (2 ^ 53 <= 2 ^ 1024) by (apply pow2_le; lia). lra.
Qed.

Lemma py_min_float_spec (a b : Q) :
  (py_min_float a b = a \/ py_min_float a b = b)
  /\ py_min_float a b <= a /\ py_min_float a b <= b.
Proof.
  unfold py_min_float. destruct (Qcompare b a) eqn:E.
  - apply Qeq_alt in E. split; [now left|]. split; lra.
  - apply Qlt_alt in E. split; [now right|]. split; lra.
  - apply Qgt_alt in E. split; [now left|]. split; lra.
Qed.

(** [float(n)] is exact below [2^53]. *)
Lemma py_float_of_int_exact (n : Z) :
  (1 <= n < 2 ^ 53)%Z ->
  exists f, py_float_of_int n = Ok f /\ f == inject_Z n.
Proof.
  intros [H1 H2]. unfold py_float_of_int.
  assert (Hq : 0 < inject_Z n).
  { change 0 with (inject_Z 0). rewrite <- Zlt_Qlt. lia. }
  assert (Hlt : inject_Z n < 2 ^ 53).
  { rewrite <- pow2_inject by lia. rewrite <- Zlt_Qlt. exact H2. }
  destruct (round64_integer_sandwich (inject_Z n) n Hq Hlt) as [Ha Hb].
  assert (Heq : round64 (inject_Z n) == inject_Z n)
    by (apply Qle_antisym; [apply Hb|apply Ha]; lra).
  rewrite not_overflows by lra.
  eexists. split; [reflexivity|exact Heq].
Qed.

(** A quotient of a bound by a dimension: finite, positive and within
    the rounding error of the exact quotient. *)
Lemma py_truediv_bound (m n : Z) :
  (1 <= m <= 2 ^ 31)%Z -> (1 <= n < 2 ^ 53)%Z ->
  exists a,
    py_truediv m n = Ok a
    /\ 0 < a
    /\ inject_Z m / inject_Z n * (1 - 2 ^ (-53)) <= a
    /\ a <= inject_Z m / inject_Z n * (1 + 2 ^ (-53)).
Proof.
  intros [Hm1 Hm2] [Hn1 Hn2]. unfold py_truediv.
  destruct (Z.eqb_spec n 0) as [->|_]; [lia|].
  assert (HM1 : 1 <= inject_Z m)
    by (change 1 with (inject_Z 1); rewrite <- Zle_Qle; lia).
  assert (HM2 : inject_Z m <= 2 ^ 31)
    by (rewrite <- pow2_inject by lia; rewrite <- Zle_Qle; lia).
  assert (HN1 : 1 <= inject_Z n)
    by (change 1 with (inject_Z 1); rewrite <- Zle_Qle; lia).
  assert (HN2 : inject_Z n < 2 ^ 53)
    by (rewrite <- pow2_inject by lia; rewrite <- Zlt_Qlt; lia).
  set (M := inject_Z m) in *. set (N := inject_Z n) in *.
  assert (Hx : M / N * N == M) by (field; lra).
  assert (Hx0 : 0 < M / N) by (apply Qlt_shift_div_l; lra).
  assert (Hx1 : M / N <= M) by (apply Qle_shift_div_r; nra).
  assert (Hx2 : 2 ^ (-53) <= M / N).
  { apply Qle_shift_div_l; [lra|].
    change (2 ^ (-53)) with (1 # 9007199254740992).
    change (2 ^ 53) with (9007199254740992 # 1) in HN2. nra. }
  assert (Hnorm : 2 ^ (-1022) <= M / N).
  { assert (2 ^ (-1022) <= 2 ^ (-53)) by (apply pow2_le; lia). lra. }
  destruct (round64_error (M / N) Hnorm) as [He1 He2].
  change (2 ^ (-53)) with (1 # 9007199254740992) in *.
  change (2 ^ 31) with (2147483648 # 1) in HM2.
  set (x := M / N) in *. set (a := round64 x) in *.
  assert (Ha0 : 0 < a) by nra.
  assert (Ha1 : a < 2 ^ 53)
    by (change (2 ^ 53) with (9007199254740992 # 1); nra).
  rewrite not_overflows by lra.
  exists a. repeat split; assumption.
Qed.

(** One dimension of the result: [int(float(d) * scale)] for a scale
    that is at most one and at most the rounded quotient of the bound. *)
Lemma scaled_dimension (d m : Z) (scale a : Q) :
  (1 <= d < 2 ^ 53)%Z -> (1 <= m <= 2 ^ 31)%Z ->
  0 < scale -> scale <= 1 -> scale <= a ->
  a <= inject_Z m / inject_Z d * (1 + 2 ^ (-53)) ->
  exists f n,
    py_float_of_int d = Ok f
    /\ py_int_of_float (py_float_mul f scale) = Ok n
    /\ (0 <= n <= m)%Z /\ (n <= d)%Z
    /\ inject_Z n - 1 < inject_Z d * scale
    /\ inject_Z d * scale < inject_Z n + 1.
Proof.
  intros Hd Hm Hs0 Hs1 Hsa Ha.
  destruct (py_float_of_int_exact d Hd) as (f & Hf & Hfd).
  exists f. rewrite Hf.
  assert (HD1 : 1 <= inject_Z d)
    by (change 1 with (inject_Z 1); rewrite <- Zle_Qle; lia).
  assert (HD2 : inject_Z d < 2 ^ 53)
    by (rewrite <- pow2_inject by lia; rewrite <- Zlt_Qlt; lia).
  assert (HM1 : 1 <= inject_Z m)
    by (change 1 with (inject_Z 1); rewrite <- Zle_Qle; lia).
  assert (HM2 : inject_Z m <= 2 ^ 31)
    by (rewrite <- pow2_inject by lia; rewrite <- Zle_Qle; lia).
  set (D := inject_Z d) in *. set (Mx := inject_Z m) in *.
  assert (Hx : Mx / D * D == Mx) by (field; lra).
  change (2 ^ (-53)) with (1 # 9007199254740992) in Ha.
  change (2 ^ 31) with (2147483648 # 1) in HM2.
  change (2 ^ 53) with (9007199254740992 # 1) in HD2.
  set (p := f * scale).
  assert (Hp : p == D * scale) by (unfold p; rewrite Hfd; reflexivity).
  assert (Hp0 : 0 < p) by nra.
  assert (HpD : p <= D) by nra.
  assert (HpM : p <= Mx + (1 # 2)).
  { set (x := Mx / D) in *. clearbody x.
    assert (p <= D * a) by nra.
    assert (D * a <= Mx * (1 + (1 # 9007199254740992))) by nra.
    nra. }
  assert (Hp53 : p < 2 ^ 53)
    by (change (2 ^ 53) with (9007199254740992 # 1); lra).
  assert (Hp52 : p < 2 ^ 52)
    by (change (2 ^ 52) with (4503599627370496 # 1); lra).
  pose proof (round64_integer_sandwich p) as Hint.
  destruct (Hint 0%Z Hp0 Hp53) as [Hr0 _].
  destruct (Hint d Hp0 Hp53) as [_ HrD].
  destruct (round64_half_sandwich p (2 * m + 1) Hp0 Hp52) as [_ HrM].
  change (inject_Z 0) with 0 in Hr0.
  specialize (Hr0 ltac:(lra)). specialize (HrD HpD).
  assert (Hhalf : inject_Z (2 * m + 1) * (1 # 2) == Mx + (1 # 2)).
  { rewrite inject_Z_plus, inject_Z_mult. unfold Mx.
    change (inject_Z 2) with 2. change (inject_Z 1) with 1. ring. }
  rewrite Hhalf in HrM. specialize (HrM HpM).
  unfold py_float_mul. fold p.
  set (r := round64 p) in *.
  rewrite not_overflows
    by (try change (2 ^ 53) with (9007199254740992 # 1); lra).
  cbn [py_int_of_float].
  assert (Hle0 : Qle_bool 0 r = true) by (apply Qle_bool_iff; exact Hr0).
  rewrite Hle0. exists (Qfloor r). split; [reflexivity|]. split; [reflexivity|].
  pose proof (Qfloor_le r) as Hfl1. pose proof (Qlt_floor r) as Hfl2.
  rewrite inject_Z_plus in Hfl2. change (inject_Z 1) with 1 in Hfl2.
  set (n := Qfloor r) in *.
  assert (Hn0 : (0 <= n)%Z).
  { unfold n. rewrite <- (Qfloor_Z 0). apply Qfloor_resp_le. exact Hr0. }
  assert (HnD : (n <= d)%Z).
  { unfold n. rewrite <- (Qfloor_Z d). apply Qfloor_resp_le. exact HrD. }
  assert (HnM : (n <= m)%Z).
  { assert (inject_Z n < inject_Z (m + 1)).
    { rewrite inject_Z_plus. change (inject_Z 1) with 1. fold Mx. lra. }
    rewrite <- Zlt_Qlt in H. lia. }
  split; [lia|]. split; [exact HnD|].
  destruct (Hint (n + - 1)%Z Hp0 Hp53) as [_ Hlow].
  destruct (Hint (n + 1)%Z Hp0 Hp53) as [Hup _].
  rewrite inject_Z_plus in Hlow, Hup.
  change (inject_Z (- 1)) with (- (1)) in Hlow.
  change (inject_Z 1) with 1 in Hup.
  split.
  - apply Qnot_le_lt. intro Hc. rewrite <- Hp in Hc. specialize (Hlow Hc). lra.
  - apply Qnot_le_lt. intro Hc. rewrite <- Hp in Hc. specialize (Hup Hc). lra.
Qed.

(** What [calculate_resize] returns for a crop of at least one pixel
    against a bound: the scale is the exact one up to rounding, the new
    size is inside the bound and inside the crop, and each new dimension
    is less than one pixel away from the scaled one. *)
Lemma calculate_resize_spec (width height max_width max_height : Z) :
  (1 <= width < 2 ^ 53)%Z -> (1 <= height < 2 ^ 53)%Z ->
  (1 <= max_width <= 2 ^ 31)%Z -> (1 <= max_height <= 2 ^ 31)%Z ->
  exists scale new_width new_height,
    float_scale (width, height) (max_width, max_height) = Ok scale
    /\ calculate_resize (width, height) (max_width, max_height)
       = Ok (new_width, new_height)
    /\ (0 < scale /\ scale <= 1)
    /\ (exact_scale (width, height) (max_width, max_height)
          * (1 - 2 ^ (-53)) <= scale
        /\ scale <= exact_scale (width, height) (max_width, max_height)
                      * (1 + 2 ^ (-53)))
    /\ ((0 <= new_width <= max_width)%Z /\ (new_width <= width)%Z)
    /\ ((0 <= new_height <= max_height)%Z /\ (new_height <= height)%Z)
    /\ (inject_Z new_width - 1 < inject_Z width * scale
        /\ inject_Z width * scale < inject_Z new_width + 1)
    /\ (inject_Z new_height - 1 < inject_Z height * scale
        /\ inject_Z height * scale < inject_Z new_height + 1).
Proof.
  intros Hw Hh Hmw Hmh.
  destruct (py_truediv_bound max_width width Hmw Hw)
    as (a & Ha & Ha0 & Ha1 & Ha2).
  destruct (py_truediv_bound max_height height Hmh Hh)
    as (b & Hb & Hb0 & Hb1 & Hb2).
  set (scale := py_min_float (py_min_float a b) 1).
  destruct (py_min_float_spec a b) as (Hab & Hab1 & Hab2).
  destruct (py_min_float_spec (py_min_float a b) 1) as (Hs & Hs1 & Hs2).
  fold scale in Hs, Hs1, Hs2.
  assert (Hs0 : 0 < scale)
    by (destruct Hs as [->| ->]; [destruct Hab as [->| ->]; assumption|reflexivity]).
  destruct (scaled_dimension width max_width scale a Hw Hmw Hs0 Hs2
              ltac:(lra) Ha2) as (fw & nw & Hfw & Hnw & Bw1 & Bw2 & Aw1 & Aw2).
  destruct (scaled_dimension height max_height scale b Hh Hmh Hs0 Hs2
              ltac:(lra) Hb2) as (fh & nh & Hfh & Hnh & Bh1 & Bh2 & Ah1 & Ah2).
  exists scale, nw, nh.
  split; [unfold float_scale; cbn [fst snd]; now rewrite Ha, Hb|].
  split.
  { unfold calculate_resize. rewrite Ha, Hb. cbn [rbind]. fold scale.
    rewrite Hfw. cbn [rbind]. rewrite Hnw. cbn [rbind].
    rewrite Hfh. cbn [rbind]. rewrite Hnh. reflexivity. }
  split; [split; assumption|].
  split.
  { unfold exact_scale. cbn [fst snd].
    set (x1 := inject_Z max_width / inject_Z width) in *.
    set (x2 := inject_Z max_height / inject_Z height) in *.
    change (2 ^ (-53)) with (1 # 9007199254740992) in *.
    assert (Hx1 : 0 < x1) by nra. assert (Hx2 : 0 < x2) by nra.
    destruct (Q.min_spec x1 x2) as [[H12 E12]|[H12 E12]];
      destruct (Q.min_spec (Qmin x1 x2) 1) as [[H3 E3]|[H3 E3]];
      rewrite E3; rewrite ?E12 in *;
      (split;
       [destruct Hs as [Hs| Hs]; [destruct Hab as [Hab|Hab]|];
        rewrite Hs, ?Hab; nra
       |nra]). }
  repeat split; assumption || lia.
Qed.

Lemma relative_to_output_inv (path r : string) :
  relative_to_output path = Ok r -> r = path /\ is_absolute path = false.
Proof.
  unfold relative_to_output. destruct (is_absolute path); [discriminate|].
  intros [= <-]. now split.
Qed.




(** Resizing the medium size again is another computation: for a crop of
    4 by 562 pixels it would give a thumbnail of 1 by 150, where the
    thumbnail computed from the crop is 1 by 149. *)
Example thumbnail_not_from_medium :
  calculate_resize (4, 562)%Z (400, 300)%Z = Ok (2, 299)%Z
  /\ calculate_resize (4, 562)%Z (200, 150)%Z = Ok (1, 149)%Z
  /\ calculate_resize (2, 299)%Z (200, 150)%Z = Ok (1, 150)%Z.
Proof. vm_compute. repeat split. Qed.

(** ** The aspect ratio of the pattern aggregator *)

(** A quotient of magnitude at most [2^1023] rounds to a finite value. *)
Lemma round64_finite (x : Q) :
  Qabs x <= 2 ^ 1023 -> overflows (round64 x) = false.
Proof.
  intro Hx.
  assert (Hpos : forall y, 0 < y -> y <= 2 ^ 1023 ->
                           0 <= round64_pos y /\ round64_pos y <= 2 ^ 1023).
  { intros y Hy0 Hy1.
    assert (Hlt : y < 2 ^ 1024).
    { assert (2 ^ 1023 < 2 ^ 1024)
        by (apply Qpower_lt_compat_l; [lia|reflexivity]). lra. }
    pose proof (ulp_exponent_small y 1024 Hy0 Hlt ltac:(lia)) as He.
    destruct (round64_pos_sandwich y 1 1023 ltac:(lia)) as [_ Hup].
    destruct (round64_pos_sandwich y 0 1023 ltac:(lia)) as [Hlow _].
    change (inject_Z 1) with 1 in Hup. change (inject_Z 0) with 0 in Hlow.
    rewrite Qmult_1_l in Hup. rewrite Qmult_0_l in Hlow.
    split; [apply Hlow; lra|apply Hup; exact Hy1]. }
  assert (Hbig : 2 ^ 1023 < 2 ^ 1024)
    by (apply Qpower_lt_compat_l; [lia|reflexivity]).
  unfold overflows.
  destruct (Qle_bool (2 ^ 1024) (Qabs (round64 x))) eqn:E; [|reflexivity].
  apply Qle_bool_iff in E. exfalso.
  unfold round64 in E. destruct (Qcompare x 0) eqn:C.
  - cbn in E. pose proof (pow2_pos 1024). 
    change (Qabs 0) with 0 in E. lra.
  - apply Qlt_alt in C.
    assert (Hy : 0 < - x) by lra.
    assert (Hy1 : - x <= 2 ^ 1023).
    { rewrite <- Qabs_opp in Hx. rewrite Qabs_pos in Hx by lra. exact Hx. }
    destruct (Hpos (- x) Hy Hy1) as [H0 H1].
    rewrite Qabs_opp, Qabs_pos in E by exact H0. lra.
  - apply Qgt_alt in C.
    assert (Hy1 : x <= 2 ^ 1023) by (rewrite Qabs_pos in Hx by lra; exact Hx).
    destruct (Hpos x C Hy1) as [H0 H1].
    rewrite Qabs_pos in E by exact H0. lra.
Qed.

Lemma py_truediv_finite (a b : Z) :
  (0 < b)%Z -> (Z.abs a <= 2 ^ 1023 * b)%Z ->
  py_truediv a b = Ok (round64 (inject_Z a / inject_Z b)).
Proof.
  intros Hb Ha. unfold py_truediv.
  destruct (Z.eqb_spec b 0) as [->|_]; [lia|].
  rewrite round64_finite; [reflexivity|].
  assert (HB : 0 < inject_Z b)
    by (change 0 with (inject_Z 0); rewrite <- Zlt_Qlt; exact Hb).
  unfold Qdiv. rewrite Qabs_Qmult.
  rewrite (Qabs_pos (/ inject_Z b))
    by (apply Qlt_le_weak, Qinv_lt_0_compat, HB).
  apply Qle_shift_div_r; [exact HB|].
  assert (H : Qabs (inject_Z a) == inject_Z (Z.abs a)).
  { unfold Qabs, inject_Z. reflexivity. }
  rewrite H, <- pow2_inject, <- inject_Z_mult by lia.
  rewrite <- Zle_Qle. exact Ha.
Qed.

(** C8, as the code has it.  The aspect ratio of a section whose height
    is zero (or below) is the integer 0 and nothing is raised.  For a positive
    height and a width of magnitude at most [2^1023] times the height,
    it is the float [round(width / height, 2)]: the quotient rounded to
    binary64, then the nearest multiple of 1/100 (ties to the even one),
    at most half a hundredth away, rounded to binary64 again. *)
Theorem aspect_ratio_guarded :
  forall (width height : Z),
    ((height <= 0)%Z -> aspect_ratio_of width height = Ok (PInt 0))
    /\ ((0 < height)%Z -> (Z.abs width <= 2 ^ 1023 * height)%Z ->
        exists (q : Q) (hundredths : Z),
          py_truediv width height = Ok q
          /\ q = round64 (inject_Z width / inject_Z height)
          /\ hundredths = round_half_even (q * 100)
          /\ aspect_ratio_of width height
             = Ok (PFloat (round64 (inject_Z hundredths / 100)))
          /\ q * 100 - (1 # 2) <= inject_Z hundredths
               <= q * 100 + (1 # 2)).
Proof.
  intros width height. split.
  - intro H. unfold aspect_ratio_of.
    destruct (Z.ltb_spec 0 height); [lia|reflexivity].
  - intros Hh Hw. unfold aspect_ratio_of.
    destruct (Z.ltb_spec 0 height); [|lia].
    rewrite (py_truediv_finite width height Hh Hw). cbn [rbind].
    do 2 eexists. split; [reflexivity|]. split; [reflexivity|].
    split; [reflexivity|]. split; [reflexivity|].
    apply round_half_even_error.
Qed.

Lemma aspect_ratio_guarded_witness :
  aspect_ratio_of 1200 0 = Ok (PInt 0)
  /\ aspect_ratio_of 1000 300 = Ok (PFloat (1874623344892969 # 562949953421312)).
Proof.
  destruct (aspect_ratio_guarded 1200 0) as [H0 _].
  destruct (aspect_ratio_guarded 1000 300) as [_ H1].
  split; [apply H0; lia|].
  destruct (H1 ltac:(lia) ltac:(vm_compute; discriminate))
    as (q & k & _ & -> & -> & -> & _).
  vm_compute. reflexivity.
Defined.

(** The second half of C8 fails on a positive height when the quotient
    is out of range: the division raises, for the ratio alone and in the run. *)
Lemma aspect_ratio_counterexample :
  aspect_ratio_of (2 ^ 1100) 300 = Raise OverflowError
  /\ map section_unique_id (sections_catalog (final_state huge_world))
     = [Some "hero_0001"]
  /\ fst (run_full_processing huge_world new_processor) = Raise OverflowError.
Proof. vm_compute. repeat split. Qed.

Local Close Scope Q_scope.

(** ** Dropped sections and the error log *)

(** The inner loop of [crop_sections] never writes to the error log,
    whether the section is cataloged, dropped for its geometry, dropped
    for an exception of the imaging library, or makes the loop raise. *)
Lemma process_section_logs_nothing (w : World) (screenshot : string)
    (img_size : Z * Z) (section : json) (st : cropping) :
  errors (self (snd (process_section w screenshot img_size section st)))
  = errors (self st).
Proof.
  unfold process_section, bind, gets, lift, generate_section_id, rbind.
  cbn [fst snd].
  destruct (py_getitem section "type") as [ty|]; [|reflexivity].
  destruct ty as [| | |t| |]; try reflexivity.
  destruct (py_getitem section "coordinates") as [coords|]; [|reflexivity].
  unfold on_self.
  pose proof (saves_only_crop w screenshot img_size coords
                (make_section_id t (section_counter st)) t (self st))
    as (_ & _ & _ & _ & _ & _ & Hsame).
  destruct (crop_section_image w screenshot img_size coords
              (make_section_id t (section_counter st)) t (self st))
    as [[[cf|]|x] p1]; cbn [fst snd] in *; try exact Hsame.
  destruct (enrich section _ _ cf _); cbn [snd]; exact Hsame.
Qed.

(** C5, on the code.  A run over one annotation whose first section lies
    outside the screenshot and whose second section fails while its
    medium derivative is saved: both are dropped and the third section
    is cataloged, but the error log stays empty and the statistics
    report no error. *)
Theorem dropped_sections_are_not_logged :
  exists arts : artifacts,
    fst (run_full_processing gap_world new_processor) = Ok (Some arts)
    /\ map section_unique_id (sections_catalog (final_state gap_world))
       = [Some "footer_0001"]
    /\ saved_files (final_state gap_world)
       = ["images/full/hero_0001_hero.png";
          "images/full/footer_0001_footer.png";
          "images/medium/footer_0001_footer_medium.png";
          "images/thumbnails/footer_0001_footer_thumb.png"]
    /\ errors (final_state gap_world) = []
    /\ errors_count (out_statistics arts) = 0
    /\ stat_errors (out_statistics arts) = [].
Proof. eexists. vm_compute. repeat split. Qed.

(** ** Agreement with the reference implementation of IEEE 754

    The operations of the binary64 model give, on a sample of operands,
    the results of [SpecFloat], the specification of floating-point
    arithmetic of the standard library. *)

Example truediv_agrees_with_SpecFloat :
  forallb
    (fun ab =>
       option_Qeq
         (result_value (py_truediv (fst ab) (snd ab)))
         (spec_float_value
            (SFdiv 53 1024 (spec_float_of_int (fst ab))
               (spec_float_of_int (snd ab)))))
    sample_operands = true.
Proof. vm_compute. reflexivity. Qed.

Example resize_product_agrees_with_SpecFloat :
  forallb
    (fun ab =>
       option_Qeq
         (match py_truediv (fst ab) (snd ab) with
          | Ok q =>
              match py_float_mul (inject_Z (snd ab)) q with
              | Finite r => Some r
              | Infinite _ => None
              end
          | Raise _ => None
          end)
         (spec_float_value
            (SFmul 53 1024 (spec_float_of_int (snd ab))
               (SFdiv 53 1024 (spec_float_of_int (fst ab))
                  (spec_float_of_int (snd ab))))))
    sample_operands = true.
Proof. vm_compute. reflexivity. Qed.

(** * Further properties of the code *)

(** ** The validation *)

Lemma check_fields_accepts (missing : string -> error_msg)
    (fields : list string) (v : json) (p : processor) :
  (forall field, In field fields -> py_contains field v = Ok true) ->
  check_fields missing fields v p = (Ok true, p).
Proof.
  induction fields as [|field rest IH]; intro H; cbn [check_fields].
  - reflexivity.
  - unfold bind, lift. rewrite (H field (or_introl eq_refl)).
    apply IH. intros f Hf. apply H. now right.
Qed.

Lemma check_sections_accepts (file : string) (sections : list json) :
  forall (i : nat) (p : processor),
    (forall section field,
       In section sections -> In field required_section_fields ->
       py_contains field section = Ok true) ->
    check_sections file i sections p = (Ok true, p).
Proof.
  induction sections as [|section rest IH]; intros i p H;
    cbn [check_sections].
  - reflexivity.
  - unfold bind.
    rewrite check_fields_accepts
      by (intros f Hf; apply H; [now left|exact Hf]).
    apply IH. intros s f Hs Hf. apply H; [now right|exact Hf].
Qed.

(** The outcomes of the validation, for any value whatever: it accepts
    and changes nothing, or it rejects with one error logged, or it
    raises with nothing logged. *)
Lemma validate_outcome (annotation : json) (file : string) (p : processor) :
  (validate_annotation annotation file p = (Ok true, p)
   /\ accepted_record annotation)
  \/ (exists m,
        validate_annotation annotation file p = (Ok false, log_error m p))
  \/ (exists x, validate_annotation annotation file p = (Raise x, p)).
Proof.
  unfold validate_annotation, bind.
  destruct (check_fields_outcome
              (fun field => MissingRequiredField field file)
              required_fields annotation p)
    as [[H1 H2]|[(m & H)|(x & H)]]; rewrite ?H1, ?H.
  - unfold lift.
    destruct (py_getitem annotation "sections") as [sections|x] eqn:Hs.
    + destruct sections as [| | | |l|];
        try (right; left; exists (SectionsNotList file); reflexivity).
      destruct (check_sections_outcome file l 0 p) as [[H3 H4]|[H3|H3]].
      * left. split; [exact H3|]. split; [exact H2|].
        exists l. split; [exact Hs|exact H4].
      * right. now left.
      * right. now right.
    + right. right. now exists x.
  - right. left. now exists m.
  - right. right. now exists x.
Qed.

(** X1.  The validation answers [True] exactly on the records it is meant to
    let through, and then leaves the processor as it was; it never logs
    more than one error, and none when it accepts or raises. *)
Theorem validation_accepts_exactly :
  forall (annotation : json) (file : string) (p : processor),
    (fst (validate_annotation annotation file p) = Ok true
     <-> accepted_record annotation)
    /\ (accepted_record annotation ->
        validate_annotation annotation file p = (Ok true, p))
    /\ (errors (snd (validate_annotation annotation file p)) = errors p
        \/ (fst (validate_annotation annotation file p) = Ok false
            /\ exists m,
                 snd (validate_annotation annotation file p)
                 = log_error m p)).
Proof.
  intros annotation file p.
  assert (Hacc : accepted_record annotation ->
                 validate_annotation annotation file p = (Ok true, p)).
  { intros (Htop & l & Hs & Hsec). unfold validate_annotation, bind.
    rewrite check_fields_accepts by exact Htop.
    unfold lift. rewrite Hs. now apply check_sections_accepts. }
  split; [|split; [exact Hacc|]].
  - split.
    + intro H.
      destruct (validate_outcome annotation file p)
        as [[_ Ha]|[(m & E)|(x & E)]]; [exact Ha| |];
        rewrite E in H; discriminate.
    + intro Ha. now rewrite (Hacc Ha).
  - destruct (validate_outcome annotation file p)
      as [[E _]|[(m & E)|(x & E)]]; rewrite E; cbn [fst snd].
    + now left.
    + right. split; [reflexivity|now exists m].
    + now left.
Qed.

(** ** The screenshot of an annotation *)

(** A source image named from the root is looked up where it says, not
    under the screenshots directory. *)
Example absolute_source_image :
  find_matching_screenshot (calm_world [] (1%N, 1%N)) (JStr "/etc/hostname")
  = Ok (Some "/etc/hostname").
Proof. reflexivity. Qed.

Lemma validation_accepts_exactly_witness :
  validate_annotation
    (annotation_record "s1.png" 1000 2000
       [section_spec "a" "Hero Banner" (coordinates 0 0 1200 300)])
    "annotations_s1.json" new_processor
  = (Ok true, new_processor).
Proof.
  apply (proj1 (proj2 (validation_accepts_exactly _ _ _))).
  split.
  - intros field [<-|[<-|[<-|[]]]]; reflexivity.
  - eexists. split; [reflexivity|].
    intros section field [<-|[]] [<-|[<-|[<-|[]]]]; reflexivity.
Defined.

(** ** The loader accounts for every file *)

Lemma dict_mem_set_other {V : Type} (k k0 : string) (v : V) (d : dict V) :
  dict_mem k0 d = true -> dict_mem k0 (dict_set k v d) = true.
Proof.
  unfold dict_mem. intro H.
  destruct (String.eqb_spec k0 k) as [->|Hne].
  - now rewrite dict_get_set_same.
  - now rewrite dict_get_set_other.
Qed.

(** What loading one file does: it returns, and either stores the
    record, accepted and bound to an existing screenshot, with two keys
    added, or logs exactly one error. *)
Lemma load_file_outcome (w : World) (name : string) (content : file_content)
    (p : processor) :
  (exists annotation,
     loaded_annotation w [(name, content)] annotation
     /\ load_annotation_file w (name, content) p
        = (Ok tt, append_annotation annotation p))
  \/ (exists m,
        load_annotation_file w (name, content) p = (Ok tt, log_error m p)).
Proof.
  unfold load_annotation_file, try_except, bind, lift.
  destruct content as [record|x]; cbn [read_annotation];
    [|right; eexists; reflexivity].
  destruct (validate_outcome record name p)
    as [[E Hacc]|[(m & E)|(x & E)]]; rewrite E;
    [|right; now exists m|right; eexists; reflexivity].
  destruct (py_getitem record "source_image") as [src|x] eqn:Hsrc;
    [|right; eexists; reflexivity].
  destruct (find_matching_screenshot w src) as [[path|]|x] eqn:Hfind;
    [|right; eexists; reflexivity|right; eexists; reflexivity].
  destruct record as [| | | | |kv]; try discriminate Hsrc.
  cbn [py_setitem]. left. eexists. split; [|reflexivity].
  exists name, (JObj kv), kv, src, path.
  split; [now left|]. split; [reflexivity|]. split; [exact Hacc|].
  split.
  { cbn [py_getitem] in Hsrc. destruct (dict_get "source_image" kv);
      [now injection Hsrc as ->|discriminate]. }
  split; [exact Hfind|]. split; [|reflexivity].
  unfold find_matching_screenshot in Hfind.
  destruct src as [| | |s| |]; try discriminate.
  destruct (screenshot_exists w (path_join screenshots_dir s)) eqn:E1.
  - now injection Hfind as <-.
  - destruct (screenshot_exists w
                (path_join screenshots_dir (str_remove_char " " s))) eqn:E2;
      [now injection Hfind as <-|discriminate].
Qed.

Lemma loaded_annotation_weaken (w : World)
    (files files' : list (string * file_content)) (annotation : json) :
  incl files files' ->
  loaded_annotation w files annotation ->
  loaded_annotation w files' annotation.
Proof.
  intros Hincl (name & record & kv & src & path & Hin & H).
  exists name, record, kv, src, path. split; [now apply Hincl|exact H].
Qed.

(** The state after a list of files, against the state before. *)
Lemma load_files_outcome (w : World) (files : list (string * file_content)) :
  forall p,
    fst (load_annotation_files w files p) = Ok tt
    /\ exists new_annotations new_errors,
         annotations (snd (load_annotation_files w files p))
         = annotations p ++ new_annotations
         /\ errors (snd (load_annotation_files w files p))
            = errors p ++ new_errors
         /\ (length new_annotations + length new_errors = length files)%nat
         /\ files_processed (snd (load_annotation_files w files p))
            = files_processed p + Z.of_nat (length new_annotations)
         /\ Forall (loaded_annotation w files) new_annotations.
Proof.
  induction files as [|[name content] rest IH]; intro p.
  - split; [reflexivity|]. exists [], []. cbn.
    rewrite !app_nil_r. repeat split; try lia. constructor.
  - cbn [load_annotation_files]. unfold bind.
    destruct (load_file_outcome w name content p)
      as [(a & Ha & E)|(m & E)]; rewrite E.
    + destruct (IH (append_annotation a p))
        as (Hr & na & ne & A & B & C & D & F).
      split; [exact Hr|]. exists (a :: na), ne.
      rewrite A, B, D. cbn [annotations errors files_processed
                             append_annotation length].
      split; [now rewrite <- app_assoc|]. split; [reflexivity|].
      split; [lia|]. split; [lia|].
      constructor.
      * eapply loaded_annotation_weaken; [|exact Ha].
        intros x [<-|[]]. now left.
      * eapply Forall_impl; [|exact F].
        intros x Hx. eapply loaded_annotation_weaken; [|exact Hx].
        intros y Hy. now right.
    + destruct (IH (log_error m p))
        as (Hr & na & ne & A & B & C & D & F).
      split; [exact Hr|]. exists na, (m :: ne).
      rewrite A, B, D. cbn [annotations errors files_processed
                             log_error length].
      split; [reflexivity|]. split; [now rewrite <- app_assoc|].
      split; [lia|]. split; [reflexivity|].
      eapply Forall_impl; [|exact F].
      intros x Hx. eapply loaded_annotation_weaken; [|exact Hx].
      intros y Hy. now right.
Qed.

(** X3.  Every file of the annotations directory is accounted for exactly
    once: it adds one annotation or one error, never both and never
    neither; the counter of processed files is the number of annotations;
    [load_annotations] itself only raises when the directory is missing. *)
Theorem loader_accounts_for_every_file :
  forall (w : World) (files : list (string * file_content)),
    annotation_files w = Some files ->
    let p := snd (load_annotations w new_processor) in
    fst (load_annotations w new_processor) = Ok (annotations p)
    /\ (length (annotations p) + length (errors p) = length files)%nat
    /\ files_processed p = Z.of_nat (length (annotations p))
    /\ (length (annotations p) <= length files)%nat.
Proof.
  intros w files Hfiles p. subst p. unfold load_annotations.
  rewrite Hfiles. unfold bind, gets.
  destruct (load_files_outcome w files new_processor)
    as (Hr & na & ne & A & B & C & D & _).
  destruct (load_annotation_files w files new_processor) as [r p1].
  cbn [fst snd] in *. subst r. cbn [fst snd].
  cbn in A, B, D. rewrite A, B, D.
  split; [reflexivity|]. split; [exact C|]. split; [reflexivity|lia].
Qed.

Lemma loader_accounts_for_every_file_witness :
  let p := snd (load_annotations
                  (calm_world lacking_files (1000%N, 2000%N)) new_processor) in
  (length (annotations p) = 2 /\ length (errors p) = 1)%nat
  /\ files_processed p = 2.
Proof.
  intro p.
  destruct (loader_accounts_for_every_file
              (calm_world lacking_files (1000%N, 2000%N)) lacking_files
              eq_refl) as (_ & Hsum & Hcount & _).
  fold p in Hsum, Hcount.
  assert (Ha : length (annotations p) = 2%nat) by (vm_compute; reflexivity).
  rewrite Ha in Hsum, Hcount.
  change (length lacking_files) with 3%nat in Hsum.
  split; [split; [exact Ha|lia]|exact Hcount].
Defined.

(** X4.  Every annotation the loader keeps is the record of one of the files,
    accepted by the validation, with [screenshot_path] set to a file that
    exists and [annotation_file] to its own file: phase 2 finds both the
    path and a list of sections in it. *)
Theorem loaded_annotations_are_bound :
  forall (w : World) (files : list (string * file_content))
         (annotation : json),
    annotation_files w = Some files ->
    In annotation (annotations (snd (load_annotations w new_processor))) ->
    loaded_annotation w files annotation
    /\ accepted_record annotation
    /\ exists screenshot_path sections,
         py_getitem annotation "screenshot_path"
         = Ok (JStr screenshot_path)
         /\ screenshot_exists w screenshot_path = true
         /\ py_getitem annotation "sections" = Ok (JList sections).
Proof.
  intros w files annotation Hfiles Hin.
  unfold load_annotations in Hin. rewrite Hfiles in Hin.
  unfold bind, gets in Hin.
  destruct (load_files_outcome w files new_processor)
    as (Hr & na & ne & A & _ & _ & _ & F).
  destruct (load_annotation_files w files new_processor) as [r p1].
  cbn [fst snd] in *. subst r. cbn [fst snd] in Hin.
  rewrite A in Hin. cbn in Hin.
  rewrite Forall_forall in F. pose proof (F annotation Hin) as Hl.
  split; [exact Hl|].
  destruct Hl as (name & record & kv & src & path & _ & -> & Hacc & Hsrc
                  & Hfind & Hex & ->).
  destruct Hacc as (Htop & l & Hs & Hsec).
  cbn [py_getitem] in Hs.
  destruct (dict_get "sections" kv) as [v|] eqn:Hv; [|discriminate].
  injection Hs as ->.
  split; [split|].
  - intros field Hf. specialize (Htop field Hf). cbn [py_contains] in *.
    injection Htop as Htop. f_equal.
    now apply dict_mem_set_other, dict_mem_set_other.
  - exists l. split; [|exact Hsec]. cbn [py_getitem].
    now rewrite !dict_get_set_other, Hv by discriminate.
  - exists path, l. cbn [py_getitem].
    rewrite dict_get_set_other, dict_get_set_same by discriminate.
    rewrite !dict_get_set_other, Hv by discriminate. now split.
Qed.

Lemma loaded_annotations_are_bound_witness :
  exists annotation screenshot_path,
    In annotation (annotations (snd (load_annotations s1_world new_processor)))
    /\ py_getitem annotation "screenshot_path" = Ok (JStr screenshot_path)
    /\ screenshot_exists s1_world screenshot_path = true.
Proof.
  set (annotation :=
         nth 0 (annotations (snd (load_annotations s1_world new_processor)))
           JNull).
  assert (Hin : In annotation
                  (annotations (snd (load_annotations s1_world new_processor))))
    by (vm_compute; left; reflexivity).
  destruct (loaded_annotations_are_bound s1_world _ annotation eq_refl Hin)
    as (_ & _ & path & sections & Hp & Hex & _).
  now exists annotation, path.
Defined.

(** ** What a crop does to the processor *)

(** A coordinates document that cannot be read as four integers: the
    section is dropped and the processor stays as it was. *)
Lemma crop_unreadable (w : World) (screenshot : string) (img_size : Z * Z)
    (coords : json) (section_id section_type : string) (p : processor)
    (x : exn) :
  read_coordinates coords = Raise x ->
  crop_section_image w screenshot img_size coords section_id section_type p
  = (Ok None, p).
Proof.
  unfold read_coordinates, crop_section_image, try_except, bind, lift, rbind.
  intro H.
  repeat match goal with
         | H : context [match ?r with Ok _ => _ | Raise _ => _ end] |- _ =>
             destruct r; try discriminate H; try reflexivity
         end.
Qed.

(** A rendering that returns a document went through all six calls: the
    three files are saved, in order, and the document names them. *)
Lemma render_section_some (w : World) (screenshot : string)
    (box : Z * Z * Z * Z) (size : Z * Z) (section_id section_type : string)
    (p p' : processor) (cropped_files : json) :
  render_section w screenshot box size section_id section_type p
  = (Ok (Some cropped_files), p') ->
  let base := (section_id ++ "_" ++ section_type)%string in
  same_except_saved p p'
  /\ saved_files p'
     = saved_files p ++ [full_path base; medium_path base; thumb_path base]
  /\ py_getitem cropped_files "full" = Ok (JStr (full_path base))
  /\ py_getitem cropped_files "medium" = Ok (JStr (medium_path base))
  /\ py_getitem cropped_files "thumbnail" = Ok (JStr (thumb_path base))
  /\ recorded_size cropped_files "original" = Ok size.
Proof.
  unfold render_section, bind, pil, lift, modify, ret, raise.
  repeat match goal with
         | |- context [pil_raises w screenshot ?c] =>
             destruct (pil_raises w screenshot c); [discriminate|]
         | |- context [calculate_resize size ?b] =>
             destruct (calculate_resize size b) as [[? ?]|]; [|discriminate]
         | |- context [relative_to_output ?f] =>
             let E := fresh "E" in
             destruct (relative_to_output f) eqn:E; [|discriminate];
             apply relative_to_output_inv in E as [-> _]
         end.
  intros [= <- <-]. destruct size as [sw sh].
  cbn [record_saved same_except_saved annotations sections_catalog
       section_types files_processed sections_extracted section_types_found
       errors saved_files py_getitem dict_get String.eqb Ascii.eqb Bool.eqb
       recorded_size rbind size_json py_int_value fst snd].
  split; [repeat split|]. split; [|repeat split].
  now rewrite <- !app_assoc.
Qed.

(** Whatever happens, a rendering only adds to the saved files. *)
Lemma render_section_saves (w : World) (screenshot : string)
    (box : Z * Z * Z * Z) (size : Z * Z) (section_id section_type : string)
    (p : processor) :
  exists more,
    saved_files
      (snd (render_section w screenshot box size section_id section_type p))
    = saved_files p ++ more
    /\ (length more <= 3)%nat.
Proof.
  unfold render_section, bind, pil, lift, modify, ret, raise.
  repeat match goal with
         | |- context [pil_raises w screenshot ?c] =>
             destruct (pil_raises w screenshot c)
         | |- context [calculate_resize size ?b] =>
             destruct (calculate_resize size b) as [[? ?]|]
         | |- context [relative_to_output ?f] =>
             destruct (relative_to_output f)
         end; cbn [snd saved_files record_saved];
    rewrite <- ?app_assoc; cbn [app];
    first [ exists []; rewrite app_nil_r; split; [reflexivity|cbn; lia]
          | eexists; split; [reflexivity|cbn; lia] ].
Qed.

(** A crop that returns a document: the coordinates were four integers,
    the clamped region has an extent, and the rendering returned it. *)
Lemma crop_section_image_some (w : World) (screenshot : string)
    (img_size : Z * Z) (coords : json) (section_id section_type : string)
    (p p' : processor) (cropped_files : json) :
  crop_section_image w screenshot img_size coords section_id section_type p
  = (Ok (Some cropped_files), p') ->
  exists x y width height x' y' width' height',
    read_coordinates coords = Ok (x, y, width, height)
    /\ clamp_box img_size x y width height = (x', y', width', height')
    /\ 0 < width' /\ 0 < height'
    /\ render_section w screenshot (x', y', x' + width', y' + height')
         (width', height') section_id section_type p
       = (Ok (Some cropped_files), p').
Proof.
  intro H.
  destruct (read_coordinates coords) as [[[[x y] width] height]|e] eqn:Hread.
  - rewrite (crop_section_image_unfold w screenshot img_size coords section_id
               section_type x y width height p Hread) in H.
    destruct (clamp_box img_size x y width height)
      as [[[x' y'] width'] height'] eqn:Hclamp.
    destruct ((width' <=? 0) || (height' <=? 0)) eqn:Hdeg; [discriminate|].
    apply orb_false_iff in Hdeg as [H1 H2].
    apply Z.leb_gt in H1. apply Z.leb_gt in H2.
    exists x, y, width, height, x', y', width', height'.
    repeat split; try assumption.
    unfold try_except in H.
    destruct (render_section w screenshot (x', y', x' + width', y' + height')
                (width', height') section_id section_type p) as [[r|e] p1];
      [exact H|discriminate].
  - rewrite (crop_unreadable _ _ _ _ _ _ _ _ Hread) in H. discriminate.
Qed.

Lemma crop_section_image_saves (w : World) (screenshot : string)
    (img_size : Z * Z) (coords : json) (section_id section_type : string)
    (p : processor) :
  exists more,
    saved_files
      (snd (crop_section_image w screenshot img_size coords section_id
              section_type p))
    = saved_files p ++ more
    /\ (length more <= 3)%nat.
Proof.
  destruct (read_coordinates coords) as [[[[x y] width] height]|e] eqn:Hread.
  - rewrite (crop_section_image_unfold w screenshot img_size coords section_id
               section_type x y width height p Hread).
    destruct (clamp_box img_size x y width height)
      as [[[x' y'] width'] height'].
    destruct ((width' <=? 0) || (height' <=? 0)).
    + exists []. cbn. rewrite app_nil_r. split; [reflexivity|lia].
    + unfold try_except.
      pose proof (render_section_saves w screenshot
                    (x', y', x' + width', y' + height') (width', height')
                    section_id section_type p) as Hs.
      destruct (render_section w screenshot
                  (x', y', x' + width', y' + height') (width', height')
                  section_id section_type p) as [[r|e] p1]; exact Hs.
  - rewrite (crop_unreadable _ _ _ _ _ _ _ _ Hread).
    exists []. cbn. rewrite app_nil_r. split; [reflexivity|lia].
Qed.

(** ** A rule for the invariants of phase 2 *)

Section CropRule.
Variable w : World.
Variable annotated : json -> Prop.
Variable I : processor -> Prop.

Hypothesis I_crop :
  forall screenshot img_size coords section_id section_type p,
    I p ->
    I (snd (crop_section_image w screenshot img_size coords section_id
              section_type p)).

Hypothesis I_catalog :
  forall screenshot img_size section t coords counter p p' cropped_files
         processing_date e,
    I p ->
    annotated section ->
    section_type_tag section = Ok t ->
    py_getitem section "coordinates" = Ok coords ->
    crop_section_image w screenshot img_size coords
      (make_section_id t counter) t p = (Ok (Some cropped_files), p') ->
    enrich section (make_section_id t counter) (path_name screenshot)
      cropped_files processing_date = Ok e ->
    I (catalog_section t e p').

Hypothesis I_log : forall m p, I p -> I (log_error m p).

Lemma rule_process_section (screenshot : string) (img_size : Z * Z)
    (section : json) (st : cropping) :
  annotated section -> I (self st) ->
  I (self (snd (process_section w screenshot img_size section st))).
Proof.
  intros Hann HI.
  unfold process_section, bind, gets, lift, generate_section_id, rbind.
  cbn [fst snd].
  destruct (py_getitem section "type") as [ty|] eqn:Hty; [|exact HI].
  destruct ty as [| | |t| |]; try exact HI.
  destruct (py_getitem section "coordinates") as [coords|] eqn:Hco;
    [|exact HI].
  unfold on_self.
  pose proof (I_crop screenshot img_size coords
                (make_section_id t (section_counter st)) t (self st) HI)
    as Hcrop.
  pose proof (I_catalog screenshot img_size section t coords
                (section_counter st) (self st)) as Hcat.
  destruct (crop_section_image_returns w screenshot img_size coords
              (make_section_id t (section_counter st)) t (self st)) as [r Hr].
  destruct (crop_section_image w screenshot img_size coords
              (make_section_id t (section_counter st)) t (self st))
    as [res p1].
  cbn [fst snd] in *. subst res.
  destruct r as [cf|]; [|exact Hcrop].
  destruct (enrich section (make_section_id t (section_counter st))
              (path_name screenshot) cf
              (now_isoformat w (section_counter st))) as [e|x] eqn:He;
    [|exact Hcrop].
  unfold modify. cbn [snd self catalog_and_count].
  eapply Hcat; try eassumption; try reflexivity.
  unfold section_type_tag. now rewrite Hty.
Qed.

Lemma rule_process_sections (screenshot : string) (img_size : Z * Z)
    (sections : list json) :
  Forall annotated sections ->
  forall st, I (self st) ->
             I (self (snd (process_sections w screenshot img_size sections
                             st))).
Proof.
  induction 1 as [|section rest Hs _ IH]; intros st HI; [exact HI|].
  cbn [process_sections]. unfold bind.
  pose proof (rule_process_section screenshot img_size section st Hs HI)
    as Hstep.
  destruct (process_section w screenshot img_size section st)
    as [[u|e] st1]; cbn [snd] in *; [now apply IH|exact Hstep].
Qed.

Lemma rule_process_annotation (annotation : json) (st : cropping) :
  (forall listed sections,
     py_getitem annotation "sections" = Ok listed ->
     py_iter listed = Ok sections -> Forall annotated sections) ->
  I (self st) -> I (self (snd (process_annotation w annotation st))).
Proof.
  intros Hann HI. unfold process_annotation, try_except.
  match goal with
  | |- context [match ?m st with _ => _ end] =>
      assert (Hbody : I (self (snd (m st))));
      [|destruct (m st) as [[u|e] st1]; cbn [snd] in *]
  end.
  - unfold bind, lift.
    destruct (py_getitem annotation "screenshot_path") as [path|];
      [|exact HI].
    destruct path as [| | |screenshot| |]; try exact HI.
    destruct (image_open w screenshot) as [size|]; [|exact HI].
    destruct (py_getitem annotation "sections") as [listed|] eqn:Hs;
      [|exact HI].
    destruct (py_iter listed) as [sections|] eqn:Hi; [|exact HI].
    apply rule_process_sections; [now apply (Hann listed)|exact HI].
  - exact Hbody.
  - unfold bind, lift.
    destruct (py_get_default annotation "source_image" (JStr "unknown"))
      as [src|]; [|exact Hbody].
    unfold on_self, modify. cbn [snd self]. now apply I_log.
Qed.

Lemma rule_process_annotations (anns : list json) :
  (forall annotation listed sections,
     In annotation anns ->
     py_getitem annotation "sections" = Ok listed ->
     py_iter listed = Ok sections ->
     Forall annotated sections) ->
  forall st, I (self st) ->
             I (self (snd (process_annotations w anns st))).
Proof.
  induction anns as [|annotation rest IH]; intros Hann st HI; [exact HI|].
  cbn [process_annotations]. unfold bind.
  pose proof (rule_process_annotation annotation st
                (fun listed sections =>
                   Hann annotation listed sections (or_introl eq_refl)) HI)
    as Hstep.
  destruct (process_annotation w annotation st) as [[u|e] st1];
    cbn [snd] in *; [|exact Hstep].
  apply IH; [|exact Hstep]. intros a v s Hin. apply Hann. now right.
Qed.
End CropRule.

(** An invariant that every crop keeps, that the cataloging of a cropped
    section of the annotations keeps, and that the logging of an error
    keeps, holds after phase 2. *)
Lemma crop_sections_rule (w : World) (I : processor -> Prop)
    (p : processor) :
  (forall screenshot img_size coords section_id section_type q,
     I q ->
     I (snd (crop_section_image w screenshot img_size coords section_id
               section_type q))) ->
  (forall screenshot img_size section t coords counter q q' cropped_files
          processing_date e,
     I q ->
     annotated_section p section ->
     section_type_tag section = Ok t ->
     py_getitem section "coordinates" = Ok coords ->
     crop_section_image w screenshot img_size coords
       (make_section_id t counter) t q = (Ok (Some cropped_files), q') ->
     enrich section (make_section_id t counter) (path_name screenshot)
       cropped_files processing_date = Ok e ->
     I (catalog_section t e q')) ->
  (forall m q, I q -> I (log_error m q)) ->
  I p -> I (snd (crop_sections w p)).
Proof.
  intros Hcrop Hcat Hlog HI. unfold crop_sections.
  pose proof (rule_process_annotations w (annotated_section p) I
                Hcrop Hcat Hlog (annotations p)) as H.
  specialize (H (fun annotation listed sections Hin Hl Hi =>
                   proj2 (Forall_forall _ _)
                     (fun s Hs =>
                        ex_intro _ annotation
                          (ex_intro _ listed
                             (ex_intro _ sections
                                (conj Hin (conj Hl (conj Hi Hs)))))))
                {| self := p; section_counter := 1 |} HI).
  now destruct (process_annotations w (annotations p)
                  {| self := p; section_counter := 1 |}).
Qed.

(** ** The counters agree with the containers *)

Lemma fold_add_shift (l : list Z) :
  forall a, fold_left Z.add l a = a + sum_Z l.
Proof.
  unfold sum_Z. induction l as [|b l IH]; intro a; cbn [fold_left].
  - lia.
  - rewrite (IH (a + b)), (IH (0 + b)). lia.
Qed.

Lemma sum_Z_cons (a : Z) (l : list Z) : sum_Z (a :: l) = a + sum_Z l.
Proof. unfold sum_Z at 1. cbn [fold_left]. rewrite fold_add_shift. lia. Qed.

Lemma sum_Z_app (l l' : list Z) : sum_Z (l ++ l') = sum_Z l + sum_Z l'.
Proof.
  induction l as [|a l IH]; cbn [app].
  - reflexivity.
  - rewrite !sum_Z_cons, IH. lia.
Qed.

Lemma sum_Z_nonneg (l : list Z) : Forall (fun a => 0 <= a) l -> 0 <= sum_Z l.
Proof.
  induction 1 as [|a l Ha _ IH]; [reflexivity|]. rewrite sum_Z_cons. lia.
Qed.

Lemma group_sizes_append {V : Type} (k : string) (v : V)
    (d : dict (list V)) :
  sum_Z (group_sizes (group_append k v d)) = sum_Z (group_sizes d) + 1.
Proof.
  unfold group_sizes.
  induction d as [|[k' vs] d IH]; cbn [group_append map].
  - reflexivity.
  - destruct (String.eqb k k'); cbn [map snd]; rewrite !sum_Z_cons.
    + rewrite length_app. cbn [length]. lia.
    + rewrite IH. lia.
Qed.

Lemma set_add_keys {V : Type} (k : string) (v : V) (d : dict (list V)) :
  set_add k (dict_keys d) = dict_keys (group_append k v d).
Proof. unfold set_add. now rewrite dict_keys_group_append. Qed.

(** Adding to a set does not look at the order of its members. *)
Lemma set_add_permutation (k : string) (l l' : list string) :
  Permutation l l' -> Permutation (set_add k l) (set_add k l').
Proof.
  intro H. unfold set_add.
  assert (E : existsb (String.eqb k) l = existsb (String.eqb k) l').
  { apply eq_true_iff_eq. rewrite !existsb_exists.
    split; intros (x & Hx & Hk); exists x; split; try exact Hk.
    - now apply (Permutation_in _ H).
    - now apply (Permutation_in _ (Permutation_sym H)). }
  rewrite E. destruct (existsb (String.eqb k) l'); [exact H|].
  now apply Permutation_app_tail.
Qed.

(** An invariant that the appending of an annotation and the logging of an
    error keep holds after the loader. *)
Lemma load_files_rule (w : World) (I : processor -> Prop)
    (files : list (string * file_content)) :
  (forall a p, I p -> I (append_annotation a p)) ->
  (forall m p, I p -> I (log_error m p)) ->
  forall p, I p -> I (snd (load_annotation_files w files p)).
Proof.
  intros Happ Hlog.
  induction files as [|[name content] rest IH]; intros p HI; [exact HI|].
  cbn [load_annotation_files]. unfold bind.
  destruct (load_file_outcome w name content p)
    as [(a & _ & E)|(m & E)]; rewrite E; apply IH; auto.
Qed.

Lemma load_annotations_rule (w : World) (I : processor -> Prop)
    (p : processor) :
  (forall a p, I p -> I (append_annotation a p)) ->
  (forall m p, I p -> I (log_error m p)) ->
  I p -> I (snd (load_annotations w p)).
Proof.
  intros Happ Hlog HI. unfold load_annotations.
  destruct (annotation_files w) as [files|]; [|exact HI].
  unfold bind, gets.
  pose proof (load_files_rule w I files Happ Hlog p HI) as H.
  pose proof (load_files_outcome w files p) as [Hr _].
  destruct (load_annotation_files w files p) as [[u|e] p1];
    cbn [fst snd] in *; [exact H|discriminate].
Qed.

(** An invariant of both phases holds in the state a run ends in. *)
Lemma final_state_rule (w : World) (I : processor -> Prop) :
  (forall a p, I p -> I (append_annotation a p)) ->
  (forall m p, I p -> I (log_error m p)) ->
  (forall p, I p -> I (snd (crop_sections w p))) ->
  I new_processor -> I (final_state w).
Proof.
  intros Happ Hlog Hcrop Hnew.
  destruct (final_state_cases w) as (_ & _ & [E|E]); rewrite E.
  - now apply load_annotations_rule.
  - apply Hcrop. now apply load_annotations_rule.
Qed.

Lemma tallies_agree_crop (w : World) (p : processor) :
  tallies_agree p -> tallies_agree (snd (crop_sections w p)).
Proof.
  apply crop_sections_rule.
  - intros shot size coords sid sty q (H1 & H2 & H3 & H4).
    destruct (saves_only_crop w shot size coords sid sty q)
      as (E1 & E2 & E3 & E4 & E5 & E6 & E7).
    unfold tallies_agree. now rewrite E1, E2, E3, E4, E5, E6.
  - intros shot size section t coords counter q q' cf pd e
           (H1 & H2 & H3 & H4) _ _ _ Hcrop _.
    pose proof (saves_only_crop w shot size coords
                  (make_section_id t counter) t q) as Hs.
    rewrite Hcrop in Hs. destruct Hs as (E1 & E2 & E3 & E4 & E5 & E6 & E7).
    cbn [snd] in *.
    unfold tallies_agree. cbn [catalog_section sections_extracted
      sections_catalog section_types section_types_found files_processed
      annotations].
    rewrite E1, E2, E3, E4, E5, E6, length_app, group_sizes_append.
    cbn [length]. rewrite <- (set_add_keys t e).
    split; [lia|]. split; [now apply set_add_permutation|]. split; lia.
  - intros m q H. exact H.
Qed.

Lemma tallies_agree_final (w : World) : tallies_agree (final_state w).
Proof.
  apply final_state_rule.
  - intros a p (H1 & H2 & H3 & H4). unfold tallies_agree.
    cbn [append_annotation sections_extracted sections_catalog section_types
      section_types_found files_processed annotations].
    rewrite length_app. cbn [length].
    split; [exact H1|]. split; [exact H2|]. split; [exact H3|lia].
  - intros m p H. exact H.
  - intros p. apply tallies_agree_crop.
  - split; [reflexivity|]. split; [constructor|]. split; reflexivity.
Qed.

Lemma index_sizes (groups index : dict (list json)) :
  index_of_groups groups = Ok index ->
  dict_keys index = dict_keys groups
  /\ group_sizes index = group_sizes groups.
Proof.
  intro H. apply result_map_Forall2 in H.
  unfold dict_keys, group_sizes.
  induction H as [|g i groups index Hg _ [IH1 IH2]]; [now split|].
  cbn [map]. rewrite IH1, IH2.
  destruct (result_map (fun s => py_getitem s "unique_id") (snd g))
    as [ids|] eqn:Hids; [|discriminate].
  cbn [rbind] in Hg. injection Hg as <-. cbn [fst snd].
  apply result_map_Forall2 in Hids.
  now rewrite (Forall2_length Hids).
Qed.

Lemma pattern_of_group_count (sections : list json) (pat : type_pattern) :
  pattern_of_group sections = Ok pat ->
  count pat = Z.of_nat (length sections).
Proof.
  unfold pattern_of_group.
  destruct (result_map section_measure sections) as [ms|]; [|discriminate].
  cbn [rbind].
  match goal with
  | |- context [rbind ?a _] => destruct a as [avg|]; [|discriminate]
  end.
  cbn [rbind]. now intros [= <-].
Qed.

Lemma pattern_counts (groups : dict (list json))
    (per_type : dict type_pattern) :
  result_map (fun g => pat <~ pattern_of_group (snd g) ;; Ok (fst g, pat))%result
    groups = Ok per_type ->
  dict_keys per_type = dict_keys groups
  /\ map (fun g => count (snd g)) per_type = group_sizes groups.
Proof.
  intro H. apply result_map_Forall2 in H.
  unfold dict_keys, group_sizes.
  induction H as [|g i groups index Hg _ [IH1 IH2]]; [now split|].
  cbn [map]. rewrite IH1, IH2.
  destruct (pattern_of_group (snd g)) as [pat|] eqn:Hpat; [|discriminate].
  cbn [rbind] in Hg. injection Hg as <-. cbn [fst snd].
  now rewrite (pattern_of_group_count _ _ Hpat).
Qed.

(** X5.  The three documents a run returns count the same modules: the catalog
    metadata, the processing summary, the frequency analysis, the
    breakdown by type, the index by type and the per-type patterns give
    one total; the breakdown, the index and the per-type patterns have the
    same keys in the same order; the types listed in the metadata, which
    come from a set, are these keys in some order; and the stores counted
    are the files processed. *)
Theorem outputs_agree_on_counts :
  forall (w : World) (arts : artifacts) (p : processor),
    run_full_processing w new_processor = (Ok (Some arts), p) ->
    let cat := out_catalog arts in
    let stats := out_statistics arts in
    let pats := out_patterns arts in
    total_modules cat = Z.of_nat (length (modules cat))
    /\ stat_sections_extracted stats = total_modules cat
    /\ total_sections pats = total_modules cat
    /\ sum_Z (map snd (section_type_breakdown stats)) = total_modules cat
    /\ sum_Z (group_sizes (types_index cat)) = total_modules cat
    /\ sum_Z (map (fun g => count (snd g)) (pattern_section_types pats))
       = total_modules cat
    /\ dict_keys (section_type_breakdown stats) = dict_keys (types_index cat)
    /\ dict_keys (pattern_section_types pats) = dict_keys (types_index cat)
    /\ Permutation (catalog_section_types cat) (dict_keys (types_index cat))
    /\ unique_types pats = Z.of_nat (length (catalog_section_types cat))
    /\ source_stores cat = stat_files_processed stats.
Proof.
  intros w arts p Hrun.
  destruct (run_artifacts w new_processor p arts Hrun) as (Hp & Hc & Hs).
  assert (Hfin : p = final_state w) by (unfold final_state; now rewrite Hrun).
  pose proof (tallies_agree_final w) as (T1 & T2 & T3 & T4).
  rewrite <- Hfin in T1, T2, T3, T4.
  unfold generate_module_catalog in Hc.
  destruct (index_of_groups (section_types p)) as [index|] eqn:Hi;
    [|discriminate].
  cbn [rbind] in Hc. injection Hc as Hc.
  destruct (index_sizes _ _ Hi) as [I1 I2].
  unfold analyze_patterns in Hp.
  match type of Hp with
  | context [rbind ?a _] => destruct a as [per_type|] eqn:Hper; [|discriminate]
  end.
  cbn [rbind] in Hp.
  destruct (result_map section_type_tag (sections_catalog p)) as [tags|];
    [|discriminate].
  cbn [rbind] in Hp. injection Hp as Hp.
  destruct (pattern_counts _ _ Hper) as [P1 P2].
  cbn zeta. rewrite <- Hc, <- Hp, Hs.
  cbn [total_modules modules stat_sections_extracted total_sections
    section_type_breakdown types_index pattern_section_types
    catalog_section_types unique_types source_stores stat_files_processed
    generate_statistics].
  rewrite I1, I2, P1, P2.
  assert (Hb : map snd
                 (map (fun g : string * list json =>
                         (fst g, Z.of_nat (length (snd g))))
                    (section_types p))
               = group_sizes (section_types p)).
  { unfold group_sizes. rewrite map_map. reflexivity. }
  assert (Hk : dict_keys
                 (map (fun g : string * list json =>
                         (fst g, Z.of_nat (length (snd g))))
                    (section_types p))
               = dict_keys (section_types p)).
  { unfold dict_keys. rewrite map_map. reflexivity. }
  rewrite Hb, Hk, T3.
  assert (Hlen : length (section_types_found p)
                 = length (section_types p)).
  { rewrite (Permutation_length T2). unfold dict_keys. apply length_map. }
  rewrite Hlen.
  repeat split; try reflexivity; try assumption. now rewrite T4.
Qed.

Lemma outputs_agree_on_counts_witness :
  exists arts p,
    run_full_processing s1_world new_processor = (Ok (Some arts), p)
    /\ total_modules (out_catalog arts) = 1
    /\ stat_sections_extracted (out_statistics arts) = 1
    /\ catalog_section_types (out_catalog arts) = ["Hero Banner"].
Proof.
  destruct (run_full_processing s1_world new_processor) as [r p] eqn:E.
  destruct r as [[arts|]|x];
    try (exfalso; vm_compute in E; discriminate E).
  exists arts, p. split; [reflexivity|].
  destruct (outputs_agree_on_counts s1_world arts p E)
    as (H1 & H2 & _ & _ & _ & _ & _ & _ & _ & _ & _).
  cbn zeta in H1, H2. rewrite H2.
  vm_compute in E. injection E as E _. subst arts.
  repeat split.
Defined.

(** ** The keys of a cataloged module *)

Lemma dict_mem_set {V : Type} (k k0 : string) (v : V) (d : dict V) :
  dict_mem k0 (dict_set k v d) = String.eqb k0 k || dict_mem k0 d.
Proof.
  unfold dict_mem. destruct (String.eqb_spec k0 k) as [->|Hne].
  - now rewrite dict_get_set_same.
  - now rewrite dict_get_set_other.
Qed.

(** The keys of an enriched section: those of the section and the four
    that were assigned. *)
Lemma enrich_keys (section : json) (section_id source_file : string)
    (cropped_files : json) (processing_date : string) (e : json) :
  enrich section section_id source_file cropped_files processing_date = Ok e ->
  exists kv kv',
    section = JObj kv /\ e = JObj kv'
    /\ forall k,
         dict_mem k kv'
         = existsb (String.eqb k)
             ["processing_date"; "cropped_files"; "source_file"; "unique_id"]
           || dict_mem k kv.
Proof.
  destruct section as [| | | | |kv]; try discriminate.
  unfold enrich, rbind, py_setitem. intros [= <-].
  exists kv. eexists. split; [reflexivity|]. split; [reflexivity|].
  intro k. rewrite !dict_mem_set. cbn [existsb].
  now rewrite !orb_assoc, orb_false_r.
Qed.

(** The sections of a loaded annotation went through the validation. *)
Lemma loaded_sections_validated (w : World)
    (files : list (string * file_content)) (annotation listed : json)
    (sections : list json) :
  loaded_annotation w files annotation ->
  py_getitem annotation "sections" = Ok listed ->
  py_iter listed = Ok sections ->
  forall section field,
    In section sections -> In field required_section_fields ->
    py_contains field section = Ok true.
Proof.
  intros (name & record & kv & src & path & _ & -> & Hacc & _ & _ & _ & ->)
         Hl Hi.
  destruct Hacc as (_ & l & Hs & Hsec).
  cbn [py_getitem] in Hs, Hl.
  rewrite !dict_get_set_other in Hl by discriminate.
  destruct (dict_get "sections" kv) as [v|]; [|discriminate].
  injection Hs as ->. injection Hl as <-. cbn [py_iter] in Hi.
  injection Hi as <-. exact Hsec.
Qed.

(** The annotations a new processor holds after the loader. *)
Lemma loaded_state (w : World) :
  let p := snd (load_annotations w new_processor) in
  sections_catalog p = [] /\ saved_files p = []
  /\ forall annotation,
       In annotation (annotations p) ->
       exists files, loaded_annotation w files annotation.
Proof.
  intro p.
  destruct (loads_only_load_annotations w new_processor) as (H1 & _ & H3).
  fold p in H1, H3. split; [exact H1|]. split; [exact H3|]. subst p.
  unfold load_annotations.
  destruct (annotation_files w) as [files|]; [|intros a []].
  unfold bind, gets.
  destruct (load_files_outcome w files new_processor)
    as (Hr & na & ne & A & _ & _ & _ & F).
  destruct (load_annotation_files w files new_processor) as [r p1].
  cbn [fst snd] in *. subst r. cbn [snd]. rewrite A. cbn [annotations app].
  intros a Ha. exists files. rewrite Forall_forall in F. now apply F.
Qed.

(** X6.  Every module of the catalog a run ends with has the three keys the
    validation asks of a section and the four keys [crop_sections]
    assigns. *)
Theorem catalog_modules_have_keys :
  forall (w : World) (e : json),
    In e (sections_catalog (final_state w)) -> has_module_keys e.
Proof.
  intros w e.
  destruct (final_state_cases w) as (Hcat & _ & [E|E]); rewrite E.
  - rewrite Hcat. intros [].
  - set (p1 := snd (load_annotations w new_processor)) in *.
    enough (H : Forall has_module_keys
                  (sections_catalog (snd (crop_sections w p1)))).
    { rewrite Forall_forall in H. apply H. }
    apply (crop_sections_rule w
             (fun q => Forall has_module_keys (sections_catalog q))).
    + intros shot size coords sid sty q Hq.
      destruct (saves_only_crop w shot size coords sid sty q)
        as (_ & -> & _). exact Hq.
    + intros shot size section t coords counter q q' cf pd e'
             Hq (a & listed & sections & Ha & Hl & Hi & Hin) _ _ Hcrop He.
      pose proof (saves_only_crop w shot size coords
                    (make_section_id t counter) t q) as Hs.
      rewrite Hcrop in Hs. destruct Hs as (_ & Hs & _). cbn [snd] in Hs.
      cbn [catalog_section sections_catalog]. rewrite Hs.
      apply Forall_app. split; [exact Hq|]. constructor; [|constructor].
      destruct (loaded_state w) as (_ & _ & Hloaded).
      destruct (Hloaded a Ha) as (files & Hload).
      pose proof (loaded_sections_validated w files a listed sections
                    Hload Hl Hi section) as Hval.
      destruct (enrich_keys _ _ _ _ _ _ He) as (kv & kv' & -> & -> & Hk).
      intros k Hin_k. cbn [py_contains]. f_equal. rewrite Hk.
      assert (Hreq : forall field, In field required_section_fields ->
                                   dict_mem field kv = true).
      { intros field Hf. specialize (Hval field Hin Hf).
        cbn [py_contains] in Hval. now injection Hval. }
      cbn [module_keys In] in Hin_k.
      destruct Hin_k as [<-|[<-|[<-|[<-|[<-|[<-|[<-|[]]]]]]]];
        try reflexivity;
        (rewrite Hreq; [apply orb_true_r|cbn; tauto]).
    + intros m q Hq. exact Hq.
    + subst p1. rewrite Hcat. constructor.
Qed.

Lemma catalog_modules_have_keys_witness :
  exists e,
    In e (sections_catalog (final_state s1_world))
    /\ py_contains "cropped_files" e = Ok true.
Proof.
  set (e := nth 0 (sections_catalog (final_state s1_world)) JNull).
  assert (Hin : In e (sections_catalog (final_state s1_world)))
    by (vm_compute; left; reflexivity).
  exists e. split; [exact Hin|].
  apply (catalog_modules_have_keys s1_world e Hin).
  cbn; tauto.
Defined.

(** ** The files of a cataloged module *)

Lemma files_on_record_more (p p' : processor) (e : json) :
  incl (saved_files p) (saved_files p') ->
  files_on_record p e -> files_on_record p' e.
Proof.
  intros Hincl (files & H1 & H2 & H3). exists files.
  split; [exact H1|]. split; [exact H2|].
  intros f Hf. apply Hincl, H3, Hf.
Qed.

(** X7.  The files a cataloged module names are the files that were saved for
    it, under the names built from its identifier and its type; a
    cataloged module accounts for three saved files. *)
Theorem cataloged_files_were_saved :
  forall w : World,
    let p := final_state w in
    Forall (files_on_record p) (sections_catalog p)
    /\ (3 * length (sections_catalog p) <= length (saved_files p))%nat.
Proof.
  intro w.
  apply (final_state_rule w
           (fun p => Forall (files_on_record p) (sections_catalog p)
                     /\ (3 * length (sections_catalog p)
                         <= length (saved_files p))%nat)).
  - intros a p H. exact H.
  - intros m p H. exact H.
  - intro p.
    apply (crop_sections_rule w
             (fun q => Forall (files_on_record q) (sections_catalog q)
                       /\ (3 * length (sections_catalog q)
                           <= length (saved_files q))%nat)).
    + intros shot size coords sid sty q [Hq Hn].
      destruct (saves_only_crop w shot size coords sid sty q)
        as (_ & Hc & _).
      destruct (crop_section_image_saves w shot size coords sid sty q)
        as (more & Hs & _).
      cbv beta. rewrite Hc, Hs. split.
      * eapply Forall_impl; [|exact Hq].
        intros e. apply files_on_record_more. rewrite Hs.
        apply incl_appl, incl_refl.
      * rewrite length_app. lia.
    + intros shot size section t coords counter q q' cf pd e
             [Hq Hn] _ Ht _ Hcrop He.
      pose proof (saves_only_crop w shot size coords
                    (make_section_id t counter) t q) as Hs.
      rewrite Hcrop in Hs. destruct Hs as (_ & Hc & _). cbn [snd] in Hc.
      destruct (crop_section_image_some _ _ _ _ _ _ _ _ _ Hcrop)
        as (x & y & wd & ht & x' & y' & wd' & ht' & _ & _ & _ & _ & Hr).
      destruct (render_section_some _ _ _ _ _ _ _ _ _ Hr)
        as (_ & Hsaved & Hfull & Hmed & Hthumb & _).
      cbv beta. cbn [catalog_section sections_catalog saved_files].
      rewrite Hc, Hsaved. split.
      * apply Forall_app. split.
        -- eapply Forall_impl; [|exact Hq].
           intros e0. apply files_on_record_more.
           cbn [catalog_section saved_files]. rewrite Hsaved.
           apply incl_appl, incl_refl.
        -- constructor; [|constructor].
           destruct (enrich_inv _ _ _ _ _ _ He)
             as (kv & kv' & -> & -> & Hid & Hcf & Hkeep).
           eexists. split; [|split].
           ++ unfold module_files, section_type_tag in *.
              cbn [py_getitem] in *. rewrite Hid.
              rewrite (Hkeep "type") by discriminate.
              cbn [rbind].
              destruct (dict_get "type" kv) as [ty|]; [|discriminate].
              cbn [rbind] in *. destruct ty; try discriminate.
              injection Ht as ->. reflexivity.
           ++ unfold recorded_files. cbn [py_getitem]. rewrite Hcf.
              cbn [rbind]. rewrite Hfull, Hmed, Hthumb. reflexivity.
           ++ cbn [catalog_section saved_files]. rewrite Hsaved.
              apply incl_appr, incl_refl.
      * rewrite !length_app. cbn [length]. lia.
    + intros m q H. exact H.
  - split; [constructor|cbn; lia].
Qed.

(** ** What phase 2 adds *)

Lemma process_section_growth (w : World) (screenshot : string)
    (img_size : Z * Z) (section : json) (st : cropping) :
  let st' := snd (process_section w screenshot img_size section st) in
  errors (self st') = errors (self st)
  /\ exists more,
       sections_catalog (self st') = sections_catalog (self st) ++ more
       /\ (length more <= 1)%nat.
Proof.
  intro st'. split; [apply process_section_logs_nothing|].
  pose proof (process_section_step w (fun _ => True) screenshot img_size
                section st I) as Hstep.
  fold st' in Hstep.
  destruct Hstep as [(_ & Hc & _) _
                    | shot s t e cf _ _ _ _ Hc _ _ _
                    | m _ Hc _ _ _].
  - exists []. rewrite Hc, app_nil_r. split; [reflexivity|cbn; lia].
  - exists [e]. split; [exact Hc|cbn; lia].
  - exists []. rewrite Hc, app_nil_r. split; [reflexivity|cbn; lia].
Qed.

Lemma process_sections_growth (w : World) (screenshot : string)
    (img_size : Z * Z) (sections : list json) :
  forall st,
    let st' := snd (process_sections w screenshot img_size sections st) in
    errors (self st') = errors (self st)
    /\ exists more,
         sections_catalog (self st') = sections_catalog (self st) ++ more
         /\ (length more <= length sections)%nat.
Proof.
  induction sections as [|section rest IH]; intro st.
  - split; [reflexivity|]. exists []. cbn. now rewrite app_nil_r.
  - cbn [process_sections]. unfold bind.
    destruct (process_section_growth w screenshot img_size section st)
      as (He & more & Hc & Hn).
    destruct (process_section w screenshot img_size section st)
      as [[u|x] st1]; cbn [snd] in *.
    + destruct (IH st1) as (He' & more' & Hc' & Hn'). cbn zeta.
      split; [congruence|]. exists (more ++ more').
      rewrite Hc', Hc, app_assoc, length_app. cbn [length].
      split; [reflexivity|lia].
    + split; [exact He|]. exists more. cbn [length]. split; [exact Hc|lia].
Qed.

(** The sections an annotation lists, as the inner loop walks them. *)
Lemma listed_sections_cons (a : json) (anns : list json) :
  listed_sections (a :: anns)
  = match (l <~ py_getitem a "sections" ;; py_iter l)%result with
    | Ok sections => Z.of_nat (length sections)
    | Raise _ => 0
    end + listed_sections anns.
Proof. unfold listed_sections. cbn [map]. apply sum_Z_cons. Qed.

Lemma listed_sections_nonneg (anns : list json) : 0 <= listed_sections anns.
Proof.
  unfold listed_sections. apply sum_Z_nonneg, Forall_forall.
  intros z Hz. apply in_map_iff in Hz as (a & <- & _).
  destruct (l <~ py_getitem a "sections" ;; py_iter l)%result; lia.
Qed.

Lemma process_annotation_growth (w : World) (annotation : json)
    (st : cropping) :
  let st' := snd (process_annotation w annotation st) in
  (exists new_errors,
     errors (self st') = errors (self st) ++ new_errors
     /\ (length new_errors <= 1)%nat
     /\ forallb is_processing_error new_errors = true)
  /\ exists more,
       sections_catalog (self st') = sections_catalog (self st) ++ more
       /\ Z.of_nat (length more) <= listed_sections [annotation].
Proof.
  rewrite listed_sections_cons. change (listed_sections []) with 0.
  assert (Hstay : forall (st0 : cropping) (n : Z),
             0 <= n ->
             errors (self st0) = errors (self st) ->
             sections_catalog (self st0) = sections_catalog (self st) ->
             errors (self st0) = errors (self st)
             /\ exists more,
                  sections_catalog (self st0)
                  = sections_catalog (self st) ++ more
                  /\ Z.of_nat (length more) <= n + 0).
  { intros st0 n Hn He Hc. split; [exact He|]. exists [].
    rewrite app_nil_r. split; [exact Hc|]. cbn [length]. lia. }
  cbv zeta.
  unfold process_annotation, try_except.
  match goal with
  | |- context [match ?m st with _ => _ end] =>
      assert (Hbody : errors (self (snd (m st))) = errors (self st)
                      /\ exists more,
                           sections_catalog (self (snd (m st)))
                           = sections_catalog (self st) ++ more
                           /\ Z.of_nat (length more)
                              <= match (l <~ py_getitem annotation "sections" ;;
                                        py_iter l)%result with
                                 | Ok sections => Z.of_nat (length sections)
                                 | Raise _ => 0
                                 end + 0);
      [|destruct (m st) as [[u|e] st1]; cbn [snd] in *]
  end.
  - unfold bind, lift.
    assert (Hn : 0 <= match (l <~ py_getitem annotation "sections" ;;
                              py_iter l)%result with
                      | Ok sections => Z.of_nat (length sections)
                      | Raise _ => 0
                      end).
    { destruct (l <~ py_getitem annotation "sections" ;; py_iter l)%result;
        lia. }
    destruct (py_getitem annotation "screenshot_path") as [path|];
      [|now apply Hstay].
    destruct path as [| | |screenshot| |]; try now apply Hstay.
    destruct (image_open w screenshot) as [size|]; [|now apply Hstay].
    destruct (py_getitem annotation "sections") as [listed|];
      [|now apply Hstay].
    cbn [rbind] in *.
    destruct (py_iter listed) as [sections|]; [|now apply Hstay].
    destruct (process_sections_growth w screenshot
                (Z.of_N (fst size), Z.of_N (snd size)) sections st)
      as (He & more & Hc & Hlen).
    split; [exact He|]. exists more. split; [exact Hc|lia].
  - destruct Hbody as (He & Hmore). split; [|exact Hmore].
    exists []. rewrite app_nil_r.
    split; [exact He|]. split; [cbn; lia|reflexivity].
  - destruct Hbody as (He & Hmore). unfold bind, lift.
    destruct (py_get_default annotation "source_image" (JStr "unknown"))
      as [src|]; cbn [snd].
    + unfold on_self, modify. cbn [snd self log_error errors sections_catalog].
      split; [|exact Hmore]. eexists. rewrite He.
      split; [reflexivity|]. split; [cbn; lia|reflexivity].
    + split; [|exact Hmore]. exists []. rewrite app_nil_r.
      split; [exact He|]. split; [cbn; lia|reflexivity].
Qed.

Lemma process_annotations_growth (w : World) (anns : list json) :
  forall st,
    let st' := snd (process_annotations w anns st) in
    (exists new_errors,
       errors (self st') = errors (self st) ++ new_errors
       /\ (length new_errors <= length anns)%nat
       /\ forallb is_processing_error new_errors = true)
    /\ exists more,
         sections_catalog (self st') = sections_catalog (self st) ++ more
         /\ Z.of_nat (length more) <= listed_sections anns.
Proof.
  induction anns as [|annotation rest IH]; intro st.
  - cbn [process_annotations]. unfold ret. cbn [snd]. cbv zeta. split.
    + exists []. rewrite app_nil_r.
      split; [reflexivity|]. split; [apply le_n|reflexivity].
    + exists []. rewrite app_nil_r. split; [reflexivity|].
      change (listed_sections []) with 0. cbn [length]. lia.
  - cbn [process_annotations]. unfold bind.
    destruct (process_annotation_growth w annotation st)
      as ((ne & He & Hn & Hp) & more & Hc & Hm).
    cbv zeta in Hm. rewrite listed_sections_cons in Hm.
    change (listed_sections []) with 0 in Hm.
    pose proof (listed_sections_nonneg rest) as Hrest.
    rewrite listed_sections_cons. cbn [length].
    destruct (process_annotation w annotation st) as [[u|x] st1];
      cbn [snd] in *.
    + destruct (IH st1) as ((ne' & He' & Hn' & Hp') & more' & Hc' & Hm').
      cbn zeta. split.
      * exists (ne ++ ne'). rewrite He', He, app_assoc, length_app, forallb_app.
        split; [reflexivity|]. split; [lia|]. now rewrite Hp, Hp'.
      * exists (more ++ more'). rewrite Hc', Hc, app_assoc, length_app.
        split; [reflexivity|lia].
    + split.
      * exists ne. split; [exact He|]. split; [lia|exact Hp].
      * exists more. split; [exact Hc|lia].
Qed.

(** X8.  Phase 2 adds at most one error for an annotation, each an error of the
    handler of the outer loop, and at most one module for a section the
    annotations list; what was logged and cataloged before stays in
    front. *)
Theorem crop_sections_growth :
  forall (w : World) (p : processor),
    let p' := snd (crop_sections w p) in
    (exists new_errors,
       errors p' = errors p ++ new_errors
       /\ (length new_errors <= length (annotations p))%nat
       /\ forallb is_processing_error new_errors = true)
    /\ exists new_modules,
         sections_catalog p' = sections_catalog p ++ new_modules
         /\ Z.of_nat (length new_modules) <= listed_sections (annotations p).
Proof.
  intros w p. unfold crop_sections.
  pose proof (process_annotations_growth w (annotations p)
                {| self := p; section_counter := 1 |}) as H.
  destruct (process_annotations w (annotations p)
              {| self := p; section_counter := 1 |}) as [r st].
  exact H.
Qed.

(** ** Sections and annotations that are skipped *)

(** X9.  A section whose coordinates lack one of the four keys is skipped:
    nothing is saved, cataloged or logged and the counter keeps its
    value. *)
Theorem section_without_coordinate_is_skipped :
  forall (w : World) (screenshot : string) (img_size : Z * Z)
         (section coords : json) (t field : string) (x : exn)
         (st : cropping),
    py_getitem section "type" = Ok (JStr t) ->
    py_getitem section "coordinates" = Ok coords ->
    In field ["x"; "y"; "width"; "height"] ->
    py_getitem coords field = Raise x ->
    process_section w screenshot img_size section st = (Ok tt, st).
Proof.
  intros w screenshot img_size section coords t field x st Ht Hc Hf Hx.
  assert (Hread : exists x', read_coordinates coords = Raise x').
  { unfold read_coordinates.
    cbn [In] in Hf. destruct Hf as [<-|[<-|[<-|[<-|[]]]]]; rewrite ?Hx.
    - now exists x.
    - destruct (py_getitem coords "x"); cbn [rbind]; eauto.
    - destruct (py_getitem coords "x"); cbn [rbind]; eauto.
      destruct (py_getitem coords "y"); cbn [rbind]; eauto.
    - destruct (py_getitem coords "x"); cbn [rbind]; eauto.
      destruct (py_getitem coords "y"); cbn [rbind]; eauto.
      destruct (py_getitem coords "width"); cbn [rbind]; eauto. }
  destruct Hread as [x' Hread].
  unfold process_section, bind, gets, lift, generate_section_id, rbind.
  cbn [fst snd]. rewrite Ht, Hc. unfold on_self.
  rewrite (crop_unreadable _ _ _ _ _ _ _ _ Hread).
  unfold ret. now destruct st.
Qed.

Lemma section_without_coordinate_is_skipped_witness :
  process_section s1_world "screenshots/s1.png" (1000, 2000)
    (section_spec "a" "hero" (JObj [("x", JInt 0); ("y", JInt 0);
                                    ("width", JInt 10)]))
    {| self := new_processor; section_counter := 1 |}
  = (Ok tt, {| self := new_processor; section_counter := 1 |}).
Proof.
  apply (section_without_coordinate_is_skipped s1_world "screenshots/s1.png"
           (1000, 2000) _ (JObj [("x", JInt 0); ("y", JInt 0);
                                 ("width", JInt 10)])
           "hero" "height" KeyError);
    [reflexivity|reflexivity|cbn; tauto|reflexivity].
Defined.

(** X10.  A section that lies beyond the right or the lower edge of the
    screenshot, or whose annotated extent is not positive, is skipped in
    the same way. *)
Theorem section_beyond_image_is_skipped :
  forall (w : World) (screenshot : string) (img_width img_height : Z)
         (section coords : json) (t : string) (x y width height : Z)
         (st : cropping),
    py_getitem section "type" = Ok (JStr t) ->
    py_getitem section "coordinates" = Ok coords ->
    read_coordinates coords = Ok (x, y, width, height) ->
    0 <= img_width -> 0 <= img_height ->
    img_width <= x \/ img_height <= y \/ width <= 0 \/ height <= 0 ->
    process_section w screenshot (img_width, img_height) section st
    = (Ok tt, st).
Proof.
  intros w screenshot img_width img_height section coords t x y width height
         st Ht Hc Hread Hw Hh Hout.
  unfold process_section, bind, gets, lift, generate_section_id, rbind.
  cbn [fst snd]. rewrite Ht, Hc. unfold on_self.
  rewrite (crop_section_image_unfold w screenshot (img_width, img_height)
             coords _ t x y width height (self st) Hread).
  unfold clamp_box. rewrite !py_min_spec, !py_max_spec.
  match goal with
  | |- context [if ?c then _ else _] => replace c with true
  end.
  - unfold ret. now destruct st.
  - symmetry. apply orb_true_iff. rewrite !Z.leb_le. lia.
Qed.

Lemma section_beyond_image_is_skipped_witness :
  process_section s1_world "screenshots/s1.png" (1000, 2000)
    (section_spec "a" "hero" (coordinates 1000 0 200 300))
    {| self := new_processor; section_counter := 1 |}
  = (Ok tt, {| self := new_processor; section_counter := 1 |}).
Proof.
  apply (section_beyond_image_is_skipped s1_world "screenshots/s1.png"
           1000 2000 _ (coordinates 1000 0 200 300) "hero" 1000 0 200 300);
    [reflexivity|reflexivity|reflexivity|lia|lia|lia].
Defined.

(** X11.  A screenshot that cannot be opened costs its annotation one logged
    error: no section of it is looked at, and the catalog, the saved files
    and the counter stay as they are. *)
Theorem unreadable_screenshot_logs_one_error :
  forall (w : World) (annotation source_image : json) (screenshot : string)
         (x : exn) (st : cropping),
    py_getitem annotation "screenshot_path" = Ok (JStr screenshot) ->
    py_getitem annotation "source_image" = Ok source_image ->
    image_open w screenshot = Raise x ->
    process_annotation w annotation st
    = (Ok tt,
       {| self := log_error (ErrorProcessing source_image x) (self st);
          section_counter := section_counter st |}).
Proof.
  intros w annotation source_image screenshot x st Hpath Hsrc Hopen.
  unfold process_annotation, try_except, bind, lift.
  rewrite Hpath, Hopen.
  destruct annotation as [| | | | |kv]; try discriminate.
  cbn [py_getitem py_get_default] in *.
  destruct (dict_get "source_image" kv) as [v|]; [|discriminate].
  injection Hsrc as ->. reflexivity.
Qed.

(** X12.  A section whose type is no string ends the work on its annotation:
    the sections before it are processed, the sections behind it are not
    looked at, and one error is logged. *)
Theorem bad_type_abandons_rest_of_annotation :
  forall (w : World) (annotation source_image type : json)
         (screenshot : string) (size : N * N)
         (before behind : list json) (bad : json) (st : cropping),
    py_getitem annotation "screenshot_path" = Ok (JStr screenshot) ->
    py_getitem annotation "source_image" = Ok source_image ->
    image_open w screenshot = Ok size ->
    py_getitem annotation "sections" = Ok (JList (before ++ bad :: behind)) ->
    py_getitem bad "type" = Ok type ->
    (forall s, type <> JStr s) ->
    let img_size := (Z.of_N (fst size), Z.of_N (snd size)) in
    fst (process_sections w screenshot img_size before st) = Ok tt ->
    let st1 := snd (process_sections w screenshot img_size before st) in
    process_annotation w annotation st
    = (Ok tt,
       {| self := log_error (ErrorProcessing source_image AttributeError)
                    (self st1);
          section_counter := section_counter st1 |}).
Proof.
  intros w annotation source_image type screenshot size before behind bad st
         Hpath Hsrc Hopen Hsec Hty Hbad img_size Hbefore st1.
  assert (Hloop : process_sections w screenshot img_size
                    (before ++ bad :: behind) st
                  = (Raise AttributeError, st1)).
  { subst st1. clear Hpath Hsrc Hopen Hsec. revert st Hbefore.
    induction before as [|s before IH]; intros st Hbefore.
    - cbn [app process_sections]. unfold bind.
      unfold process_section at 1.
      unfold bind, gets, lift, generate_section_id, rbind. cbn [fst snd].
      rewrite Hty. destruct type; try reflexivity.
      now contradiction (Hbad s).
    - cbn [app process_sections] in *. unfold bind in *.
      destruct (process_section w screenshot img_size s st) as [[u|x] st0];
        [|discriminate].
      now apply IH. }
  unfold process_annotation, try_except, bind, lift.
  rewrite Hpath, Hopen, Hsec. cbn [py_iter]. fold img_size. rewrite Hloop.
  destruct annotation as [| | | | |kv]; try discriminate.
  cbn [py_getitem py_get_default] in *.
  destruct (dict_get "source_image" kv) as [v|]; [|discriminate].
  injection Hsrc as ->. reflexivity.
Qed.

Lemma unreadable_screenshot_logs_one_error_witness :
  process_annotation dark_world
    (bound_annotation [section_spec "a" "hero" (coordinates 0 0 100 100)])
    start_of_cropping
  = (Ok tt,
     {| self := log_error (ErrorProcessing (JStr "shot.png") OSError)
                  new_processor;
        section_counter := 1 |}).
Proof.
  apply (unreadable_screenshot_logs_one_error dark_world
           (bound_annotation
              [section_spec "a" "hero" (coordinates 0 0 100 100)])
           (JStr "shot.png") (path_join screenshots_dir "shot.png") OSError
           start_of_cropping);
    reflexivity.
Defined.

Lemma bad_type_abandons_rest_of_annotation_witness :
  let st := snd (process_annotation s1_world
                   (bound_annotation
                      [section_spec "a" "hero" (coordinates 0 0 100 100);
                       JObj [("id", JStr "b"); ("type", JInt 3);
                             ("coordinates", coordinates 0 100 100 100)];
                       section_spec "c" "footer" (coordinates 0 200 100 100)])
                   start_of_cropping) in
  map section_unique_id (sections_catalog (self st)) = [Some "hero_0001"]
  /\ errors (self st) = [ErrorProcessing (JStr "shot.png") AttributeError]
  /\ section_counter st = 2.
Proof.
  rewrite (bad_type_abandons_rest_of_annotation s1_world
             (bound_annotation
                [section_spec "a" "hero" (coordinates 0 0 100 100);
                 JObj [("id", JStr "b"); ("type", JInt 3);
                       ("coordinates", coordinates 0 100 100 100)];
                 section_spec "c" "footer" (coordinates 0 200 100 100)])
             (JStr "shot.png") (JInt 3) (path_join screenshots_dir "shot.png")
             (1000%N, 2000%N)
             [section_spec "a" "hero" (coordinates 0 0 100 100)]
             [section_spec "c" "footer" (coordinates 0 200 100 100)]
             (JObj [("id", JStr "b"); ("type", JInt 3);
                    ("coordinates", coordinates 0 100 100 100)])
             start_of_cropping
             eq_refl eq_refl eq_refl eq_refl eq_refl
             (fun s H => eq_ind (JInt 3)
                           (fun v => match v with JInt _ => True | _ => False end)
                           I (JStr s) H)
             eq_refl).
  vm_compute. repeat split.
Defined.

(** ** A run without a valid record *)

(** X13.  The three ways a run can end before phase 2: the annotations
    directory is missing and the error is raised again; no record was
    accepted, and nothing is returned, cataloged or saved while every file
    has its error in the log; documents are returned only when a record
    was loaded. *)
Theorem run_without_valid_record :
  forall w : World,
    (annotation_files w = None ->
     run_full_processing w new_processor = (Raise OSError, new_processor))
    /\ (forall files,
          annotation_files w = Some files ->
          annotations (snd (load_annotations w new_processor)) = [] ->
          run_full_processing w new_processor = (Ok None, final_state w)
          /\ sections_catalog (final_state w) = []
          /\ saved_files (final_state w) = []
          /\ length (errors (final_state w)) = length files)
    /\ (forall arts,
          fst (run_full_processing w new_processor) = Ok (Some arts) ->
          annotations (final_state w) <> []).
Proof.
  intro w. split; [|split].
  - intro Hnone. unfold run_full_processing, load_annotations, bind.
    now rewrite Hnone.
  - intros files Hfiles Hempty.
    destruct (loads_only_load_annotations w new_processor) as (H1 & _ & H3).
    unfold final_state, run_full_processing, bind.
    unfold load_annotations in *. rewrite Hfiles in *.
    unfold bind, gets in *.
    destruct (load_files_outcome w files new_processor)
      as (Hr & na & ne & A & B & C & _).
    destruct (load_annotation_files w files new_processor) as [r p1].
    cbn [fst snd] in *. subst r. cbn [fst snd] in *.
    rewrite Hempty. cbn [ret fst snd].
    split; [reflexivity|]. split; [exact H1|]. split; [exact H3|].
    rewrite Hempty in A. cbn in A, B.
    destruct na; [|discriminate]. rewrite B. cbn in C. lia.
  - intros arts Hrun. unfold final_state.
    unfold run_full_processing, bind in *.
    destruct (load_annotations w new_processor) as [[anns|x] p1] eqn:Hload;
      [|discriminate].
    assert (Hanns : anns = annotations p1).
    { unfold load_annotations in Hload.
      destruct (annotation_files w); [|discriminate].
      unfold bind, gets in Hload.
      destruct (load_annotation_files w l new_processor) as [[u|x] p1'];
        [|discriminate].
      cbn in Hload. now injection Hload as <- <-. }
    destruct anns as [|a anns]; [discriminate|].
    pose proof (crop_sections_steps w p1) as Hsteps.
    apply crop_steps_monotone in Hsteps as (Ha & _). cbn [self] in Ha.
    assert (Hne : annotations (snd (crop_sections w p1)) <> [])
      by (rewrite Ha, <- Hanns; discriminate).
    destruct (crop_sections w p1) as [[u|x] p2]; cbn [snd] in *;
      [|exact Hne].
    unfold gets, lift, ret in *. cbn [fst snd] in *.
    destruct (analyze_patterns p2); cbn [snd]; [|exact Hne].
    destruct (generate_module_catalog p2); cbn [snd]; exact Hne.
Qed.

(** ** A run that returns its documents *)

Lemma result_map_ok {A B : Type} (f : A -> result B) (P : B -> Prop)
    (l : list A) :
  Forall (fun a => exists b, f a = Ok b /\ P b) l ->
  exists r, result_map f l = Ok r /\ Forall P r /\ length r = length l.
Proof.
  induction 1 as [|a l (b & Hb & HP) _ (r & Hr & HPr & Hlen)].
  - exists []. repeat split. constructor.
  - exists (b :: r). cbn [result_map]. rewrite Hb, Hr. cbn [rbind length].
    split; [reflexivity|]. split; [now constructor|now rewrite Hlen].
Qed.

Lemma sum_Z_bounds (l : list Z) (lo hi : Z) :
  Forall (fun a => lo <= a <= hi) l ->
  lo * Z.of_nat (length l) <= sum_Z l <= hi * Z.of_nat (length l).
Proof.
  induction 1 as [|a l Ha _ IH].
  - cbn. lia.
  - rewrite sum_Z_cons. cbn [length]. lia.
Qed.

Lemma read_coordinates_extent (coords : json) (x y width height : Z) :
  read_coordinates coords = Ok (x, y, width, height) ->
  exists jw jh,
    py_getitem coords "width" = Ok jw /\ py_int_value jw = Ok width
    /\ py_getitem coords "height" = Ok jh /\ py_int_value jh = Ok height.
Proof.
  unfold read_coordinates. intro H.
  destruct (py_getitem coords "x") as [jx|]; [|discriminate].
  destruct (py_getitem coords "y") as [jy|]; [|discriminate].
  destruct (py_getitem coords "width") as [jw|]; [|discriminate].
  destruct (py_getitem coords "height") as [jh|]; [|discriminate].
  cbn [rbind] in H.
  destruct (py_int_value jx) as [vx|]; [|discriminate].
  destruct (py_int_value jy) as [vy|]; [|discriminate].
  destruct (py_int_value jw) as [vw|] eqn:Hw; [|discriminate].
  destruct (py_int_value jh) as [vh|] eqn:Hh; [|discriminate].
  cbn [rbind] in H. injection H as <- <- <- <-.
  exists jw, jh. repeat split; assumption.
Qed.

Lemma aspect_ratio_returns (width height : Z) :
  1 <= width -> 1 <= height -> width * height <= 2 ^ 1023 ->
  exists ratio, aspect_ratio_of width height = Ok ratio.
Proof.
  intros Hw Hh Harea. unfold aspect_ratio_of.
  destruct (Z.ltb_spec 0 height); [|lia].
  rewrite py_truediv_finite; [cbn [rbind]; eauto|lia|].
  assert (0 < 2 ^ 1023) by (apply Z.pow_pos_nonneg; lia). nia.
Qed.

Lemma pattern_of_group_returns (group : list json) :
  Forall measurable group ->
  exists pat, pattern_of_group group = Ok pat.
Proof.
  intro Hall. unfold pattern_of_group.
  destruct (result_map_ok section_measure
              (fun m => 1 <= snd m <= 2 ^ 1023) group)
    as (ms & Hms & Hareas & Hlen).
  { eapply Forall_impl; [|exact Hall].
    intros e (t & id & wd & ht & ratio & _ & _ & Hm & Hb).
    eexists. split; [exact Hm|exact Hb]. }
  rewrite Hms. cbn [rbind].
  assert (Hbounds : Forall (fun a => 1 <= a <= 2 ^ 1023) (map snd ms)).
  { apply Forall_forall. intros a Ha.
    apply in_map_iff in Ha as (m & <- & Hm).
    rewrite Forall_forall in Hareas. now apply Hareas. }
  destruct (map snd ms) as [|a areas] eqn:Hmap; cbn [rbind]; [eauto|].
  pose proof (sum_Z_bounds _ _ _ Hbounds) as Hsum.
  rewrite py_truediv_finite; [cbn [rbind]; eauto|cbn [length]; lia|].
  cbn [length] in *. lia.
Qed.

Lemma measurable_groups_append (t : string) (e : json)
    (groups : dict (list json)) :
  measurable e ->
  Forall (fun g => Forall measurable (snd g)) groups ->
  Forall (fun g => Forall measurable (snd g)) (group_append t e groups).
Proof.
  intros He Hall. apply Forall_forall. intros [k g] Hin. cbn [snd].
  rewrite Forall_forall in Hall.
  destruct (in_group_append _ _ _ _ _ Hin) as [H|[[-> _]|(g' & H & ->)]].
  - apply (Hall _ H).
  - now constructor.
  - apply Forall_app. split; [apply (Hall _ H)|now constructor].
Qed.

(** Every module that phase 2 catalogs from modest sections can be read
    by the later phases. *)
Lemma crop_sections_measurable (w : World) (p : processor) :
  modest_sections p ->
  sections_catalog p = [] -> section_types p = [] ->
  let p' := snd (crop_sections w p) in
  Forall measurable (sections_catalog p')
  /\ Forall (fun g => Forall measurable (snd g)) (section_types p').
Proof.
  intros Hmodest Hcat Hgrp.
  apply (crop_sections_rule w
           (fun q => Forall measurable (sections_catalog q)
                     /\ Forall (fun g => Forall measurable (snd g))
                          (section_types q))).
  - intros shot size coords sid sty q Hq.
    destruct (saves_only_crop w shot size coords sid sty q)
      as (_ & -> & -> & _). exact Hq.
  - intros shot size section t coords counter q q' cf pd e
           [Hq1 Hq2] Hann Ht Hco Hcrop He.
    pose proof (saves_only_crop w shot size coords
                  (make_section_id t counter) t q) as Hs.
    rewrite Hcrop in Hs. destruct Hs as (_ & Hs1 & Hs2 & _).
    cbn [snd] in Hs1, Hs2.
    assert (Hm : measurable e).
    { destruct (crop_section_image_some _ _ _ _ _ _ _ _ _ Hcrop)
        as (x & y & wd & ht & x' & y' & wd' & ht' & Hread & Hclamp
            & Hw' & Hh' & _).
      assert (Hfrom : enriched_from e section) by (repeat eexists; exact He).
      destruct size as [iw ih]. unfold clamp_box in Hclamp.
      injection Hclamp as _ _ Hcw Hch.
      rewrite py_min_spec in Hcw, Hch.
      assert (Hwd : 1 <= wd) by lia. assert (Hht : 1 <= ht) by lia.
      pose proof (Hmodest section coords x y wd ht Hann Hco Hread) as Harea.
      destruct (aspect_ratio_returns wd ht Hwd Hht Harea) as (ratio & Hratio).
      destruct (read_coordinates_extent _ _ _ _ _ Hread)
        as (jw & jh & G1 & G2 & G3 & G4).
      destruct (enrich_inv _ _ _ _ _ _ He)
        as (kv & kv' & -> & -> & Hid & _ & _).
      exists t, (JStr (make_section_id t counter)), wd, ht, ratio.
      split; [now rewrite (enriched_type_tag _ _ Hfrom)|].
      split; [cbn [py_getitem]; now rewrite Hid|].
      split; [|nia].
      rewrite (enriched_measure _ _ Hfrom). unfold section_measure.
      rewrite Hco. cbn [rbind]. rewrite G1, G3. cbn [rbind].
      rewrite G2, G4. cbn [rbind]. rewrite Hratio. reflexivity. }
    cbn [catalog_section sections_catalog section_types].
    rewrite Hs1, Hs2. split.
    + apply Forall_app. split; [exact Hq1|now constructor].
    + now apply measurable_groups_append.
  - intros m q Hq. exact Hq.
  - rewrite Hcat, Hgrp. split; constructor.
Qed.

Lemma analyze_patterns_returns (p : processor) :
  Forall measurable (sections_catalog p) ->
  Forall (fun g => Forall measurable (snd g)) (section_types p) ->
  exists pats, analyze_patterns p = Ok pats.
Proof.
  intros Hcat Hgrp. unfold analyze_patterns.
  destruct (result_map_ok
              (fun g : string * list json =>
                 (pat <~ pattern_of_group (snd g) ;; Ok (fst g, pat))%result)
              (fun _ => True) (section_types p)) as (per & -> & _).
  { eapply Forall_impl; [|exact Hgrp].
    intros g Hg. destruct (pattern_of_group_returns _ Hg) as (pat & ->).
    cbn [rbind]. eauto. }
  destruct (result_map_ok section_type_tag (fun _ => True)
              (sections_catalog p)) as (tags & -> & _).
  { eapply Forall_impl; [|exact Hcat].
    intros e (t & _ & _ & _ & _ & Ht & _). eauto. }
  cbn [rbind]. eauto.
Qed.

Lemma generate_module_catalog_returns (p : processor) :
  Forall (fun g => Forall measurable (snd g)) (section_types p) ->
  exists cat, generate_module_catalog p = Ok cat.
Proof.
  intros Hgrp. unfold generate_module_catalog, index_of_groups.
  destruct (result_map_ok
              (fun g : string * list json =>
                 (ids <~ result_map (fun s => py_getitem s "unique_id") (snd g) ;;
                  Ok (fst g, ids))%result)
              (fun _ => True) (section_types p)) as (index & -> & _).
  { eapply Forall_impl; [|exact Hgrp].
    intros g Hg.
    destruct (result_map_ok (fun s => py_getitem s "unique_id")
                (fun _ => True) (snd g)) as (ids & -> & _).
    - eapply Forall_impl; [|exact Hg].
      intros e (_ & id & _ & _ & _ & _ & Hid & _). eauto.
    - cbn [rbind]. eauto. }
  cbn [rbind]. eauto.
Qed.

(** The handler of the outer loop returns when the annotation is a
    dict. *)
Lemma process_annotation_returns (w : World) (annotation : json)
    (st : cropping) :
  is_dict annotation = true ->
  fst (process_annotation w annotation st) = Ok tt.
Proof.
  intro Hd. unfold process_annotation, try_except.
  match goal with
  | |- context [match ?m st with _ => _ end] =>
      destruct (m st) as [[[]|x] st1]
  end; [reflexivity|].
  destruct annotation; try discriminate. unfold bind, lift.
  cbn [py_get_default]. now destruct (dict_get "source_image" kv).
Qed.

Lemma process_annotations_return (w : World) (anns : list json) :
  forallb is_dict anns = true ->
  forall st, fst (process_annotations w anns st) = Ok tt.
Proof.
  induction anns as [|a anns IH]; intros Hd st; [reflexivity|].
  cbn [forallb] in Hd. apply andb_true_iff in Hd as [Ha Hd].
  cbn [process_annotations]. unfold bind.
  pose proof (process_annotation_returns w a st Ha) as Hr.
  destruct (process_annotation w a st) as [[[]|x] st1]; [|discriminate].
  now apply IH.
Qed.

Lemma loaded_annotations_are_dicts (w : World) :
  forallb is_dict (annotations (snd (load_annotations w new_processor)))
  = true.
Proof.
  apply forallb_forall. intros a Ha.
  destruct (loaded_state w) as (_ & _ & H).
  destruct (H a Ha) as (files & name & record & kv & src & path & _ & _ & _
                        & _ & _ & _ & ->).
  reflexivity.
Qed.

(** X14.  A run in which a record was loaded and no annotated section has an
    area beyond [2^1023] returns its three documents: phase 2 catches what
    the croppings raise, and the later phases can read every module that
    was cataloged. *)
Theorem run_returns_documents :
  forall w : World,
    annotations (snd (load_annotations w new_processor)) <> [] ->
    modest_sections (snd (load_annotations w new_processor)) ->
    exists arts,
      run_full_processing w new_processor = (Ok (Some arts), final_state w).
Proof.
  intros w Hne Hmodest.
  pose proof (loaded_annotations_are_dicts w) as Hdicts.
  destruct (loaded_state w) as (Hcat & _ & _).
  destruct (loads_only_load_annotations w new_processor) as (_ & Hgrp & _).
  cbn [section_types new_processor] in Hgrp.
  pose proof (crop_sections_measurable w _ Hmodest Hcat Hgrp) as [M1 M2].
  unfold final_state, run_full_processing, bind.
  assert (Hload : fst (load_annotations w new_processor)
                  = Ok (annotations (snd (load_annotations w new_processor)))).
  { unfold load_annotations in *.
    destruct (annotation_files w) as [files|]; [|now contradiction Hne].
    unfold bind, gets.
    pose proof (load_files_outcome w files new_processor) as [Hr _].
    destruct (load_annotation_files w files new_processor) as [[u|x] p1];
      [reflexivity|discriminate]. }
  destruct (load_annotations w new_processor) as [r p1].
  cbn [fst snd] in *. subst r.
  destruct (annotations p1) as [|a anns] eqn:Hanns; [now contradiction Hne|].
  rewrite <- Hanns in Hdicts.
  assert (Hcrop : fst (crop_sections w p1) = Ok tt).
  { unfold crop_sections.
    pose proof (process_annotations_return w (annotations p1) Hdicts
                  {| self := p1; section_counter := 1 |}) as Hr.
    now destruct (process_annotations w (annotations p1)
                    {| self := p1; section_counter := 1 |}). }
  destruct (crop_sections w p1) as [r p2]. cbn [fst snd] in *. subst r.
  destruct (analyze_patterns_returns p2 M1 M2) as (pats & Hp).
  destruct (generate_module_catalog_returns p2 M2) as (cat & Hc).
  unfold gets, lift, ret. cbn [fst snd]. rewrite Hp, Hc. cbn [snd].
  eexists. reflexivity.
Qed.

Lemma run_returns_documents_witness :
  exists arts,
    run_full_processing s1_world new_processor
    = (Ok (Some arts), final_state s1_world).
Proof.
  apply (run_returns_documents s1_world).
  - vm_compute. discriminate.
  - intros section coords x y width height
           (a & listed & sections & Ha & Hl & Hi & Hin) Hco Hread.
    vm_compute in Ha. destruct Ha as [<-|[]].
    vm_compute in Hl. injection Hl as <-.
    vm_compute in Hi. injection Hi as <-.
    destruct Hin as [<-|[]].
    vm_compute in Hco. injection Hco as <-.
    vm_compute in Hread. injection Hread as <- <- <- <-.
    vm_compute. discriminate.
Defined.

(** ** The resize of a crop that fits, and of one that does not *)

Local Open Scope Q_scope.

Lemma inject_Z_pos (n : Z) : (1 <= n)%Z -> 1 <= inject_Z n.
Proof. intro H. change 1 with (inject_Z 1). now rewrite <- Zle_Qle. Qed.

Lemma truediv_at_least_one (m n : Z) :
  (1 <= n)%Z -> (n <= m)%Z -> (m <= 2 ^ 31)%Z ->
  exists a, py_truediv m n = Ok a /\ 1 <= a /\ a < 2 ^ 53.
Proof.
  intros Hn Hnm Hm.
  destruct (py_truediv_bound m n ltac:(lia)) as (a & Ha & _ & _ & Hup).
  { split; [lia|]. assert (2 ^ 31 < 2 ^ 53)%Z by reflexivity. lia. }
  exists a. split; [exact Ha|].
  pose proof (inject_Z_pos n Hn) as HN.
  assert (HNM : inject_Z n <= inject_Z m) by now rewrite <- Zle_Qle.
  assert (HM : inject_Z m <= 2 ^ 31).
  { rewrite <- pow2_inject by lia. now rewrite <- Zle_Qle. }
  set (q := inject_Z m / inject_Z n) in *.
  assert (Hq1 : 1 <= q).
  { unfold q. apply Qle_shift_div_l; lra. }
  assert (Hq2 : q <= 2 ^ 31).
  { unfold q. apply Qle_shift_div_r; [lra|].
    assert (0 < 2 ^ 31) by apply pow2_pos. nra. }
  assert (H31 : 2 ^ 31 < 2 ^ 52) by reflexivity.
  assert (H52 : 2 ^ 52 < 2 ^ 53) by reflexivity.
  assert (Ha' : a = round64 q).
  { unfold py_truediv in Ha. destruct (n =? 0)%Z; [discriminate|].
    fold q in Ha. destruct (overflows (round64 q)); [discriminate|].
    now injection Ha. }
  destruct (round64_integer_sandwich q 1 ltac:(lra) ltac:(lra)) as [Hlow _].
  change (inject_Z 1) with 1 in Hlow.
  split; [rewrite Ha'; now apply Hlow|].
  change (2 ^ (-53)) with (1 # 9007199254740992) in Hup.
  change (2 ^ 31) with (2147483648 # 1) in *.
  change (2 ^ 53) with (9007199254740992 # 1).
  nra.
Qed.

Lemma scale_of_fitting_crop (width height max_width max_height : Z) :
  (1 <= width)%Z -> (width <= max_width)%Z -> (max_width <= 2 ^ 31)%Z ->
  (1 <= height)%Z -> (height <= max_height)%Z -> (max_height <= 2 ^ 31)%Z ->
  exists scale,
    float_scale (width, height) (max_width, max_height) = Ok scale
    /\ scale == 1.
Proof.
  intros Hw1 Hw2 Hw3 Hh1 Hh2 Hh3.
  destruct (truediv_at_least_one max_width width Hw1 Hw2 Hw3)
    as (a & Ha & Ha1 & _).
  destruct (truediv_at_least_one max_height height Hh1 Hh2 Hh3)
    as (b & Hb & Hb1 & _).
  unfold float_scale. cbn [fst snd]. rewrite Ha, Hb. cbn [rbind].
  eexists. split; [reflexivity|].
  destruct (py_min_float_spec a b) as (Hab & _ & _).
  destruct (py_min_float_spec (py_min_float a b) 1) as (Hs & Hs1 & Hs2).
  assert (Hm : 1 <= py_min_float a b) by (destruct Hab as [->| ->]; assumption).
  set (m := py_min_float a b) in *. set (s := py_min_float m 1) in *.
  apply Qle_antisym; [exact Hs2|].
  destruct Hs as [->| ->]; [exact Hm|apply Qle_refl].
Qed.

(** X15.  A crop that fits into the bound is not scaled: the derivative has the
    size of the crop. *)
Theorem resize_keeps_fitting_crop :
  forall (width height max_width max_height : Z),
    (1 <= width <= max_width)%Z -> (1 <= height <= max_height)%Z ->
    (max_width <= 2 ^ 31)%Z -> (max_height <= 2 ^ 31)%Z ->
    calculate_resize (width, height) (max_width, max_height)
    = Ok (width, height).
Proof.
  intros width height max_width max_height [Hw1 Hw2] [Hh1 Hh2] Hmw Hmh.
  assert (H3153 : (2 ^ 31 < 2 ^ 53)%Z) by reflexivity.
  destruct (calculate_resize_spec width height max_width max_height
              ltac:(lia) ltac:(lia) ltac:(lia) ltac:(lia))
    as (scale & nw & nh & Hfs & Hcalc & _ & _ & _ & _ & [A1 A2] & [B1 B2]).
  destruct (scale_of_fitting_crop width height max_width max_height
              Hw1 Hw2 Hmw Hh1 Hh2 Hmh) as (scale' & Hfs' & Hone).
  rewrite Hfs in Hfs'. injection Hfs' as <-.
  rewrite Hone, Qmult_1_r in A1, A2, B1, B2.
  rewrite Hcalc. f_equal.
  assert (E1 : (nw - 1 < width < nw + 1)%Z).
  { split; rewrite Zlt_Qlt; [unfold Z.sub|]; rewrite inject_Z_plus.
    - change (inject_Z (Z.opp 1)) with (Qopp 1). lra.
    - change (inject_Z 1) with 1. lra. }
  assert (E2 : (nh - 1 < height < nh + 1)%Z).
  { split; rewrite Zlt_Qlt; [unfold Z.sub|]; rewrite inject_Z_plus.
    - change (inject_Z (Z.opp 1)) with (Qopp 1). lra.
    - change (inject_Z 1) with 1. lra. }
  f_equal; lia.
Qed.

Lemma resize_keeps_fitting_crop_witness :
  calculate_resize (180, 120)%Z (200, 150)%Z = Ok (180, 120)%Z.
Proof.
  apply (resize_keeps_fitting_crop 180 120 200 150); lia.
Defined.

Lemma exact_scale_of_limit (width height max_width max_height : Z) :
  (1 <= width)%Z -> (1 <= height)%Z ->
  (1 <= max_width)%Z -> (1 <= max_height)%Z ->
  (max_width <= width)%Z ->
  (height * max_width <= width * max_height)%Z ->
  inject_Z width * exact_scale (width, height) (max_width, max_height)
  == inject_Z max_width.
Proof.
  intros Hw Hh Hmw Hmh Hlim Hwide.
  pose proof (inject_Z_pos width Hw) as HW.
  pose proof (inject_Z_pos height Hh) as HH.
  pose proof (inject_Z_pos max_width Hmw) as HMW.
  pose proof (inject_Z_pos max_height Hmh) as HMH.
  assert (HL : inject_Z max_width <= inject_Z width)
    by now rewrite <- Zle_Qle.
  assert (HWide : inject_Z height * inject_Z max_width
                  <= inject_Z width * inject_Z max_height).
  { rewrite <- !inject_Z_mult. now rewrite <- Zle_Qle. }
  unfold exact_scale. cbn [fst snd].
  set (W := inject_Z width) in *. set (H := inject_Z height) in *.
  set (MW := inject_Z max_width) in *. set (MH := inject_Z max_height) in *.
  assert (H12 : MW / W <= MH / H).
  { apply Qle_shift_div_l; [lra|].
    setoid_replace (MW / W * H) with (H * MW / W) by (field; lra).
    apply Qle_shift_div_r; [lra|]. lra. }
  assert (H1 : MW / W <= 1) by (apply Qle_shift_div_r; lra).
  rewrite (Q.min_l _ _ H12), (Q.min_l _ _ H1). field. lra.
Qed.

(** X16.  The dimension that limits a crop comes out as its bound or as one
    less: the product of the dimension and the rounded scale can fall just
    below the bound, and [int] truncates. *)
Theorem resize_limiting_dimension :
  forall (width height max_width max_height : Z),
    (1 <= width < 2 ^ 53)%Z -> (1 <= height < 2 ^ 53)%Z ->
    (1 <= max_width <= 2 ^ 31)%Z -> (1 <= max_height <= 2 ^ 31)%Z ->
    exists new_width new_height,
      calculate_resize (width, height) (max_width, max_height)
      = Ok (new_width, new_height)
      /\ ((max_width <= width)%Z ->
          (height * max_width <= width * max_height)%Z ->
          (max_width - 1 <= new_width <= max_width)%Z)
      /\ ((max_height <= height)%Z ->
          (width * max_height <= height * max_width)%Z ->
          (max_height - 1 <= new_height <= max_height)%Z).
Proof.
  intros width height max_width max_height Hw Hh Hmw Hmh.
  destruct (calculate_resize_spec width height max_width max_height
              Hw Hh Hmw Hmh)
    as (scale & nw & nh & _ & Hcalc & _ & [Hlow _] & [Bw _] & [Bh _]
        & [_ A2] & [_ B2]).
  exists nw, nh. split; [exact Hcalc|].
  pose proof (inject_Z_pos width ltac:(lia)) as HW.
  pose proof (inject_Z_pos height ltac:(lia)) as HH.
  change (2 ^ (-53)) with (1 # 9007199254740992) in Hlow.
  assert (Hstep : forall d m n : Z,
             (1 <= m <= 2 ^ 31)%Z ->
             1 <= inject_Z d ->
             inject_Z d * scale < inject_Z n + 1 ->
             inject_Z d
             * (exact_scale (width, height) (max_width, max_height)
                * (1 - (1 # 9007199254740992)))
             <= inject_Z d * scale ->
             inject_Z d * exact_scale (width, height) (max_width, max_height)
             == inject_Z m ->
             (m - 1 <= n)%Z).
  { intros d m n [Hm1 Hm2] Hd Hn Hsc Hex.
    assert (HM : inject_Z m <= 2147483648 # 1).
    { change (2147483648 # 1) with (inject_Z (2 ^ 31)).
      now rewrite <- Zle_Qle. }
    assert (Hlt : inject_Z m - 2 < inject_Z n).
    { set (E := exact_scale (width, height) (max_width, max_height)) in *.
      assert (inject_Z d * (E * (1 - (1 # 9007199254740992)))
              == inject_Z m * (1 - (1 # 9007199254740992)))
        by (rewrite <- Hex; ring).
      lra. }
    assert (Hz : (m - 2 < n)%Z).
    { rewrite Zlt_Qlt. unfold Z.sub. rewrite inject_Z_plus.
      change (inject_Z (Z.opp 2)) with (Qopp 2). lra. }
    lia. }
  split.
  - intros Hlim Hwide. split; [|lia].
    apply (Hstep width max_width nw Hmw HW A2).
    + apply Qmult_le_l; [lra|exact Hlow].
    + apply exact_scale_of_limit; lia.
  - intros Hlim Hwide. split; [|lia].
    apply (Hstep height max_height nh Hmh HH B2).
    + apply Qmult_le_l; [lra|exact Hlow].
    + pose proof (exact_scale_of_limit height width max_height max_width
                    ltac:(lia) ltac:(lia) ltac:(lia) ltac:(lia) Hlim Hwide)
        as Hex.
      unfold exact_scale in *. cbn [fst snd] in *.
      rewrite (Q.min_comm (inject_Z max_width / inject_Z width)). exact Hex.
Qed.

Lemma resize_limiting_dimension_witness :
  calculate_resize (400, 582)%Z (400, 300)%Z = Ok (206, 299)%Z
  /\ exists new_width new_height,
       calculate_resize (400, 582)%Z (400, 300)%Z = Ok (new_width, new_height)
       /\ (299 <= new_height <= 300)%Z.
Proof.
  split; [vm_compute; reflexivity|].
  destruct (resize_limiting_dimension 400 582 400 300
              ltac:(lia) ltac:(lia) ltac:(lia) ltac:(lia))
    as (nw & nh & Hcalc & _ & Hh).
  exists nw, nh. split; [exact Hcalc|]. apply Hh; lia.
Defined.

Local Close Scope Q_scope.

(** ** Counters and their most common entries *)

Lemma ordered_pairs_snoc {A : Type} (R : A -> A -> Prop) (l : list A)
    (x : A) :
  ForallOrdPairs R l -> Forall (fun a => R a x) l ->
  ForallOrdPairs R (l ++ [x]).
Proof.
  induction 1 as [|a l Ha _ IH]; intro Hx; cbn [app].
  - repeat constructor.
  - inversion Hx as [|? ? Hax Hlx]; subst. constructor.
    + apply Forall_app. split; [exact Ha|now constructor].
    + now apply IH.
Qed.

Lemma ordered_pairs_behind {A : Type} (R : A -> A -> Prop) (l1 l2 : list A)
    (a : A) :
  ForallOrdPairs R (l1 ++ a :: l2) -> Forall (R a) l2.
Proof.
  induction l1 as [|b l1 IH]; cbn [app]; intro H;
    inversion H as [|? ? Hhd Htl]; subst; [exact Hhd|now apply IH].
Qed.

Lemma ordered_pairs_same_keys {A B : Type} (f : A -> B)
    (R : B -> B -> Prop) (l l' : list A) :
  map f l = map f l' ->
  ForallOrdPairs (fun a b => R (f a) (f b)) l ->
  ForallOrdPairs (fun a b => R (f a) (f b)) l'.
Proof.
  revert l'. induction l as [|a l IH]; intros [|a' l'] Hmap H;
    try discriminate; [constructor|].
  cbn [map] in Hmap. injection Hmap as Ha Hl.
  inversion H as [|? ? Hhd Htl]; subst. constructor; [|now apply IH].
  rewrite <- Ha.
  assert (Hk : Forall (fun b => R (f a) b) (map f l')).
  { rewrite <- Hl. apply Forall_forall. intros b Hb.
    apply in_map_iff in Hb as (x & <- & Hx).
    rewrite Forall_forall in Hhd. now apply Hhd. }
  apply Forall_forall. intros x Hx. rewrite Forall_forall in Hk.
  apply Hk, in_map, Hx.
Qed.

Section Counting.
Context {K : Type} (eqb : K -> K -> bool).
Hypothesis eqb_refl : forall k, eqb k k = true.
Hypothesis eqb_sym : forall a b, eqb a b = eqb b a.
Hypothesis eqb_trans :
  forall a b c, eqb a b = true -> eqb b c = true -> eqb a c = true.

Lemma counter_of_snoc (items : list K) (x : K) :
  counter_of eqb (items ++ [x]) = counter_add eqb x (counter_of eqb items).
Proof. unfold counter_of. now rewrite fold_left_app. Qed.

Lemma occurrences_snoc (k x : K) (items : list K) :
  occurrences eqb k (items ++ [x])
  = occurrences eqb k items + (if eqb k x then 1 else 0).
Proof.
  unfold occurrences. rewrite filter_app, length_app. cbn [filter].
  destruct (eqb k x); cbn [length]; lia.
Qed.

(** The two ways [counter_add] goes: the first entry with an equal key is
    incremented, or a new entry is appended. *)
Lemma counter_add_cases (x : K) (c : list (K * Z)) :
  (exists c1 k n c2,
     c = c1 ++ (k, n) :: c2
     /\ eqb k x = true
     /\ Forall (fun kn => eqb (fst kn) x = false) c1
     /\ counter_add eqb x c = c1 ++ (k, n + 1) :: c2)
  \/ (Forall (fun kn => eqb (fst kn) x = false) c
      /\ counter_add eqb x c = c ++ [(x, 1)]).
Proof.
  induction c as [|[k n] c IH]; cbn [counter_add].
  - right. split; constructor.
  - destruct (eqb k x) eqn:E.
    + left. exists [], k, n, c.
      split; [reflexivity|]. split; [exact E|].
      split; [constructor|reflexivity].
    + destruct IH as [(c1 & k' & n' & c2 & -> & Hk & Hc1 & ->)|[Hc ->]].
      * left. exists ((k, n) :: c1), k', n', c2.
        split; [reflexivity|]. split; [exact Hk|].
        split; [now constructor|reflexivity].
      * right. split; [now constructor|reflexivity].
Qed.

Lemma counted_add (items : list K) (x : K) (c : list (K * Z)) :
  counted eqb items c -> counted eqb (items ++ [x]) (counter_add eqb x c).
Proof.
  intros (Hcounts & Hdist & Hall & Hsum).
  assert (Hkeep : forall kn,
             eqb (fst kn) x = false ->
             snd kn = occurrences eqb (fst kn) items
             /\ 0 < snd kn /\ In (fst kn) items ->
             snd kn = occurrences eqb (fst kn) (items ++ [x])
             /\ 0 < snd kn /\ In (fst kn) (items ++ [x])).
  { intros kn Hne (H1 & H2 & H3). rewrite occurrences_snoc, Hne.
    split; [lia|]. split; [exact H2|]. apply in_or_app. now left. }
  destruct (counter_add_cases x c)
    as [(c1 & k & n & c2 & -> & Hk & Hc1 & ->)|[Hc ->]].
  - apply Forall_app in Hcounts as [Hcounts1 Hcounts2].
    inversion Hcounts2 as [|? ? (Hn1 & Hn2 & Hn3) Hcounts3]; subst.
    cbn [fst snd] in *.
    assert (Hc2 : Forall (fun kn => eqb (fst kn) x = false) c2).
    { pose proof (ordered_pairs_behind _ _ _ _ Hdist) as Hbehind.
      cbn [fst] in Hbehind.
      eapply Forall_impl; [|exact Hbehind]. intros kn Hkn.
      destruct (eqb (fst kn) x) eqn:E; [|reflexivity].
      cbv beta in Hkn. rewrite <- Hkn. symmetry.
      apply (eqb_trans k x (fst kn)); [exact Hk|].
      now rewrite eqb_sym. }
    split; [|split; [|split]].
    + apply Forall_app. split.
      * rewrite Forall_forall in *. intros kn Hin.
        apply Hkeep; [now apply Hc1|now apply Hcounts1].
      * constructor.
        -- cbn [fst snd]. rewrite occurrences_snoc, Hk.
           split; [lia|]. split; [lia|]. apply in_or_app. now left.
        -- rewrite Forall_forall in *. intros kn Hin.
           apply Hkeep; [now apply Hc2|now apply Hcounts3].
    + unfold distinct_keys in *.
      apply (ordered_pairs_same_keys fst (fun a b => eqb a b = false)
               (c1 ++ (k, n) :: c2)); [|exact Hdist].
      now rewrite !map_app.
    + intros y Hy. apply in_app_or in Hy as [Hy|[<-|[]]].
      * destruct (Hall y Hy) as (kn & Hin & Hkn).
        apply in_app_or in Hin as [Hin|[<-|Hin]].
        -- exists kn. split; [apply in_or_app; now left|exact Hkn].
        -- exists (k, n + 1). split; [|exact Hkn].
           apply in_or_app. right. now left.
        -- exists kn. split; [|exact Hkn].
           apply in_or_app. right. now right.
      * exists (k, n + 1). split; [|exact Hk].
        apply in_or_app. right. now left.
    + rewrite map_app in *. cbn [map snd] in *.
      rewrite sum_Z_app, sum_Z_cons in *. rewrite length_app. cbn [length].
      lia.
  - split; [|split; [|split]].
    + apply Forall_app. split.
      * rewrite Forall_forall in *. intros kn Hin.
        apply Hkeep; [now apply Hc|now apply Hcounts].
      * constructor; [|constructor]. cbn [fst snd].
        rewrite occurrences_snoc, eqb_refl.
        assert (Hzero : occurrences eqb x items = 0).
        { unfold occurrences.
          destruct (filter (eqb x) items) as [|y l] eqn:Hf; [reflexivity|].
          assert (Hy : In y (filter (eqb x) items))
            by (rewrite Hf; now left).
          apply filter_In in Hy as [Hy Hxy].
          destruct (Hall y Hy) as (kn & Hin & Hkn).
          rewrite Forall_forall in Hc. specialize (Hc kn Hin).
          rewrite (eqb_trans (fst kn) y x) in Hc; [discriminate|exact Hkn|].
          now rewrite eqb_sym. }
        rewrite Hzero. split; [lia|]. split; [lia|].
        apply in_or_app. right. now left.
    + unfold distinct_keys in *. apply ordered_pairs_snoc; [exact Hdist|].
      eapply Forall_impl; [|exact Hc]. intros kn H. exact H.
    + intros y Hy. apply in_app_or in Hy as [Hy|[<-|[]]].
      * destruct (Hall y Hy) as (kn & Hin & Hkn).
        exists kn. split; [apply in_or_app; now left|exact Hkn].
      * exists (x, 1). split; [|apply eqb_refl].
        apply in_or_app. right. now left.
    + rewrite map_app, sum_Z_app, length_app. cbn. lia.
Qed.

Lemma counter_of_counted (items : list K) :
  counted eqb items (counter_of eqb items).
Proof.
  induction items as [|x items IH] using rev_ind.
  - split; [constructor|]. split; [constructor|].
    split; [intros x []|reflexivity].
  - rewrite counter_of_snoc. now apply counted_add.
Qed.
End Counting.

Lemma insert_by_count_permutation {K : Type} (x : K * Z)
    (sorted : list (K * Z)) :
  Permutation (insert_by_count x sorted) (x :: sorted).
Proof.
  induction sorted as [|y rest IH]; cbn [insert_by_count].
  - reflexivity.
  - destruct (snd y <? snd x); [reflexivity|].
    rewrite IH. apply perm_swap.
Qed.

Lemma insert_by_count_sorted {K : Type} (x : K * Z)
    (sorted : list (K * Z)) :
  Sorted by_count sorted -> Sorted by_count (insert_by_count x sorted).
Proof.
  induction 1 as [|y rest Hrest IH Hhd]; cbn [insert_by_count].
  - repeat constructor.
  - destruct (Z.ltb_spec (snd y) (snd x)) as [Hlt|Hge].
    + constructor; [now constructor|]. constructor. unfold by_count. lia.
    + constructor; [exact IH|].
      destruct rest as [|z rest]; cbn [insert_by_count].
      * constructor. exact Hge.
      * destruct (snd z <? snd x); constructor; [exact Hge|].
        now inversion Hhd.
Qed.

Lemma sorted_by_count {K : Type} (c : list (K * Z)) :
  forall acc,
    Sorted by_count acc ->
    Sorted by_count (fold_left (fun s x => insert_by_count x s) c acc)
    /\ Permutation (fold_left (fun s x => insert_by_count x s) c acc)
         (acc ++ c).
Proof.
  induction c as [|x c IH]; intros acc Hacc; cbn [fold_left].
  - rewrite app_nil_r. now split.
  - destruct (IH (insert_by_count x acc) (insert_by_count_sorted x acc Hacc))
      as [Hs Hp].
    split; [exact Hs|]. rewrite Hp, insert_by_count_permutation.
    apply Permutation_middle.
Qed.

Lemma by_count_transitive {K : Type} :
  Relations_1.Transitive (@by_count K).
Proof. intros a b c. unfold by_count. lia. Qed.

(** The facts on a counter and its most common entries, in one place. *)
Lemma most_common_of_counter :
  forall (K : Type) (eqb : K -> K -> bool),
    (forall k, eqb k k = true) ->
    (forall a b, eqb a b = eqb b a) ->
    (forall a b c, eqb a b = true -> eqb b c = true -> eqb a c = true) ->
    forall (items : list K) (n : nat),
      let c := counter_of eqb items in
      let top := most_common n c in
      counted eqb items c
      /\ length top = Nat.min n (length c)
      /\ Sorted by_count top
      /\ exists rest,
           Permutation c (top ++ rest)
           /\ forall a b, In a top -> In b rest -> snd b <= snd a.
Proof.
  intros K eqb Hrefl Hsym Htrans items n c top.
  split; [now apply counter_of_counted|].
  subst top. unfold most_common.
  destruct (sorted_by_count c [] (Sorted_nil _)) as [Hs Hp].
  cbn [app] in Hp.
  set (s := fold_left (fun s x => insert_by_count x s) c []) in *.
  split; [rewrite length_firstn; now rewrite (Permutation_length Hp)|].
  apply Sorted_StronglySorted in Hs; [|apply by_count_transitive].
  rewrite <- (firstn_skipn n s) in Hs, Hp.
  split.
  - apply StronglySorted_Sorted.
    clear Hp. revert Hs. generalize (skipn n s).
    induction (firstn n s) as [|a l IH]; intros r Hs; [constructor|].
    cbn [app] in Hs. inversion Hs as [|? ? Htl Hhd]; subst.
    constructor; [now apply (IH r)|].
    apply Forall_app in Hhd as [Hhd _]. exact Hhd.
  - exists (skipn n s). split; [now symmetry|].
    clear Hp. revert Hs. generalize (skipn n s).
    induction (firstn n s) as [|a l IH]; intros r Hs x y Hx Hy;
      [destruct Hx|].
    cbn [app] in Hs. inversion Hs as [|? ? Htl Hhd]; subst.
    destruct Hx as [<-|Hx]; [|now apply (IH r)].
    rewrite Forall_forall in Hhd. apply Hhd, in_or_app. now right.
Qed.

(** X17.  The counter of a list and its [n] most common entries.  Every entry
    counts the items equal to its key; the keys are items and no two of
    them are equal; the counts add up to the number of items.  The most
    common entries are [n] entries of the counter, or all of them when
    there are fewer, in an order in which the count does not go up, and no
    entry left out has a greater count than one that was taken. *)
Theorem counter_most_common_spec :
  forall (K : Type) (eqb : K -> K -> bool),
    (forall k, eqb k k = true) ->
    (forall a b, eqb a b = eqb b a) ->
    (forall a b c, eqb a b = true -> eqb b c = true -> eqb a c = true) ->
    forall (items : list K) (n : nat),
      let c := counter_of eqb items in
      let top := most_common n c in
      counted eqb items c
      /\ length top = Nat.min n (length c)
      /\ Sorted by_count top
      /\ exists rest,
           Permutation c (top ++ rest)
           /\ forall a b, In a top -> In b rest -> snd b <= snd a.
Proof. exact most_common_of_counter. Qed.

Lemma string_eqb_transitive (a b c : string) :
  String.eqb a b = true -> String.eqb b c = true -> String.eqb a c = true.
Proof. rewrite !String.eqb_eq. congruence. Qed.

Lemma counter_most_common_spec_witness :
  most_common 1 (counter_of String.eqb ["hero"; "footer"; "hero"])
  = [("hero", 2)]
  /\ Sorted by_count
       (most_common 1 (counter_of String.eqb ["hero"; "footer"; "hero"])).
Proof.
  split; [reflexivity|].
  apply (counter_most_common_spec string String.eqb String.eqb_refl
           String.eqb_sym string_eqb_transitive
           ["hero"; "footer"; "hero"] 1%nat).
Defined.

(** ** The area range of a type group *)

Lemma fold_min_spec (l : list Z) :
  forall a,
    (fold_left py_min l a = a \/ In (fold_left py_min l a) l)
    /\ fold_left py_min l a <= a
    /\ Forall (fun b => fold_left py_min l a <= b) l.
Proof.
  induction l as [|b l IH]; intro a; cbn [fold_left].
  - split; [now left|]. split; [lia|constructor].
  - destruct (IH (py_min a b)) as (H1 & H2 & H3).
    rewrite py_min_spec in *.
    split; [|split; [lia|constructor; [lia|exact H3]]].
    destruct H1 as [H1|H1]; [|right; now right].
    destruct (Z.min_spec a b) as [[_ E]|[_ E]]; rewrite E in *.
    + now left.
    + right. left. now symmetry.
Qed.

Lemma fold_max_spec (l : list Z) :
  forall a,
    (fold_left py_max l a = a \/ In (fold_left py_max l a) l)
    /\ a <= fold_left py_max l a
    /\ Forall (fun b => b <= fold_left py_max l a) l.
Proof.
  induction l as [|b l IH]; intro a; cbn [fold_left].
  - split; [now left|]. split; [lia|constructor].
  - destruct (IH (py_max a b)) as (H1 & H2 & H3).
    rewrite py_max_spec in *.
    split; [|split; [lia|constructor; [lia|exact H3]]].
    destruct H1 as [H1|H1]; [|right; now right].
    destruct (Z.max_spec a b) as [[_ E]|[_ E]]; rewrite E in *.
    + right. left. now symmetry.
    + now left.
Qed.

(** X18.  The pattern of a group that is not empty: its count is the size of
    the group, every area of the group lies between the two ends of the
    size range, both ends are areas of the group, and the average is the
    rounded quotient of their sum and their number. *)
Theorem pattern_area_range :
  forall (group : list json) (pat : type_pattern),
    group <> [] ->
    pattern_of_group group = Ok pat ->
    exists measures,
      result_map section_measure group = Ok measures
      /\ length measures = length group
      /\ count pat = Z.of_nat (length group)
      /\ Forall (fun m => min_area pat <= snd m <= max_area pat) measures
      /\ In (min_area pat) (map snd measures)
      /\ In (max_area pat) (map snd measures)
      /\ py_truediv (sum_Z (map snd measures)) (Z.of_nat (length group))
         = Ok (pynum_value (avg_area pat)).
Proof.
  intros group pat Hne Hpat. unfold pattern_of_group in Hpat.
  destruct (result_map section_measure group) as [ms|] eqn:Hms;
    [|discriminate].
  cbn [rbind] in Hpat.
  pose proof (result_map_Forall2 _ _ _ Hms) as Hlen.
  apply Forall2_length in Hlen.
  exists ms. split; [reflexivity|]. split; [now symmetry|].
  destruct ms as [|m ms]; [destruct group; [contradiction|discriminate]|].
  cbn [map] in Hpat.
  destruct (py_truediv (sum_Z (snd m :: map snd ms))
              (Z.of_nat (length (snd m :: map snd ms)))) as [q|] eqn:Hq;
    [|discriminate].
  cbn [rbind] in Hpat. injection Hpat as <-.
  cbn [count min_area max_area avg_area pynum_value min_Z max_Z map].
  destruct (fold_min_spec (map snd ms) (snd m)) as (A1 & A2 & A3).
  destruct (fold_max_spec (map snd ms) (snd m)) as (B1 & B2 & B3).
  split; [reflexivity|]. split; [|split; [|split]].
  - constructor; [lia|].
    rewrite Forall_forall in *. intros x Hx.
    split; [apply A3|apply B3]; now apply in_map.
  - destruct A1 as [->|A1]; [now left|now right].
  - destruct B1 as [->|B1]; [now left|now right].
  - rewrite <- Hq. cbn [length]. now rewrite length_map, Hlen.
Qed.

Lemma pattern_area_range_witness :
  exists pat,
    pattern_of_group
      [section_spec "a" "hero" (coordinates 0 0 1000 300);
       section_spec "b" "hero" (coordinates 0 300 500 200)] = Ok pat
    /\ min_area pat = 100000 /\ max_area pat = 300000.
Proof.
  destruct (pattern_of_group
              [section_spec "a" "hero" (coordinates 0 0 1000 300);
               section_spec "b" "hero" (coordinates 0 300 500 200)])
    as [pat|] eqn:E; [|vm_compute in E; discriminate E].
  exists pat. split; [reflexivity|].
  assert (Hne : [section_spec "a" "hero" (coordinates 0 0 1000 300);
                 section_spec "b" "hero" (coordinates 0 300 500 200)] <> [])
    by discriminate.
  destruct (pattern_area_range _ pat Hne E)
    as (ms & Hms & _ & _ & _ & Hmin & Hmax & _).
  vm_compute in Hms. injection Hms as <-.
  vm_compute in E. injection E as <-. split; reflexivity.
Defined.

(** ** The recommendations *)

Lemma rare_types_counted (tags : list string) (t : string) :
  In t (rare_types_of (counter_of String.eqb tags))
  <-> occurrences String.eqb t tags = 1.
Proof.
  destruct (counter_of_counted String.eqb String.eqb_refl String.eqb_sym
              string_eqb_transitive tags) as (Hcounts & _ & Hall & _).
  rewrite Forall_forall in Hcounts. unfold rare_types_of. split.
  - intro Hin. apply in_map_iff in Hin as (kn & <- & Hkn).
    apply filter_In in Hkn as [Hkn Hone].
    destruct (Hcounts kn Hkn) as (Hocc & _). rewrite <- Hocc. lia.
  - intro Hone.
    assert (Hin : In t tags).
    { unfold occurrences in Hone.
      destruct (filter (String.eqb t) tags) as [|y l] eqn:Hf;
        [discriminate|].
      assert (Hy : In y (filter (String.eqb t) tags))
        by (rewrite Hf; now left).
      apply filter_In in Hy as [Hy Hty].
      apply String.eqb_eq in Hty. now subst y. }
    destruct (Hall t Hin) as (kn & Hkn & Heq).
    apply String.eqb_eq in Heq.
    apply in_map_iff. exists kn. split; [exact Heq|].
    apply filter_In. split; [exact Hkn|].
    destruct (Hcounts kn Hkn) as (Hocc & _). rewrite Hocc, Heq. lia.
Qed.

Lemma counter_most_common_facts (tags : list string) (n : nat) :
  sum_Z (map snd (counter_of String.eqb tags)) = Z.of_nat (length tags)
  /\ length (most_common n (counter_of String.eqb tags))
     = Nat.min n (length (counter_of String.eqb tags)).
Proof.
  destruct (counter_of_counted String.eqb String.eqb_refl String.eqb_sym
              string_eqb_transitive tags) as (_ & _ & _ & Hsum).
  split; [exact Hsum|].
  unfold most_common. rewrite length_firstn.
  destruct (sorted_by_count (counter_of String.eqb tags) [] (Sorted_nil _))
    as [_ Hp].
  now rewrite (Permutation_length Hp).
Qed.

(** X19.  The recommendations follow the counts of the catalog.  There are at
    most three, none for an empty catalog; for any other catalog the first
    names the most common types; the sentence on rare types is there
    exactly when a type has a single module, and the types it names are
    the types with a single module; the sentence on the large catalog is
    there exactly when the catalog has more than fifty modules. *)
Theorem recommendations_follow_counts :
  forall (p : processor) (tags : list string),
    result_map section_type_tag (sections_catalog p) = Ok tags ->
    let type_counts := counter_of String.eqb tags in
    exists recs,
      generate_recommendations p = Ok recs
      /\ (length recs <= 3)%nat
      /\ (sections_catalog p = [] <-> recs = [])
      /\ (sections_catalog p <> [] ->
          hd_error recs = Some (most_used_text (most_common 3 type_counts)))
      /\ (In (rare_types_text (rare_types_of type_counts)) recs
          <-> exists t, occurrences String.eqb t tags = 1)
      /\ (forall t, In t (rare_types_of type_counts)
                    <-> occurrences String.eqb t tags = 1)
      /\ (In large_catalog_text recs
          <-> 50 < Z.of_nat (length (sections_catalog p))).
Proof.
  intros p tags Htags type_counts.
  unfold generate_recommendations. rewrite Htags. cbn [rbind].
  fold type_counts. eexists. split; [reflexivity|].
  pose proof (result_map_Forall2 _ _ _ Htags) as Hlen.
  apply Forall2_length in Hlen.
  destruct (counter_most_common_facts tags 3) as (Hsum & Htop).
  fold type_counts in Hsum, Htop.
  set (most := most_common 3 type_counts) in *.
  set (rare := rare_types_of type_counts) in *.
  assert (Hused : forall m, large_catalog_text <> most_used_text m)
    by (intros m H; unfold large_catalog_text, most_used_text in H;
        cbn in H; discriminate H).
  assert (Hrare : forall r, large_catalog_text <> rare_types_text r)
    by (intros r H; unfold large_catalog_text, rare_types_text in H;
        cbn in H; discriminate H).
  assert (Hboth : forall m r, rare_types_text r <> most_used_text m)
    by (intros m r H; unfold rare_types_text, most_used_text in H;
        cbn in H; discriminate H).
  assert (Hmost : sections_catalog p = [] <-> most = []).
  { split.
    - intro Hc. rewrite Hc in Hlen. destruct tags; [|discriminate].
      reflexivity.
    - intro Hm. rewrite Hm in Htop. cbn [length] in Htop.
      destruct type_counts as [|kn c]; [|discriminate].
      cbn in Hsum. destruct (sections_catalog p); [reflexivity|].
      cbn [length] in Hlen. rewrite <- Hlen in Hsum. cbn [length] in Hsum.
      lia. }
  assert (Hrare_empty : sections_catalog p = [] -> rare = []).
  { intro Hc. rewrite Hc in Hlen. destruct tags; [|discriminate].
    reflexivity. }
  split; [|split; [|split; [|split; [|split]]]].
  - destruct most; destruct rare;
      destruct (50 <? Z.of_nat (length (sections_catalog p)));
      cbn; lia.
  - split.
    + intro Hc. rewrite (proj1 Hmost Hc), (Hrare_empty Hc), Hc. reflexivity.
    + intro Hnil. apply Hmost.
      destruct most; [reflexivity|discriminate].
  - intro Hne. destruct most as [|m most'] eqn:Em; [|reflexivity].
    now contradiction Hne; apply Hmost.
  - split.
    + intro Hin. destruct rare as [|t r] eqn:Er.
      * exfalso. cbn [app] in Hin.
        apply in_app_or in Hin as [Hin|Hin].
        -- destruct most; [destruct Hin|].
           destruct Hin as [Hin|[]]. now apply (Hboth _ _ (eq_sym Hin)).
        -- destruct (50 <? _); [|destruct Hin].
           destruct Hin as [Hin|[]]. now apply (Hrare _ Hin).
      * exists t. apply rare_types_counted. fold type_counts. fold rare.
        rewrite Er. now left.
    + intros (t & Ht). apply rare_types_counted in Ht.
      fold type_counts in Ht. fold rare in Ht.
      destruct rare as [|t' r]; [destruct Ht|].
      apply in_or_app. right. now left.
  - intro t. apply rare_types_counted.
  - split.
    + intro Hin. apply in_app_or in Hin as [Hin|Hin].
      * destruct most; [destruct Hin|].
        destruct Hin as [Hin|[]]. now contradiction (Hused _ (eq_sym Hin)).
      * apply in_app_or in Hin as [Hin|Hin].
        -- destruct rare; [destruct Hin|].
           destruct Hin as [Hin|[]]. now contradiction (Hrare _ (eq_sym Hin)).
        -- destruct (Z.ltb_spec 50 (Z.of_nat (length (sections_catalog p))));
             [assumption|destruct Hin].
    + intro Hbig. apply in_or_app. right. apply in_or_app. right.
      apply Z.ltb_lt in Hbig. rewrite Hbig. now left.
Qed.

Lemma recommendations_follow_counts_witness :
  generate_recommendations (final_state hero_footer_world)
  = Ok [most_used_text [("hero", 2); ("footer", 1)];
        rare_types_text ["footer"]].
Proof.
  destruct (recommendations_follow_counts (final_state hero_footer_world)
              ["hero"; "hero"; "footer"] ltac:(vm_compute; reflexivity))
    as (recs & Hrecs & _).
  rewrite Hrecs. vm_compute in Hrecs. injection Hrecs as <-.
  vm_compute. reflexivity.
Defined.

(** ** The shape of an identifier *)

Lemma ascii_lower_shape (c : ascii) :
  let n := N_of_ascii (ascii_lower c) in
  ((65 <=? n)%N && (n <=? 90)%N = false)
  /\ ascii_lower (ascii_lower c) = ascii_lower c.
Proof.
  destruct c as [[] [] [] [] [] [] [] []]; vm_compute; split; reflexivity.
Qed.

Lemma normalize_type_as_map (t : string) :
  normalize_type t
  = string_of_list_ascii
      (map (fun c => if Ascii.eqb (ascii_lower c) " " then "_"%char
                     else ascii_lower c)
         (list_ascii_of_string t)).
Proof.
  rewrite <- normalize_type_chars. now rewrite string_of_list_ascii_of_string.
Qed.

Lemma normalize_type_length (t : string) :
  String.length (normalize_type t) = String.length t.
Proof.
  unfold normalize_type. induction t as [|c t IH]; [reflexivity|].
  cbn [str_lower str_replace_char].
  match goal with
  | |- context [if ?b then _ else _] => destruct b
  end; cbn [String.length]; now f_equal.
Qed.

(** X20.  The identifier of a section with an ASCII type: the normalized
    type, an underscore and the counter.  The normalized type has the
    length of the type and holds no space and no capital letter;
    normalizing it again changes nothing; the counter can be read back
    behind the last underscore; up to 9999 the identifier is five
    characters longer than the type. *)
Theorem section_id_shape :
  forall (section : json) (t : string) (counter : Z),
    py_getitem section "type" = Ok (JStr t) ->
    is_ascii t = true ->
    0 <= counter ->
    generate_section_id section counter
    = Ok (normalize_type t ++ "_" ++ format_04d counter)%string
    /\ String.length (normalize_type t) = String.length t
    /\ Forall (fun c => c <> " "%char
                        /\ let n := N_of_ascii c in
                           (65 <=? n)%N && (n <=? 90)%N = false)
         (list_ascii_of_string (normalize_type t))
    /\ normalize_type (normalize_type t) = normalize_type t
    /\ sequence_number (normalize_type t ++ "_" ++ format_04d counter)
       = Some counter
    /\ (counter < 10000 ->
        String.length (normalize_type t ++ "_" ++ format_04d counter)
        = (String.length t + 5)%nat)
    /\ is_ascii (normalize_type t) = true.
Proof.
  intros section t counter Hty Hascii Hc.
  pose proof (normalize_type_length t) as Hlen.
  split; [|split; [exact Hlen|split; [|split; [|split; [|split]]]]].
  - unfold generate_section_id. rewrite Hty. reflexivity.
  - rewrite normalize_type_chars. apply Forall_forall. intros c Hin.
    apply in_map_iff in Hin as (c0 & <- & _).
    destruct (ascii_lower_shape c0) as [Hup _].
    destruct (Ascii.eqb_spec (ascii_lower c0) " ") as [E|E].
    + split; [discriminate|reflexivity].
    + split; [exact E|exact Hup].
  - rewrite (normalize_type_as_map (normalize_type t)).
    rewrite normalize_type_chars, map_map.
    rewrite (normalize_type_as_map t). f_equal. apply map_ext. intro c.
    destruct (ascii_lower_shape c) as [_ Hidem].
    destruct (Ascii.eqb_spec (ascii_lower c) " ") as [E|E].
    + reflexivity.
    + now rewrite Hidem, (proj2 (Ascii.eqb_neq _ _) E).
  - apply (sequence_number_make t counter Hc).
  - intro Hlt. rewrite !length_string_app, Hlen.
    pose proof (format_four_digits counter ltac:(lia)) as Hd.
    destruct (format_04d counter) as [|d1 [|d2 [|d3 [|d4 [|]]]]];
      try discriminate Hd.
    cbn [String.length]. lia.
  - unfold is_ascii in *. apply forallb_forall. intros c Hin.
    rewrite normalize_type_chars in Hin.
    apply in_map_iff in Hin as (c0 & <- & Hc0).
    rewrite forallb_forall in Hascii. specialize (Hascii c0 Hc0).
    revert Hascii. clear.
    destruct c0 as [[] [] [] [] [] [] [] []]; vm_compute; auto.
Qed.

Lemma section_id_shape_witness :
  generate_section_id (section_spec "a" "Hero Banner" (coordinates 0 0 1 1)) 7
  = Ok "hero_banner_0007".
Proof.
  apply (section_id_shape (section_spec "a" "Hero Banner" (coordinates 0 0 1 1))
           "Hero Banner" 7 eq_refl eq_refl ltac:(lia)).
Defined.

(** ** A section cropped by a library that does not fail *)

(** A file name that does not start at the root stays under the output
    directory. *)
Lemma output_paths_relative (base : string) :
  is_absolute base = false ->
  relative_to_output (full_path base) = Ok (full_path base)
  /\ relative_to_output (medium_path base) = Ok (medium_path base)
  /\ relative_to_output (thumb_path base) = Ok (thumb_path base).
Proof.
  intro H. unfold full_path, medium_path, thumb_path, path_join.
  destruct base as [|c base]; cbn [String.append is_absolute] in *.
  - repeat split.
  - rewrite H. repeat split.
Qed.

(** The file name made for a section starts at the root only when the
    type tag does. *)
Lemma section_file_relative (t : string) (counter : Z) :
  has_slash t = false ->
  is_absolute (make_section_id t counter ++ "_" ++ t) = false.
Proof.
  unfold make_section_id, normalize_type.
  destruct t as [|c t]; [reflexivity|].
  cbn [has_slash str_lower str_replace_char String.append is_absolute].
  intro H. apply orb_false_iff in H as [H _]. revert H. clear.
  destruct c as [[] [] [] [] [] [] [] []]; vm_compute; auto.
Qed.

Lemma render_section_quiet (w : World) (screenshot : string)
    (box : Z * Z * Z * Z) (size medium thumb : Z * Z)
    (section_id section_type : string) (p : processor) :
  (forall call, pil_raises w screenshot call = None) ->
  calculate_resize size (400, 300) = Ok medium ->
  calculate_resize size (200, 150) = Ok thumb ->
  is_absolute (section_id ++ "_" ++ section_type) = false ->
  let base := (section_id ++ "_" ++ section_type)%string in
  render_section w screenshot box size section_id section_type p
  = (Ok (Some (JObj
       [("full", JStr (full_path base));
        ("medium", JStr (medium_path base));
        ("thumbnail", JStr (thumb_path base));
        ("dimensions", JObj
           [("original", size_json size);
            ("medium", size_json medium);
            ("thumbnail", size_json thumb)])])),
     record_saved (thumb_path base)
       (record_saved (medium_path base) (record_saved (full_path base) p))).
Proof.
  intros Hquiet Hm Ht Hrel base.
  destruct (output_paths_relative base Hrel) as (R1 & R2 & R3).
  unfold render_section, bind, pil, lift, modify, ret.
  fold base.
  rewrite !Hquiet, Hm. cbn [rbind]. rewrite !Hquiet, Ht. cbn [rbind].
  rewrite !Hquiet, R1, R2, R3. reflexivity.
Qed.

(** X21.  When no call into the imaging library fails on the screenshot, a
    section with integer coordinates whose clamped region has an extent
    and whose type is an ASCII string without a path separator is
    cataloged: the three files are saved in the order full, medium,
    thumbnail, under the output directory; the section enters the catalog
    and its type group with the identifier of the current counter and the
    name of the screenshot, and the counter goes up by one. *)
Theorem section_in_quiet_library_is_cataloged :
  forall (w : World) (screenshot : string) (img_width img_height : Z)
         (section coords : json) (t : string)
         (x y width height x' y' width' height' : Z) (st : cropping),
    (forall call, pil_raises w screenshot call = None) ->
    py_getitem section "type" = Ok (JStr t) ->
    is_ascii t = true ->
    has_slash t = false ->
    py_getitem section "coordinates" = Ok coords ->
    read_coordinates coords = Ok (x, y, width, height) ->
    clamp_box (img_width, img_height) x y width height
    = (x', y', width', height') ->
    0 < width' < 2 ^ 53 -> 0 < height' < 2 ^ 53 ->
    let section_id := make_section_id t (section_counter st) in
    let base := (section_id ++ "_" ++ t)%string in
    exists e cropped_files,
      process_section w screenshot (img_width, img_height) section st
      = (Ok tt,
         {| self := catalog_section t e
                      (record_saved (thumb_path base)
                         (record_saved (medium_path base)
                            (record_saved (full_path base) (self st))));
            section_counter := section_counter st + 1 |})
      /\ enrich section section_id (path_name screenshot) cropped_files
           (now_isoformat w (section_counter st)) = Ok e
      /\ py_getitem e "unique_id" = Ok (JStr section_id)
      /\ py_getitem e "cropped_files" = Ok cropped_files
      /\ recorded_size cropped_files "original" = Ok (width', height')
      /\ py_getitem cropped_files "full"
         = Ok (JStr ("images/full/" ++ base ++ ".png"))
      /\ py_getitem cropped_files "medium"
         = Ok (JStr ("images/medium/" ++ base ++ "_medium.png"))
      /\ py_getitem cropped_files "thumbnail"
         = Ok (JStr ("images/thumbnails/" ++ base ++ "_thumb.png")).
Proof.
  intros w screenshot img_width img_height section coords t
         x y width height x' y' width' height' st
         Hquiet Ht _ Hslash Hc Hread Hclamp Hw Hh section_id base.
  pose proof (section_file_relative t (section_counter st) Hslash) as Hrel.
  fold section_id in Hrel. fold base in Hrel.
  destruct (calculate_resize_spec width' height' 400 300
              ltac:(lia) ltac:(lia) ltac:(lia) ltac:(lia))
    as (s1 & mw & mh & _ & Hmedium & _).
  destruct (calculate_resize_spec width' height' 200 150
              ltac:(lia) ltac:(lia) ltac:(lia) ltac:(lia))
    as (s2 & tw & th & _ & Hthumb & _).
  pose proof (render_section_quiet w screenshot
                (x', y', x' + width', y' + height') (width', height')
                (mw, mh) (tw, th) section_id t (self st)
                Hquiet Hmedium Hthumb Hrel) as Hrender.
  cbv zeta in Hrender. fold base in Hrender.
  assert (Hpaths : full_path base = ("images/full/" ++ base ++ ".png")%string
                   /\ medium_path base
                      = ("images/medium/" ++ base ++ "_medium.png")%string
                   /\ thumb_path base
                      = ("images/thumbnails/" ++ base ++ "_thumb.png")%string).
  { unfold full_path, medium_path, thumb_path, path_join.
    destruct base as [|c base']; cbn [String.append is_absolute] in *;
      [repeat split|rewrite Hrel; repeat split]. }
  destruct Hpaths as (P1 & P2 & P3).
  destruct section as [| | | | |kv]; try discriminate Ht.
  eexists. eexists.
  split; [|split; [|split; [|split; [|split; [|split; [|split]]]]]].
  - unfold process_section, bind, gets, lift, generate_section_id, rbind.
    cbn [fst snd]. rewrite Ht, Hc. fold section_id. unfold on_self.
    rewrite (crop_section_image_unfold w screenshot (img_width, img_height)
               coords section_id t x y width height (self st) Hread).
    rewrite Hclamp.
    replace ((width' <=? 0) || (height' <=? 0)) with false
      by (symmetry; apply orb_false_iff; rewrite !Z.leb_gt; lia).
    unfold try_except. rewrite Hrender.
    cbn [enrich py_setitem rbind]. unfold modify, catalog_and_count.
    cbn [self section_counter]. reflexivity.
  - reflexivity.
  - cbn [py_getitem].
    rewrite !dict_get_set_other, dict_get_set_same by discriminate.
    reflexivity.
  - cbn [py_getitem].
    rewrite dict_get_set_other, dict_get_set_same by discriminate.
    reflexivity.
  - reflexivity.
  - cbn [py_getitem dict_get String.eqb Ascii.eqb Bool.eqb]. now rewrite P1.
  - cbn [py_getitem dict_get String.eqb Ascii.eqb Bool.eqb]. now rewrite P2.
  - cbn [py_getitem dict_get String.eqb Ascii.eqb Bool.eqb]. now rewrite P3.
Qed.

Lemma section_in_quiet_library_is_cataloged_witness :
  let st := snd (process_section s1_world "screenshots/s1.png" (1000, 2000)
                   (section_spec "a" "hero" (coordinates 900 0 200 300))
                   start_of_cropping) in
  section_counter st = 2
  /\ map section_unique_id (sections_catalog (self st)) = [Some "hero_0001"]
  /\ length (saved_files (self st)) = 3%nat.
Proof.
  destruct (section_in_quiet_library_is_cataloged s1_world
              "screenshots/s1.png" 1000 2000
              (section_spec "a" "hero" (coordinates 900 0 200 300))
              (coordinates 900 0 200 300) "hero" 900 0 200 300 900 0 100 300
              start_of_cropping (fun _ => eq_refl) eq_refl eq_refl eq_refl
              eq_refl eq_refl eq_refl ltac:(lia) ltac:(lia))
    as (e & cf & Hrun & He & _).
  rewrite Hrun. vm_compute in He. injection He as <-.
  vm_compute. repeat split.
Defined.

(** A type tag that starts at the root: the three files are saved where
    the name says, [relative_to] raises, and the section is dropped; the
    error log stays empty. *)
Example rooted_tag_is_dropped :
  let p := final_state
             (one_file_world (1000%N, 2000%N)
                [section_spec "a" "/tmp/a" (coordinates 0 0 100 100)]) in
  sections_catalog p = []
  /\ errors p = []
  /\ saved_files p
     = ["/tmp/a_0001_/tmp/a.png"; "/tmp/a_0001_/tmp/a_medium.png";
        "/tmp/a_0001_/tmp/a_thumb.png"].
Proof. vm_compute. repeat split. Qed.

(** ** The height factor of the performance analyzer *)

(** X22.  The height factor as a step function of the height: the steps lie
    halfway between the optimal heights, and a height halfway between two
    of them takes the factor of the smaller one. *)
Theorem optimal_height_factor_steps :
  forall (height y_pos : Z),
    optimal_height_factor height y_pos
    = Ok (py_float_literal
            (if y_pos <? 800 then
               if height <=? 300 then 1
               else if height <=? 500 then 12 # 10
               else if height <=? 700 then 11 # 10
               else 9 # 10
             else
               if height <=? 225 then 8 # 10
               else if height <=? 375 then 1
               else if height <=? 525 then 11 # 10
               else 9 # 10)).
Proof.
  intros height y_pos.
  unfold optimal_height_factor, optimal_heights, py_min_by_key.
  destruct (y_pos <? 800); cbn [map fst fold_left rbind];
    repeat match goal with
           | |- context [Z.abs ?a <? Z.abs ?b] =>
               lazymatch b with
               | context [Z.ltb] => fail
               | _ => destruct (Z.ltb_spec (Z.abs a) (Z.abs b))
               end
           end;
    cbn [table_get Z.eqb Pos.eqb];
    repeat match goal with
           | |- context [height <=? ?n] => destruct (Z.leb_spec height n)
           end;
    first [reflexivity | lia].
Qed.

(** ** The frequency analysis against the breakdown by type *)

Lemma regroup_sizes (l : list json) :
  forall tags,
    Forall2 (fun s t => section_type_tag s = Ok t) l tags ->
    forall t,
      match dict_get t (regroup l) with
      | Some g => Z.of_nat (length g)
      | None => 0
      end = occurrences String.eqb t tags.
Proof.
  induction l as [|s l IH] using rev_ind; intros tags Htags t.
  - inversion Htags; subst. reflexivity.
  - apply Forall2_app_inv_l in Htags as (tags' & last & Hl & Hs & ->).
    inversion Hs as [|? ts ? ? Hts Hnil]; subst. inversion Hnil; subst.
    rewrite (regroup_snoc l s ts Hts), dict_get_group_append.
    rewrite occurrences_snoc. specialize (IH tags' Hl t).
    destruct (String.eqb t ts).
    + rewrite <- IH. destruct (dict_get t (regroup l));
        rewrite ?length_app; cbn [length app]; lia.
    + rewrite <- IH. destruct (dict_get t (regroup l)); lia.
Qed.

Lemma dict_get_sizes (t : string) (groups : dict (list json)) :
  dict_get t (map (fun g => (fst g, Z.of_nat (length (snd g)))) groups)
  = option_map (fun g => Z.of_nat (length g)) (dict_get t groups).
Proof.
  induction groups as [|[k g] groups IH]; [reflexivity|].
  cbn [map dict_get fst snd]. now destruct (String.eqb t k).
Qed.

(** X23.  The frequency analysis of the patterns and the breakdown of the
    statistics agree: every type the analysis ranks has, in the
    breakdown, the count the analysis gives it; the ranking holds the ten
    most frequent types, or all of them when there are fewer, and the
    count does not go up along it. *)
Theorem frequency_analysis_matches_breakdown :
  forall (w : World) (arts : artifacts) (p : processor),
    run_full_processing w new_processor = (Ok (Some arts), p) ->
    let ranking := most_common_types (out_patterns arts) in
    let breakdown := section_type_breakdown (out_statistics arts) in
    (forall t c, In (t, c) ranking -> dict_get t breakdown = Some c /\ 0 < c)
    /\ length ranking = Nat.min 10 (length breakdown)
    /\ Sorted by_count ranking.
Proof.
  intros w arts p Hrun.
  destruct (run_artifacts w new_processor p arts Hrun) as (Hp & Hc & Hs).
  assert (Hfin : p = final_state w) by (unfold final_state; now rewrite Hrun).
  destruct (final_state_invariant w) as (c0 & Hinv).
  rewrite <- Hfin in Hinv.
  pose proof (inv_groups _ _ Hinv) as Hgroups. cbn [self] in Hgroups.
  pose proof (tallies_agree_final w) as (_ & T2 & _). rewrite <- Hfin in T2.
  unfold analyze_patterns in Hp.
  match type of Hp with
  | context [rbind ?a _] => destruct a as [per_type|]; [|discriminate]
  end.
  cbn [rbind] in Hp.
  destruct (result_map section_type_tag (sections_catalog p)) as [tags|]
    eqn:Htags; [|discriminate].
  cbn [rbind] in Hp. injection Hp as Hp.
  cbv zeta. rewrite <- Hp, Hs.
  cbn [most_common_types section_type_breakdown generate_statistics].
  pose proof (result_map_Forall2 _ _ _ Htags) as Hall.
  pose proof (regroup_sizes _ _ Hall) as Hsizes.
  rewrite <- Hgroups in Hsizes.
  destruct (most_common_of_counter string String.eqb String.eqb_refl
              String.eqb_sym string_eqb_transitive tags 10)
    as ((Hcounts & Hdist & Hevery & Hsum) & Hlen & Hsorted & rest & Hperm & _).
  split; [|split; [|exact Hsorted]].
  - intros t c Hin.
    assert (Hc' : In (t, c) (counter_of String.eqb tags)).
    { apply (Permutation_in _ (Permutation_sym Hperm)), in_or_app. now left. }
    rewrite Forall_forall in Hcounts.
    destruct (Hcounts _ Hc') as (Hocc & Hpos & _). cbn [fst snd] in *.
    split; [|exact Hpos].
    rewrite dict_get_sizes. specialize (Hsizes t).
    destruct (dict_get t (section_types p)) as [g|]; cbn [option_map].
    + f_equal. lia.
    + lia.
  - rewrite Hlen, length_map. f_equal.
    assert (Hkeys : map fst (counter_of String.eqb tags)
                    = dict_keys (regroup (sections_catalog p))).
    { clear - Hall. revert tags Hall.
      induction (sections_catalog p) as [|s l IH] using rev_ind;
        intros tags Hall.
      - inversion Hall; subst. reflexivity.
      - apply Forall2_app_inv_l in Hall as (tags' & last & Hl & Hs & ->).
        inversion Hs as [|? ts ? ? Hts Hnil]; subst. inversion Hnil; subst.
        rewrite (regroup_snoc l s ts Hts), dict_keys_group_append.
        rewrite <- (IH tags' Hl).
        rewrite (counter_of_snoc String.eqb).
        generalize (counter_of String.eqb tags'). intro c.
        induction c as [|[k n] c IHc]; [reflexivity|].
        cbn [counter_add map fst existsb].
        rewrite (String.eqb_sym ts k).
        destruct (String.eqb k ts); cbn [orb map fst]; [reflexivity|].
        rewrite IHc. now destruct (existsb (String.eqb ts) (map fst c)). }
    rewrite <- Hgroups in Hkeys.
    rewrite <- (length_map fst (counter_of String.eqb tags)), Hkeys.
    unfold dict_keys. apply length_map.
Qed.

Lemma frequency_analysis_matches_breakdown_witness :
  exists arts p,
    run_full_processing hero_footer_world new_processor = (Ok (Some arts), p)
    /\ most_common_types (out_patterns arts) = [("hero", 2); ("footer", 1)]
    /\ dict_get "hero" (section_type_breakdown (out_statistics arts))
       = Some 2.
Proof.
  destruct (run_full_processing hero_footer_world new_processor) as [r p]
    eqn:E.
  destruct r as [[arts|]|x];
    try (exfalso; vm_compute in E; discriminate E).
  exists arts, p. split; [reflexivity|].
  destruct (frequency_analysis_matches_breakdown hero_footer_world arts p E)
    as (Hrank & _).
  assert (Hm : most_common_types (out_patterns arts)
               = [("hero", 2); ("footer", 1)]).
  { vm_compute in E. injection E as E _. subst arts. reflexivity. }
  split; [exact Hm|]. apply Hrank. rewrite Hm. now left.
Defined.
